(** * Scripting system: change detection, archival and remote retention

    A shallow embedding of the pipeline of [src/main.py]:
    [source/zip.py] (class [Zip]: fetch, change detection, archival),
    [source/samba.py] (class [SMBServer]: upload, presence check, eviction
    sweep) and the event side of [source/log.py] (class [Log]); and, on
    their own, of the three classes of the report in full ([source/log.py],
    [source/mattermost.py], [source/e_mail.py]).

    Python exceptions are values of an error monad over an explicit world
    (local files, the remote share, the shared [Log] object and the list of
    calls made to the outside); the answers of the outside (HTTP server, SMB
    library, tarfile) are read from an environment record. *)

From Stdlib Require Import ZArith Lia Bool Ascii String List.
From Stdlib Require Import Strings.Byte.
From stdpp Require Import base option list strings gmap pretty.
From Equations Require Import Equations.
From Equations.Prop Require Import Logic.
Import ListNotations.

#[local] Set Warnings "-register-all".
#[local] Open Scope string_scope.
#[local] Open Scope list_scope.
#[local] Open Scope Z_scope.

(* ===================================================================== *)
(** ** Python exceptions *)
(* ===================================================================== *)

Module Py.

(** The exception classes that the sources name in an [except] clause or
    that the statements of the sources raise, with their base class. *)
Inductive exn_class :=
  | Exception
  | ValueError | JSONDecodeError
  | TypeError | KeyError | AttributeError | UnboundLocalError | OverflowError
  | OSError | FileNotFoundError | TimeoutError | ConnectionRefusedError
  | RequestException | HTTPError
  | BadZipFile
  | TarError | CompressionError | ReadError
  | SMBTimeout | NotConnectedError | OperationFailure.

Definition base (c : exn_class) : option exn_class :=
  match c with
  | Exception => None
  | JSONDecodeError => Some ValueError
  | FileNotFoundError | TimeoutError | ConnectionRefusedError
  | RequestException => Some OSError
  | HTTPError => Some RequestException
  | CompressionError | ReadError => Some TarError
  | _ => Some Exception
  end.

Definition class_eqb (a b : exn_class) : bool :=
  match a, b with
  | Exception, Exception | ValueError, ValueError
  | JSONDecodeError, JSONDecodeError | TypeError, TypeError
  | KeyError, KeyError | AttributeError, AttributeError
  | UnboundLocalError, UnboundLocalError | OverflowError, OverflowError
  | OSError, OSError | FileNotFoundError, FileNotFoundError
  | TimeoutError, TimeoutError
  | ConnectionRefusedError, ConnectionRefusedError
  | RequestException, RequestException | HTTPError, HTTPError
  | BadZipFile, BadZipFile | TarError, TarError
  | CompressionError, CompressionError | ReadError, ReadError
  | SMBTimeout, SMBTimeout | NotConnectedError, NotConnectedError
  | OperationFailure, OperationFailure => true
  | _, _ => false
  end.

(** [issubclass c d]: the chain of bases of [c] reaches [d] (the chains of
    the classes above have at most four links). *)
Fixpoint issubclass_upto (n : nat) (c d : exn_class) : bool :=
  class_eqb c d ||
  match n with
  | O => false
  | S n' => match base c with
            | Some b => issubclass_upto n' b d
            | None => false
            end
  end.

Definition issubclass : exn_class -> exn_class -> bool := issubclass_upto 4.

(** An exception object: its class and [str(err)] (for a [KeyError],
    [err.args[0]]). *)
Record exn := Exn { cls : exn_class; args0 : string }.

Definition isinstance (e : exn) (c : exn_class) : bool := issubclass (cls e) c.

(** The outcome of a statement or call. *)
Inductive result (A : Type) :=
  | Ok (a : A)
  | Raise (e : exn).
Arguments Ok {A} a.
Arguments Raise {A} e.

Definition is_ok {A} (r : result A) : bool :=
  match r with Ok _ => true | Raise _ => false end.

End Py.
Export Py.

(* ===================================================================== *)
(** ** hashlib.sha1 *)
(* ===================================================================== *)

(** [hashlib.sha1()] as a streaming object: [update] buffers the bytes it
    is given and compresses every complete 64-byte block, [hexdigest] pads
    what is left.  Words are 32-bit integers in [Z], reduced after each
    addition and rotation. *)
Module Sha1.

Definition bytes := list byte.

Definition byte_val (b : byte) : Z := Z.of_N (Byte.to_N b).

Definition byte_of (z : Z) : byte :=
  match Byte.of_N (Z.to_N (z mod 256)) with
  | Some b => b
  | None => Byte.x00
  end.

Definition w32 (x : Z) : Z := x mod 2 ^ 32.

Definition rotl (n x : Z) : Z :=
  w32 (Z.lor (Z.shiftl x n) (Z.shiftr x (32 - n))).

Definition word_of (b0 b1 b2 b3 : byte) : Z :=
  Z.lor (Z.shiftl (byte_val b0) 24)
    (Z.lor (Z.shiftl (byte_val b1) 16)
       (Z.lor (Z.shiftl (byte_val b2) 8) (byte_val b3))).

Fixpoint words_of (bs : bytes) : list Z :=
  match bs with
  | b0 :: b1 :: b2 :: b3 :: rest => word_of b0 b1 b2 b3 :: words_of rest
  | _ => []
  end.

(** The message schedule: [win] holds the last sixteen words. *)
Fixpoint schedule (n : nat) (win : list Z) : list Z :=
  match n with
  | O => []
  | S n' =>
      let w := rotl 1 (Z.lxor (Z.lxor (nth 13 win 0) (nth 8 win 0))
                              (Z.lxor (nth 2 win 0) (nth 0 win 0))) in
      w :: schedule n' (tl win ++ [w])
  end.

Definition chaining : Type := Z * Z * Z * Z * Z.

Definition round (t : nat) (st : chaining) (w : Z) : chaining :=
  let '(a, b, c, d, e) := st in
  let '(f, k) :=
    if (t <? 20)%nat then
      (Z.lor (Z.land b c) (Z.land (Z.lxor b 4294967295) d), 1518500249)
    else if (t <? 40)%nat then
      (Z.lxor (Z.lxor b c) d, 1859775393)
    else if (t <? 60)%nat then
      (Z.lor (Z.lor (Z.land b c) (Z.land b d)) (Z.land c d), 2400959708)
    else
      (Z.lxor (Z.lxor b c) d, 3395469782) in
  (w32 (rotl 5 a + f + e + k + w), a, rotl 30 b, c, d).

Fixpoint rounds (t : nat) (st : chaining) (ws : list Z) : chaining :=
  match ws with
  | [] => st
  | w :: ws' => rounds (S t) (round t st w) ws'
  end.

Definition compress (h : chaining) (block : bytes) : chaining :=
  let w16 := words_of block in
  let '(a, b, c, d, e) := rounds 0 h (w16 ++ schedule 64 w16) in
  let '(h0, h1, h2, h3, h4) := h in
  (w32 (h0 + a), w32 (h1 + b), w32 (h2 + c), w32 (h3 + d), w32 (h4 + e)).

Definition block_size : nat := 64.

(** Compress the complete blocks at the front of [bs]; what is returned
    with the chaining value is the incomplete block at its end. *)
Equations? absorb (h : chaining) (bs : bytes) : chaining * bytes
  by wf (length bs) lt :=
  absorb h bs with le_lt_dec block_size (length bs) => {
    | left _ := absorb (compress h (firstn block_size bs)) (skipn block_size bs);
    | right _ := (h, bs) }.
Proof.
  rewrite length_skipn. unfold block_size in *. lia.
Qed.

Record t := Mk { chain : chaining; pending : bytes; total : Z }.

Definition new : t :=
  Mk (1732584193, 4023233417, 2562383102, 271733878, 3285377520) [] 0.

Definition update (s : t) (data : bytes) : t :=
  let '(h, rest) := absorb (chain s) (pending s ++ data) in
  Mk h rest (total s + Z.of_nat (length data)).

(** The padding: one bit, zeros up to 56 modulo 64, the length in bits on
    eight bytes. *)
Definition padding (pending_len : nat) (total_len : Z) : bytes :=
  let zeros := ((block_size + 55 - pending_len mod block_size) mod block_size)%nat in
  let bits := total_len * 8 in
  Byte.x80 :: repeat Byte.x00 zeros
    ++ map (fun i => byte_of (Z.shiftr bits (8 * i))) [7; 6; 5; 4; 3; 2; 1; 0].

Definition digest (s : t) : chaining :=
  fst (absorb (chain s) (pending s ++ padding (length (pending s)) (total s))).

Definition hex_digit (z : Z) : ascii :=
  nth (Z.to_nat (z mod 16))
      (list_ascii_of_string "0123456789abcdef") "0"%char.

Definition hex_word (w : Z) : list ascii :=
  map (fun i => hex_digit (Z.shiftr w (4 * i))) [7; 6; 5; 4; 3; 2; 1; 0].

Definition hexdigest (s : t) : string :=
  let '(h0, h1, h2, h3, h4) := digest s in
  string_of_list_ascii
    (hex_word h0 ++ hex_word h1 ++ hex_word h2 ++ hex_word h3 ++ hex_word h4).

(** The digest of a whole content given in one [update]. *)
Definition sha1_hex (content : bytes) : string := hexdigest (update new content).

End Sha1.

(* ===================================================================== *)
(** ** str methods used by the sources *)
(* ===================================================================== *)

Module Str.

(** [s.find(sub) == -1] *)
Definition lacks (sub s : string) : bool :=
  match String.index 0 sub s with
  | Some _ => false
  | None => true
  end.

(** [if s.find(ext) == -1: s = s + ext] *)
Definition with_ext (ext s : string) : string :=
  if lacks ext s then s +:+ ext else s.

(** [s.endswith('/')] *)
Fixpoint endswith_slash (s : string) : bool :=
  match s with
  | EmptyString => false
  | String c EmptyString => Ascii.eqb c "/"
  | String _ rest => endswith_slash rest
  end.

(** [s.split("/")[-1]]: what follows the last slash. *)
Fixpoint last_segment_from (acc s : string) : string :=
  match s with
  | EmptyString => acc
  | String c rest =>
      if Ascii.eqb c "/" then last_segment_from rest rest
      else last_segment_from acc rest
  end.

Definition last_segment (s : string) : string := last_segment_from s s.

(** [s.replace(".tgz", empty)]: every occurrence, from the left. *)
Fixpoint remove_tgz (s : string) : string :=
  match s with
  | String "." (String "t" (String "g" (String "z" rest))) => remove_tgz rest
  | String c rest => String c (remove_tgz rest)
  | EmptyString => EmptyString
  end.

Definition is_digit (c : ascii) : bool :=
  let n := nat_of_ascii c in ((48 <=? n) && (n <=? 57))%nat.

Definition digit_val (c : ascii) : Z := Z.of_nat (nat_of_ascii c) - 48.

Definition is_space (c : ascii) : bool :=
  let n := nat_of_ascii c in ((n =? 32) || ((9 <=? n) && (n <=? 13)))%nat.

(** Two decimal digits, zero padded, and four ([%d], [%m] and [%Y] of
    [strftime]). *)
Definition digit_char (z : Z) : ascii := ascii_of_nat (Z.to_nat (48 + z mod 10)).

Definition dec2 (z : Z) : string :=
  String (digit_char (z / 10)) (String (digit_char z) EmptyString).

Definition dec4 (z : Z) : string := dec2 (z / 100) +:+ dec2 z.

End Str.

(* ===================================================================== *)
(** ** datetime *)
(* ===================================================================== *)

Module Date.

(** [datetime.date]: a valid day of the proleptic Gregorian calendar. *)
Record date := Mk { year : Z; month : Z; day : Z }.

Definition is_leap (y : Z) : bool :=
  (y mod 4 =? 0) && (negb (y mod 100 =? 0) || (y mod 400 =? 0)).

Definition days_in_month (y m : Z) : Z :=
  if m =? 2 then (if is_leap y then 29 else 28)
  else if (m =? 4) || (m =? 6) || (m =? 9) || (m =? 11) then 30
  else 31.

(** [_DAYS_BEFORE_MONTH] of [datetime] (January is 1). *)
Definition DAYS_BEFORE_MONTH (m : Z) : Z :=
  nth (Z.to_nat m) [0; 0; 31; 59; 90; 120; 151; 181; 212; 243; 273; 304; 334] 0.

Definition days_before_year (y : Z) : Z :=
  let y1 := y - 1 in y1 * 365 + y1 / 4 - y1 / 100 + y1 / 400.

Definition days_before_month (y m : Z) : Z :=
  DAYS_BEFORE_MONTH m + (if (2 <? m) && is_leap y then 1 else 0).

Definition MINYEAR : Z := 1.
Definition MAXYEAR : Z := 9999.
Definition MAXORDINAL : Z := 3652059.

(** [date(y, m, d)]: [ValueError] outside the calendar. *)
Definition make (y m d : Z) : result date :=
  if negb ((MINYEAR <=? y) && (y <=? MAXYEAR)) then
    Raise (Exn ValueError "year is out of range")
  else if negb ((1 <=? m) && (m <=? 12)) then
    Raise (Exn ValueError "month must be in 1..12")
  else if negb ((1 <=? d) && (d <=? days_in_month y m)) then
    Raise (Exn ValueError "day is out of range for month")
  else Ok (Mk y m d).

Definition toordinal (x : date) : Z :=
  days_before_year (year x) + days_before_month (year x) (month x) + day x.

(** [_ord2ymd] of [datetime]. *)
Definition fromordinal (ord : Z) : date :=
  let n := ord - 1 in
  let n400 := n / 146097 in
  let n := n mod 146097 in
  let y := n400 * 400 + 1 in
  let n100 := n / 36524 in
  let n := n mod 36524 in
  let n4 := n / 1461 in
  let n := n mod 1461 in
  let n1 := n / 365 in
  let n := n mod 365 in
  let y := y + n100 * 100 + n4 * 4 + n1 in
  if (n1 =? 4) || (n100 =? 4) then Mk (y - 1) 12 31
  else
    let leapyear := (n1 =? 3) && (negb (n4 =? 24) || (n100 =? 3)) in
    let m := Z.shiftr (n + 50) 5 in
    let preceding :=
      DAYS_BEFORE_MONTH m + (if (2 <? m) && leapyear then 1 else 0) in
    if n <? preceding then
      let m' := m - 1 in
      let dim :=
        nth (Z.to_nat m') [0; 31; 28; 31; 30; 31; 30; 31; 31; 30; 31; 30; 31] 0
        + (if (m' =? 2) && leapyear then 1 else 0) in
      Mk y m' (n - (preceding - dim) + 1)
    else Mk y m (n - preceding + 1).

(** [x < y] on dates: the comparison of [(year, month, day)]. *)
Definition lt (x y : date) : bool :=
  (year x <? year y)
  || ((year x =? year y)
      && ((month x <? month y)
          || ((month x =? month y) && (day x <? day y)))).

(** [(today - datetime.timedelta(days=n)).date()]: [OverflowError] when
    the number of days or the resulting day is out of range. *)
Definition minus_days (today : date) (n : Z) : result date :=
  if 999999999 <? Z.abs n then
    Raise (Exn OverflowError "days out of range for timedelta")
  else
    let ord := toordinal today - n in
    if (1 <=? ord) && (ord <=? MAXORDINAL) then Ok (fromordinal ord)
    else Raise (Exn OverflowError "date value out of range").

(** [x.strftime('%Y%d%m')]: year, then DAY, then month. *)
Definition strftime_Ydm (x : date) : string :=
  Str.dec4 (year x) +:+ Str.dec2 (day x) +:+ Str.dec2 (month x).

(** *** [datetime.datetime.strptime(s, "%Y%d%m").date()]

    [_strptime] matches [s] against
    [(?P<Y>\d\d\d\d)(?P<d>3[0-1]|[1-2]\d|0[1-9]|[1-9]| [1-9])(?P<m>1[0-2]|0[1-9]|[1-9])]
    with [re.match] (alternatives tried from left to right, the first
    combination that matches wins), raises [ValueError] when no combination
    matches or when the match does not reach the end of [s], and then builds
    the date.  Digits are the ASCII digits. *)

Definition chars := list ascii.

(** The branches of the [%d] group that match a prefix of [s], in the
    order of the alternation, each with the day and what follows. *)
Definition day_branches (s : chars) : list (Z * chars) :=
  let d := Str.digit_val in
  (match s with
   | "3"%char :: c :: r =>
       if (Ascii.eqb c "0" || Ascii.eqb c "1") then [(30 + d c, r)] else []
   | _ => [] end)
  ++ (match s with
      | a :: c :: r =>
          if (Ascii.eqb a "1" || Ascii.eqb a "2") && Str.is_digit c
          then [(10 * d a + d c, r)] else []
      | _ => [] end)
  ++ (match s with
      | "0"%char :: c :: r =>
          if Str.is_digit c && negb (Ascii.eqb c "0") then [(d c, r)] else []
      | _ => [] end)
  ++ (match s with
      | c :: r =>
          if Str.is_digit c && negb (Ascii.eqb c "0") then [(d c, r)] else []
      | _ => [] end)
  ++ (match s with
      | " "%char :: c :: r =>
          if Str.is_digit c && negb (Ascii.eqb c "0") then [(d c, r)] else []
      | _ => [] end).

(** The same for the [%m] group. *)
Definition month_branches (s : chars) : list (Z * chars) :=
  let d := Str.digit_val in
  (match s with
   | "1"%char :: c :: r =>
       if (Ascii.eqb c "0" || Ascii.eqb c "1" || Ascii.eqb c "2")
       then [(10 + d c, r)] else []
   | _ => [] end)
  ++ (match s with
      | "0"%char :: c :: r =>
          if Str.is_digit c && negb (Ascii.eqb c "0") then [(d c, r)] else []
      | _ => [] end)
  ++ (match s with
      | c :: r =>
          if Str.is_digit c && negb (Ascii.eqb c "0") then [(d c, r)] else []
      | _ => [] end).

(** [re.match]: the first day branch after which a month branch matches,
    with the first such month branch. *)
Fixpoint first_match (y : Z) (days : list (Z * chars)) : option (Z * Z * Z * chars) :=
  match days with
  | [] => None
  | (d, r) :: days' =>
      match month_branches r with
      | (m, r') :: _ => Some (y, d, m, r')
      | [] => first_match y days'
      end
  end.

Definition re_match (s : chars) : option (Z * Z * Z * chars) :=
  match s with
  | a :: b :: c :: d :: r =>
      if Str.is_digit a && Str.is_digit b && Str.is_digit c && Str.is_digit d
      then
        let v := Str.digit_val in
        first_match (1000 * v a + 100 * v b + 10 * v c + v d) (day_branches r)
      else None
  | _ => None
  end.

Definition strptime_Ydm (s : string) : result date :=
  match re_match (list_ascii_of_string s) with
  | None => Raise (Exn ValueError "time data does not match format '%Y%d%m'")
  | Some (y, d, m, []) => make y m d
  | Some (_, _, _, _ :: _) => Raise (Exn ValueError "unconverted data remains")
  end.

End Date.

(* ===================================================================== *)
(** ** json values and the builtin [int] *)
(* ===================================================================== *)

Module Json.

(** What [json.load] returns (real numbers are left out); [JObj] is the
    [dict], a key bound once. *)
Inductive json :=
  | JNull
  | JBool (b : bool)
  | JInt (n : Z)
  | JStr (s : string)
  | JArr (items : list json)
  | JObj (fields : list (string * json)).

Fixpoint assoc (k : string) (fields : list (string * json)) : option json :=
  match fields with
  | [] => None
  | (k', v) :: rest => if String.eqb k k' then Some v else assoc k rest
  end.

(** [v[k]] for a string key [k]. *)
Definition getitem (v : json) (k : string) : result json :=
  match v with
  | JObj fields =>
      match assoc k fields with
      | Some x => Ok x
      | None => Raise (Exn KeyError k)
      end
  | JStr _ => Raise (Exn TypeError "string indices must be integers")
  | JArr _ => Raise (Exn TypeError "list indices must be integers or slices, not str")
  | _ => Raise (Exn TypeError "object is not subscriptable")
  end.

(** [v] is the empty string or [None] *)
Definition blank (v : json) : bool :=
  match v with
  | JNull => true
  | JStr EmptyString => true
  | _ => false
  end.

Fixpoint lstrip (s : list ascii) : list ascii :=
  match s with
  | c :: r => if Str.is_space c then lstrip r else s
  | [] => []
  end.

Definition strip (s : list ascii) : list ascii := rev (lstrip (rev (lstrip s))).

(** Decimal digits, single underscores between digits allowed. *)
Fixpoint digits (acc : Z) (after_digit : bool) (s : list ascii) : option Z :=
  match s with
  | [] => if after_digit then Some acc else None
  | c :: r =>
      if Str.is_digit c then digits (10 * acc + Str.digit_val c) true r
      else if Ascii.eqb c "_" && after_digit then
        match r with
        | d :: _ => if Str.is_digit d then digits acc false r else None
        | [] => None
        end
      else None
  end.

Definition int_of_str (s : string) : option Z :=
  match strip (list_ascii_of_string s) with
  | "-"%char :: r => option_map Z.opp (digits 0 false r)
  | "+"%char :: r => digits 0 false r
  | r => digits 0 false r
  end.

(** [int(v)] *)
Definition int (v : json) : result Z :=
  match v with
  | JInt n => Ok n
  | JBool b => Ok (if b then 1 else 0)
  | JStr s =>
      match int_of_str s with
      | Some n => Ok n
      | None => Raise (Exn ValueError "invalid literal for int() with base 10")
      end
  | _ => Raise (Exn TypeError "int() argument must be a string or a real number")
  end.

End Json.
Export Json.

(* ===================================================================== *)
(** ** The world of a run *)
(* ===================================================================== *)

(** [smb.base.SharedFile] as the sources read it. *)
Record SharedFile := MkShared { filename : string; isDirectory : bool }.

(** The members of the downloaded zip: name, the bytes that extraction
    writes, and whether extraction ends without [BadZipFile]. *)
Record ZipMember := MkMember { member_name : string; member_data : Sha1.bytes; member_ok : bool }.

(** The response to [requests.get]: the status and, when the body is a
    zip container, its members. *)
Record Response := MkResponse { status_code : Z; zip_body : option (list ZipMember) }.

(** The answers of the outside during one run. *)
Record Env := MkEnv {
  today : Date.date;                   (* datetime.datetime.today() *)
  config_file : result json;           (* open(config) and json.load *)
  http_get : result Response;          (* requests.get(url) *)
  tar_add : option exn;                (* tarfile failing on an existing file *)
  targz : string -> Sha1.bytes -> Sha1.bytes;  (* bytes of the archive of a member *)
  targz_empty : Sha1.bytes;            (* bytes of an archive closed without member *)
  smb_connect : result bool;           (* SMBConnection.connect(ip) *)
  smb_store : option exn;              (* storeFile failing *)
  smb_list : option exn;               (* listPath failing *)
  smb_delete : string -> option exn    (* deleteFiles failing on a path *)
}.

Inductive severity := INFO | WARNING | ERROR.

(** One status event: the level, the name of the action, the message. *)
Record StatusEvent := Event { level : severity; action_name : string; message : option string }.

(** The [Log] object shared by [Zip] and [SMBServer]: the events in the
    order of the run and the two counters.  The notification collaborators
    ([Mattermost], [Email]) are fed the same events and are left out. *)
Record Log := MkLog { events : list StatusEvent; nb_error : nat; nb_warning : nat }.

(** The calls that leave the process. *)
Inductive call :=
  | HttpGet
  | TarOpen (name : string)
  | SmbConnect
  | SmbStoreFile (path : string)
  | SmbListPath (path : string)
  | SmbDeleteFiles (path : string)
  | SmbClose
  | SendNotificationEmail.

Record World := MkWorld {
  env : Env;
  fs : gmap string Sha1.bytes;         (* files of the working directory *)
  remote : list SharedFile;            (* the directory of the share *)
  log : Log;
  calls : list call
}.

Definition set_fs (f : gmap string Sha1.bytes -> gmap string Sha1.bytes) (w : World) : World :=
  MkWorld (env w) (f (fs w)) (remote w) (log w) (calls w).

Definition set_remote (f : list SharedFile -> list SharedFile) (w : World) : World :=
  MkWorld (env w) (fs w) (f (remote w)) (log w) (calls w).

Definition set_log (f : Log -> Log) (w : World) : World :=
  MkWorld (env w) (fs w) (remote w) (f (log w)) (calls w).

Definition add_call (c : call) (w : World) : World :=
  MkWorld (env w) (fs w) (remote w) (log w) (calls w ++ [c]).

(** *** Statements: state and exceptions *)

Definition M (A : Type) : Type := World -> result A * World.

Definition ret {A} (a : A) : M A := fun w => (Ok a, w).

Definition bind {A B} (c : M A) (k : A -> M B) : M B :=
  fun w => match c w with
           | (Ok a, w') => k a w'
           | (Raise e, w') => (Raise e, w')
           end.

Definition raise {A} (e : exn) : M A := fun w => (Raise e, w).

Definition lift {A} (r : result A) : M A := fun w => (r, w).

Definition gets {A} (f : World -> A) : M A := fun w => (Ok (f w), w).

Definition modify (f : World -> World) : M unit := fun w => (Ok tt, f w).

(** [try: body except ...: ...]; [handlers e] is the clause that catches
    [e], if one does. *)
Definition try_except {A} (body : M A) (handlers : exn -> option (M A)) : M A :=
  fun w => match body w with
           | (Ok a, w') => (Ok a, w')
           | (Raise e, w') =>
               match handlers e with
               | Some h => h w'
               | None => (Raise e, w')
               end
           end.

Declare Scope py_scope.
Delimit Scope py_scope with py.
Notation "x <- c ;; k" := (bind c (fun x => k))
  (at level 100, c at next level, right associativity) : py_scope.
Notation "c ;;; k" := (bind c (fun _ => k))
  (at level 100, right associativity) : py_scope.
#[local] Open Scope py_scope.

(* ===================================================================== *)
(** ** source/log.py: class Log *)
(* ===================================================================== *)

Module LogM.

Definition empty : Log := MkLog [] 0 0.

(** [Log(...)]: a new object replaces the one the run had.  With
    arguments this is [Log.__init__] as it is when the reports are off
    ([Bounds.reports_off]): it returns and logs no event.
    [Report.Log_init] is the method in full. *)
Definition init : M unit := modify (set_log (fun _ => empty)).

(** [Log.info], [Log.error] and [Log.warning] (log.py, lines 71-140) *)
Definition info (action : string) (msg : option string) : M unit :=
  modify (set_log (fun l =>
    MkLog (events l ++ [Event INFO action msg]) (nb_error l) (nb_warning l))).

Definition error (action : string) (msg : option string) : M unit :=
  modify (set_log (fun l =>
    MkLog (events l ++ [Event ERROR action msg]) (S (nb_error l)) (nb_warning l))).

Definition warning (action : string) (msg : option string) : M unit :=
  modify (set_log (fun l =>
    MkLog (events l ++ [Event WARNING action msg]) (nb_error l) (S (nb_warning l)))).

(** [Log.send_notification_email] (log.py, lines 149-168): the report
    leaves through the notification collaborators.  The method is taken as
    it is when the reports are off ([Bounds.reports_off]): it returns, and
    logs no event.  [Report.send_notification_email] is the method in
    full. *)
Definition send_notification_email : M unit := modify (add_call SendNotificationEmail).

End LogM.

(* ===================================================================== *)
(** ** source/zip.py: class Zip *)
(* ===================================================================== *)

Module ZipM.

Record Zip := MkZip {
  name_tgz : string;
  prev_sql_file : string;
  url_zip : option string;
  name_zip : option string;
  name_sql_file : option string
}.

(** [Zip.__init__] (zip.py, lines 43-54): the name of the archive is the
    day of the run. *)
Definition init : M Zip :=
  d <- gets (fun w => today (env w)) ;;
  ret (MkZip (Date.strftime_Ydm d +:+ ".tgz") "./prev_dump.sql" None None None).

(** [with open(config, "r") as json_file: data = json.load(json_file)] *)
Definition load_config : M json := w <- gets env ;; lift (config_file w).

(** [if v is not None and v.find(ext) == -1: v = v + ext] *)
Definition with_extension (ext : string) (v : json) : result (option string) :=
  match v with
  | JNull => Ok None
  | JStr s => Ok (Some (Str.with_ext ext s))
  | _ => Raise (Exn AttributeError "object has no attribute 'find'")
  end.

(** [Zip.get_config] (zip.py, lines 56-99): the [try] statement ends
    with the two locals, or with [None] when a handler returns from the
    method. *)
Definition get_config (self : Zip) : M Zip :=
  LogM.init ;;;
  locals <- try_except
    (data <- load_config ;;
     user_zip <- lift (getitem data "url-zip") ;;
     user_dump <- lift (getitem data "file") ;;
     _ <- lift (getitem data "notification") ;;
     _ <- lift (getitem data "email") ;;
     _ <- lift (getitem data "mattermost_webhook") ;;
     LogM.init ;;;
     ret (Some (user_zip, user_dump)))
    (fun e =>
       if isinstance e JSONDecodeError then
         Some (LogM.error "JSON file read" None ;;; ret None)
       else if isinstance e KeyError then
         Some (LogM.error "JSON file read" (Some (args0 e)) ;;; ret None)
       else if isinstance e OSError then
         Some (LogM.error "JSON file read" None ;;; ret (Some (JNull, JNull)))
       else None) ;;
  match locals with
  | None => ret self
  | Some (user_zip, user_dump) =>
      (if blank user_zip then LogM.error "JSON file read" None else ret tt) ;;;
      (if blank user_dump then LogM.error "JSON file read" None else ret tt) ;;;
      user_zip' <- lift (with_extension ".zip" user_zip) ;;
      user_dump' <- lift (with_extension ".sql" user_dump) ;;
      match user_zip' with
      | None => raise (Exn AttributeError "'NoneType' object has no attribute 'split'")
      | Some u =>
          ret (MkZip (name_tgz self) (prev_sql_file self)
                     (Some u) (Some (Str.last_segment u)) user_dump')
      end
  end.

(** [requests.get(url)] *)
Definition requests_get (url : option string) : M Response :=
  match url with
  | None => raise (Exn RequestException "Invalid URL 'None': No scheme supplied")
  | Some _ => modify (add_call HttpGet) ;;; w <- gets env ;; lift (http_get w)
  end.

(** [zipfile.ZipFile(BytesIO(req.content))] *)
Definition ZipFile (req : Response) : result (list ZipMember) :=
  match zip_body req with
  | Some z => Ok z
  | None => Raise (Exn BadZipFile "File is not a zip file")
  end.

(** [req.raise_for_status()] *)
Definition raise_for_status (req : Response) : result unit :=
  if (400 <=? status_code req) && (status_code req <? 600)
  then Raise (Exn HTTPError "Client or Server Error")
  else Ok tt.

(** [name in zfile.namelist()] *)
Definition in_namelist (name : option string) (z : list ZipMember) : bool :=
  match name with
  | None => false
  | Some n => existsb (fun m => String.eqb n (member_name m)) z
  end.

(** [zfile.extract(name, os.getcwd())]: the entry of the name is the last
    one that bears it. *)
Definition extract (name : string) (z : list ZipMember) : M unit :=
  match List.find (fun m => String.eqb name (member_name m)) (rev z) with
  | None => raise (Exn KeyError name)
  | Some m =>
      modify (set_fs (insert name (member_data m))) ;;;
      if member_ok m then ret tt
      else raise (Exn BadZipFile "Bad CRC-32 for file")
  end.

(** [Zip.download_unzip] (zip.py, lines 101-130) *)
Definition download_unzip (self : Zip) : M unit :=
  try_except
    (req <- requests_get (url_zip self) ;;
     zfile <- lift (ZipFile req) ;;
     lift (raise_for_status req) ;;;
     if in_namelist (name_sql_file self) zfile then
       LogM.info "SQL File in Zip" (Some "Zip file contains dump file.") ;;;
       try_except
         (match name_sql_file self with
          | Some n => extract n zfile
          | None => ret tt
          end ;;;
          LogM.info "SQL File Downloaded" (Some "Zip file extraction successful"))
         (fun e =>
            if isinstance e BadZipFile then
              Some (LogM.error "SQL File Downloaded"
                      (Some "Bad zip file: extraction interrupted."))
            else None)
     else
       LogM.error "SQL File in Zip"
         (Some "Zip file does not contain dump file: extraction not done"))
    (fun e =>
       if isinstance e HTTPError then
         Some (LogM.error "Request ZIP" (Some ("HTTP error encountered: " +:+ args0 e)))
       else if isinstance e Exception then
         Some (LogM.error "Request ZIP" (Some ("Error encountered: " +:+ args0 e)))
       else None).

(** [os.path.isfile(p)] and [os.path.exists(p)] for a path of the working
    directory ([os.getcwd() + "/" + p] names the same file).  Two paths
    are looked up as two files; the statements about two files take them
    apart ([Bounds.apart]). *)
Definition isfile (p : string) : M bool :=
  gets (fun w => match fs w !! p with Some _ => true | None => false end).

(** [os.path.isfile(p)] where [p] may be [None]. *)
Definition isfile_attr (p : option string) : M (option string) :=
  match p with
  | None => raise (Exn TypeError "stat: path should be string, bytes, os.PathLike or integer, not NoneType")
  | Some n => b <- isfile n ;; ret (if b then Some n else None)
  end.

(** [open(p, "rb")]: what there is to read. *)
Definition open_rb (p : option string) : M Sha1.bytes :=
  match p with
  | None => raise (Exn TypeError "expected str, bytes or os.PathLike object, not NoneType")
  | Some n =>
      c <- gets (fun w => fs w !! n) ;;
      match c with
      | Some content => ret content
      | None => raise (Exn FileNotFoundError n)
      end
  end.

(** [f.read(n)]: at most [n] bytes from the position, and what is left. *)
Definition read (n : nat) (rest : Sha1.bytes) : Sha1.bytes * Sha1.bytes :=
  (firstn n rest, skipn n rest).

(** [while True: data = f.read(n); if not data: break; sha1.update(data)] *)
Equations? read_loop (n : nat) (sha1 : Sha1.t) (rest : Sha1.bytes) : Sha1.t
  by wf (length rest) lt :=
  read_loop n sha1 rest with inspect (read n rest) => {
    | exist _ ([], _) _ := sha1;
    | exist _ (b :: data, rest') _ := read_loop n (Sha1.update sha1 (b :: data)) rest' }.
Proof.
  rewrite length_skipn.
  destruct n; [discriminate |]. destruct rest; [discriminate |]. simpl. lia.
Qed.

Definition CHUNK : nat := Z.to_nat 65536.

(** The digest of a file read by the loop of [check_file_version]. *)
Definition file_hexdigest (content : Sha1.bytes) : string :=
  Sha1.hexdigest (read_loop CHUNK Sha1.new content).

(** [Zip.check_file_version] (zip.py, lines 132-176) *)
Definition check_file_version (self : Zip) : M bool :=
  prev <- gets (fun w => fs w !! prev_sql_file self) ;;
  match prev with
  | Some prev_content =>
      let sha1_prev := file_hexdigest prev_content in
      current <- open_rb (name_sql_file self) ;;
      let sha1_current := file_hexdigest current in
      if String.eqb sha1_prev sha1_current then
        LogM.warning "SQL File Comparison"
          (Some "The actual file is the same as the previous version.") ;;;
        LogM.warning "Compress File into TAR"
          (Some "Compression not done (same version).") ;;;
        match name_sql_file self with
        | Some n => modify (set_fs (delete n))
        | None => ret tt
        end ;;;
        ret false
      else
        LogM.info "SQL File Comparison"
          (Some "The actual file is different from the previous version.") ;;;
        ret true
  | None =>
      LogM.info "SQL File Comparison" (Some "There is no previous file to compare.") ;;;
      ret true
  end.

(** [tar.add(name, arcname=name)] into the archive just opened. *)
Definition tar_add_member (self : Zip) : M unit :=
  match name_sql_file self with
  | None => raise (Exn TypeError "expected str, bytes or os.PathLike object, not NoneType")
  | Some n =>
      c <- gets (fun w => fs w !! n) ;;
      match c with
      | None => raise (Exn FileNotFoundError n)
      | Some content =>
          e <- gets env ;;
          match tar_add e with
          | Some err => raise err
          | None => modify (set_fs (insert (name_tgz self) (targz e n content)))
          end
      end
  end.

(** The [try] statement of [compress_targz] (zip.py, lines 183-198):
    [tarfile.open] creates the archive file, which stays when [tar.add]
    raises. *)
Definition archive (self : Zip) : M unit :=
  try_except
    (modify (add_call (TarOpen (name_tgz self))) ;;;
     e <- gets env ;;
     modify (set_fs (insert (name_tgz self) (targz_empty e))) ;;;
     tar_add_member self ;;;
     LogM.info "Compress File into TAR" (Some "Compression into archive successful."))
    (fun e =>
       if isinstance e CompressionError then
         Some (LogM.error "Compress File into TAR" (Some "Error while compressing SQL dump."))
       else if isinstance e FileNotFoundError then
         Some (LogM.error "Compress File into TAR" (Some "Couldn't find the SQL dump."))
       else if isinstance e ReadError then
         Some (LogM.error "Compress File into TAR" (Some "Error while reading SQL dump."))
       else if isinstance e TarError then
         Some (LogM.error "Compress File into TAR"
                 (Some ("Error while compressing file: " +:+ args0 e)))
       else if isinstance e Exception then
         Some (LogM.error "Compress File into TAR"
                 (Some ("Error while compressing SQL dump: " +:+ args0 e)))
       else None).

(** [os.rename(os.getcwd() + "/" + n, os.getcwd() + "/" + prev)] *)
Definition rename (n prev : string) (f : gmap string Sha1.bytes) : gmap string Sha1.bytes :=
  match f !! n with
  | Some content => <[prev := content]> (delete n f)
  | None => f
  end.

(** The two [if] statements that follow it (zip.py, lines 200-206). *)
Definition rotate (self : Zip) : M unit :=
  (* delete prev dump (if exists) *)
  prev <- isfile (prev_sql_file self) ;;
  (if prev then modify (set_fs (delete (prev_sql_file self))) else ret tt) ;;;
  (* rename actual dump file *)
  current <- isfile_attr (name_sql_file self) ;;
  match current with
  | Some n => modify (set_fs (rename n (prev_sql_file self)))
  | None => ret tt
  end.

(** [Zip.compress_targz] (zip.py, lines 178-206) *)
Definition compress_targz (self : Zip) : M unit :=
  archive self ;;; rotate self.

(** [Zip.clean_directory] (zip.py, lines 209-217) *)
Definition clean_directory (self : Zip) : M unit :=
  modify (set_fs (delete (name_tgz self))).

End ZipM.

(* ===================================================================== *)
(** ** source/samba.py: class SMBServer *)
(* ===================================================================== *)

Module SMB.

(** [smb.SMBConnection.SMBConnection]: [sock] is set while the session is
    open; every operation on a closed session raises [NotConnectedError]. *)
Record SMBConnection := MkConn { sock : bool }.

(** The attributes that the end of [__init__] assigns. *)
Record Attrs := MkAttrs {
  ip : json;
  hostname : json;
  username : json;
  password : json;
  save_days : Z;
  sharename : json;
  path : string;
  samba : option SMBConnection
}.

(** An [SMBServer] object: [attrs] is [None] when [__init__] returned
    before assigning them (reading one raises [AttributeError]). *)
Record SMBServer := MkServer { file : string; attrs : option Attrs }.

Definition set_samba (c : option SMBConnection) (self : SMBServer) (a : Attrs) : SMBServer :=
  MkServer (file self)
    (Some (MkAttrs (ip a) (hostname a) (username a) (password a)
                   (save_days a) (sharename a) (path a) c)).

(** [self.<attribute>] *)
Definition getattrs (self : SMBServer) : M Attrs :=
  match attrs self with
  | Some a => ret a
  | None => raise (Exn AttributeError "'SMBServer' object has no attribute")
  end.

(** The six values read from the ["smb"] object, and [save_days_]. *)
Definition locals : Type := json * json * json * json * json * json * Z.

(** [save_days_ = int(data["save_days"])] with its [except ValueError]. *)
Definition read_save_days (data : json) : M Z :=
  try_except
    (v <- lift (getitem data "save_days") ;; lift (int v))
    (fun e =>
       if isinstance e ValueError then
         Some (LogM.info "JSON read" (Some "Time format not supported.") ;;; ret 7)
       else None).

Definition smb_field (data : json) (k : string) : M json :=
  s <- lift (getitem data "smb") ;; lift (getitem s k).

Definition report_blank (v : json) (msg : string) : M unit :=
  if blank v then LogM.error "JSON read" (Some msg) else ret tt.

(** [SMBServer.__init__] (samba.py, lines 40-112).  The [try] statement ends with
    [None] when a handler returns from [__init__], with [Some None] when
    the [EnvironmentError] handler lets the method go on without locals,
    and with the locals otherwise. *)
Definition init (file_ : string) : M SMBServer :=
  outcome <- try_except
    (data <- ZipM.load_config ;;
     ip_ <- smb_field data "ip" ;;
     hostname_ <- smb_field data "hostname" ;;
     user_ <- smb_field data "user" ;;
     pswd_ <- smb_field data "password" ;;
     sharename_ <- smb_field data "sharename" ;;
     path_ <- smb_field data "path" ;;
     save_days_ <- read_save_days data ;;
     ret (Some (Some (ip_, hostname_, user_, pswd_, sharename_, path_, save_days_))))
    (fun e =>
       if isinstance e JSONDecodeError then
         Some (LogM.error "JSON file read" None ;;; ret None)
       else if isinstance e KeyError then
         Some (LogM.error "JSON file read" (Some (args0 e)) ;;; ret None)
       else if isinstance e OSError then
         Some (LogM.error "JSON file read" None ;;; ret (Some None))
       else None) ;;
  match outcome with
  | None => ret (MkServer file_ None)
  | Some None =>
      raise (Exn UnboundLocalError "cannot access local variable 'ip_'")
  | Some (Some (ip_, hostname_, user_, pswd_, sharename_, path_, save_days_)) =>
      report_blank ip_ "SMB server IP must not be blank in 'config.json'." ;;;
      report_blank hostname_ "Host name must not be blank in 'config.json'." ;;;
      report_blank user_ "SMB server user must not be blank in 'config.json'." ;;;
      report_blank pswd_ "SMB server password must not be blank in 'config.json'." ;;;
      report_blank sharename_ "SMB shared folder name must not be blank in 'config.json'." ;;;
      report_blank path_ "SMB path must not be blank in 'config.json'." ;;;
      match path_ with
      | JStr p =>
          let p' := if Str.endswith_slash p then p else p +:+ "/" in
          ret (MkServer file_
                 (Some (MkAttrs ip_ hostname_ user_ pswd_ save_days_ sharename_ p' None)))
      | _ => raise (Exn AttributeError "object has no attribute 'endswith'")
      end
  end.

(** *** The calls to the SMB library *)

Definition connected (c : SMBConnection) : M unit :=
  if sock c then ret tt else raise (Exn NotConnectedError "Not connected to server").

Definition or_raise (o : option exn) : M unit :=
  match o with
  | Some e => raise e
  | None => ret tt
  end.

(** [samba.connect(ip)] *)
Definition lib_connect : M bool :=
  modify (add_call SmbConnect) ;;; e <- gets env ;; lift (smb_connect e).

(** [samba.close()] *)
Definition lib_close : M SMBConnection :=
  modify (add_call SmbClose) ;;; ret (MkConn false).

(** [samba.listPath(sharename, path)] *)
Definition listPath (c : SMBConnection) (dir : string) : M (list SharedFile) :=
  modify (add_call (SmbListPath dir)) ;;;
  connected c ;;;
  e <- gets env ;;
  or_raise (smb_list e) ;;;
  gets remote.

Definition store (name : string) (l : list SharedFile) : list SharedFile :=
  if existsb (fun f => String.eqb name (filename f)) l then l
  else l ++ [MkShared name false].

(** [samba.storeFile(sharename, dir + name, file_obj)] *)
Definition storeFile (c : SMBConnection) (dir name : string) : M unit :=
  modify (add_call (SmbStoreFile (dir +:+ name))) ;;;
  connected c ;;;
  e <- gets env ;;
  or_raise (smb_store e) ;;;
  modify (set_remote (store name)).

Definition unlink (name : string) (l : list SharedFile) : list SharedFile :=
  List.filter (fun f => negb (String.eqb name (filename f)) || isDirectory f) l.

(** [samba.deleteFiles(sharename, dir + name)] *)
Definition deleteFiles (c : SMBConnection) (dir name : string) : M unit :=
  modify (add_call (SmbDeleteFiles (dir +:+ name))) ;;;
  connected c ;;;
  e <- gets env ;;
  or_raise (smb_delete e (dir +:+ name)) ;;;
  modify (set_remote (unlink name)).

(** *** The methods *)

(** [SMBServer.connect] (samba.py, lines 114-126): the new session is
    assigned to [self.samba] before [connect(ip)] is called on it. *)
Definition connect (self : SMBServer) : M SMBServer :=
  a <- getattrs self ;;
  try_except
    (auth_ <- lib_connect ;; ret (set_samba (Some (MkConn true)) self a))
    (fun e =>
       if isinstance e SMBTimeout then
         Some (LogM.error "SMB Connection" (Some "Unable to connect to SMB share") ;;;
               c <- lib_close ;;
               ret (set_samba (Some c) self a))
       else None).

(** [SMBServer.disconnect] (samba.py, lines 128-133) *)
Definition disconnect (self : SMBServer) : M SMBServer :=
  a <- getattrs self ;;
  match samba a with
  | Some _ => c <- lib_close ;; ret (set_samba (Some c) self a)
  | None => raise (Exn AttributeError "'NoneType' object has no attribute 'close'")
  end.

(** [SMBServer.send_file] (samba.py, lines 135-144) *)
Definition send_file (self : SMBServer) : M unit :=
  a <- getattrs self ;;
  match samba a with
  | Some c =>
      _ <- ZipM.open_rb (Some (file self)) ;;
      storeFile c (path a) (file self) ;;;
      LogM.info "Send File to SMB" (Some "File sent to the SMB Share.")
  | None => ret tt
  end.

(** The [for f in file_list] loop of [check_server] (samba.py, lines
    162-171); the result is [nb_delete]. *)
Fixpoint sweep (a : Attrs) (c : SMBConnection) (max_date : Date.date)
    (file_list : list SharedFile) (nb_delete : nat) : M nat :=
  match file_list with
  | [] => ret nb_delete
  | f :: rest =>
      if negb (isDirectory f) then
        date <- lift (Date.strptime_Ydm (Str.remove_tgz (filename f))) ;;
        if Date.lt date max_date then
          deleteFiles c (path a) (filename f) ;;;
          sweep a c max_date rest (S nb_delete)
        else sweep a c max_date rest nb_delete
      else sweep a c max_date rest nb_delete
  end.

(** [SMBServer.check_server] (samba.py, lines 146-178) *)
Definition check_server (self : SMBServer) : M unit :=
  try_except
    (a <- getattrs self ;;
     match samba a with
     | Some c =>
         file_list <- listPath c (path a) ;;
         now <- gets (fun w => today (env w)) ;;
         max_date <- lift (Date.minus_days now (save_days a)) ;;
         nb_delete <- sweep a c max_date file_list 0 ;;
         LogM.info "Server File Check"
           (Some (pretty nb_delete +:+ " file(s) removed from remote server."))
     | None =>
         LogM.error "Server File Check"
           (Some "Unable to connect to the server, file check not done.")
     end)
    (fun e =>
       if isinstance e Exception then
         Some (LogM.error "Server File Check" (Some ("Error encountered: " +:+ args0 e)))
       else None).

(** [SMBServer.check_file] (samba.py, lines 180-206): the result is
    [Some b] for [return b] and [None] when the method ends without a
    [return] statement. *)
Definition check_file (self : SMBServer) : M (option bool) :=
  try_except
    (a <- getattrs self ;;
     match samba a with
     | Some c =>
         file_list <- listPath c (path a) ;;
         let present := existsb (fun f => String.eqb (file self) (filename f)) file_list in
         if present then
           LogM.info "File Uploaded"
             (Some "Tar file exists on the remote server. Upload successful.") ;;;
           ret (Some true)
         else
           LogM.error "File Uploaded"
             (Some "Tar file is not on the remote server. Upload failed.") ;;;
           ret (Some false)
     | None =>
         LogM.error "File Uploaded"
           (Some "Unable to connect to the SMB server and check if file was uploaded.") ;;;
         ret (Some false)
     end)
    (fun e =>
       if isinstance e Exception then
         Some (LogM.error "File Uploaded" (Some ("Error encountered: " +:+ args0 e)) ;;;
               ret None)
       else None).

End SMB.

(* ===================================================================== *)
(** ** main.py *)
(* ===================================================================== *)

Module Main.

Definition on_timeout (e : exn) : option (M unit) :=
  if isinstance e TimeoutError then
    Some (LogM.error "SMB Server Error" (Some ("Error encountered: " +:+ args0 e)))
  else None.

(** The [try] statement of the branch taken when the file is new. *)
Definition transfer (smb : SMB.SMBServer) : M unit :=
  try_except
    (smb <- SMB.connect smb ;;
     SMB.send_file smb ;;;
     _ <- SMB.check_file smb ;;
     SMB.check_server smb ;;;
     _ <- SMB.disconnect smb ;;
     ret tt)
    on_timeout.

(** The [try] statement of the other branch. *)
Definition sweep_only (smb : SMB.SMBServer) : M unit :=
  try_except
    (smb <- SMB.connect smb ;;
     SMB.check_server smb ;;;
     _ <- SMB.disconnect smb ;;
     ret tt)
    on_timeout.

(** What follows [check_file_version] in [main] (main.py, lines 28-49). *)
Definition after_detection (script : ZipM.Zip) (smb : SMB.SMBServer) (changed : bool) : M unit :=
  (if changed then ZipM.compress_targz script ;;; transfer smb
   else sweep_only smb) ;;;
  LogM.send_notification_email ;;;
  ZipM.clean_directory script.

(** [main] (main.py, lines 18-28) up to the test of its [if] statement:
    the two objects and the answer of [check_file_version]. *)
Definition detect : M (ZipM.Zip * SMB.SMBServer * bool) :=
  script <- ZipM.init ;;
  script <- ZipM.get_config script ;;
  ZipM.download_unzip script ;;;
  smb <- SMB.init (ZipM.name_tgz script) ;;
  changed <- ZipM.check_file_version script ;;
  ret (script, smb, changed).

(** [main] (main.py, lines 13-49) *)
Definition main : M unit :=
  r <- detect ;;
  let '(script, smb, changed) := r in
  after_detection script smb changed.

End Main.

(* ===================================================================== *)
(** ** Vocabulary of the statements *)
(* ===================================================================== *)

Module Spec.

(** The state of a hash object never holds a complete block. *)
Definition short (s : Sha1.t) : Prop :=
  (length (Sha1.pending s) < Sha1.block_size)%nat.

(** The date that the sweep reads in the name of an entry. *)
Definition entry_date (f : SharedFile) : result Date.date :=
  Date.strptime_Ydm (Str.remove_tgz (filename f)).

(** A file whose date is strictly before [max_date]. *)
Definition expired (max_date : Date.date) (f : SharedFile) : bool :=
  negb (isDirectory f)
  && match entry_date f with
     | Ok d => Date.lt d max_date
     | Raise _ => false
     end.

(** An entry that the loop passes without raising: a directory, or a file
    whose name is a date. *)
Definition readable (f : SharedFile) : bool :=
  isDirectory f || is_ok (entry_date f).

(** The entries listed before the first one that is not readable. *)
Fixpoint scanned (l : list SharedFile) : list SharedFile :=
  match l with
  | [] => []
  | f :: r => if readable f then f :: scanned r else []
  end.

(** The exception of the first entry that is not readable. *)
Fixpoint first_error (l : list SharedFile) : option exn :=
  match l with
  | [] => None
  | f :: r =>
      if isDirectory f then first_error r
      else match entry_date f with
           | Ok _ => first_error r
           | Raise e => Some e
           end
  end.

(** The names that the sweep passes to [deleteFiles], in order. *)
Definition deleted_names (max_date : Date.date) (l : list SharedFile) : list string :=
  map filename (List.filter (expired max_date) (scanned l)).

(** A file of the share that bears one of the names [names]. *)
Definition removed (names : list string) (g : SharedFile) : bool :=
  negb (isDirectory g) && existsb (fun n => String.eqb n (filename g)) names.

(** The world after [deleteFiles] has succeeded on [names] of [dir]. *)
Definition after_deletes (dir : string) (names : list string) (w : World) : World :=
  fold_left
    (fun w n => set_remote (SMB.unlink n) (add_call (SmbDeleteFiles (dir +:+ n)) w))
    names w.

(** The events that a method added to the log. *)
Definition logged (w w' : World) (es : list StatusEvent) : Prop :=
  events (log w') = events (log w) ++ es.

(** The events of [__init__] for the blank values of the configuration. *)
Definition blank_event (v : json) (msg : string) : list StatusEvent :=
  if blank v then [Event ERROR "JSON read" (Some msg)] else [].

Definition blank_reports (ip_ hostname_ user_ pswd_ sharename_ path_ : json) : list StatusEvent :=
  blank_event ip_ "SMB server IP must not be blank in 'config.json'."
  ++ blank_event hostname_ "Host name must not be blank in 'config.json'."
  ++ blank_event user_ "SMB server user must not be blank in 'config.json'."
  ++ blank_event pswd_ "SMB server password must not be blank in 'config.json'."
  ++ blank_event sharename_ "SMB shared folder name must not be blank in 'config.json'."
  ++ blank_event path_ "SMB path must not be blank in 'config.json'.".

Definition is_error (e : StatusEvent) : bool :=
  match level e with ERROR => true | _ => false end.

(** A statement that relates every world to the world it leaves. *)
Definition keeps {A} (I : World -> World -> Prop) (c : M A) : Prop :=
  forall w, I w (snd (c w)).

(** The environment is the same, the log and the calls have only grown. *)
Definition grows (w w' : World) : Prop :=
  env w' = env w
  /\ (exists es, events (log w') = events (log w) ++ es)
  /\ (exists cs, calls w' = calls w ++ cs).

(** The files outside [touched] are as they were. *)
Definition fs_frame (touched : list string) (w w' : World) : Prop :=
  forall p, ~ In p touched -> fs w' !! p = fs w !! p.

(** The file that [download_unzip] and [check_file_version] may write. *)
Definition names (self : ZipM.Zip) : list string :=
  match ZipM.name_sql_file self with
  | Some n => [n]
  | None => []
  end.

(** What holds of the value of a statement that ends normally. *)
Definition ensures {A} (Q : A -> Prop) (c : M A) : Prop :=
  forall w a w', c w = (Ok a, w') -> Q a.

Definition is_str (r : result json) : bool :=
  match r with Ok (JStr _) => true | _ => false end.

(** A configuration that has every key the run reads, strings for the
    URL, the file and the path, and a ["save_days"] that [int] accepts or
    rejects with [ValueError]. *)
Definition well_formed (data : json) : bool :=
  is_str (getitem data "url-zip")
  && is_str (getitem data "file")
  && is_ok (getitem data "notification")
  && is_ok (getitem data "email")
  && is_ok (getitem data "mattermost_webhook")
  && match getitem data "smb" with
     | Ok s =>
         is_ok (getitem s "ip") && is_ok (getitem s "hostname")
         && is_ok (getitem s "user") && is_ok (getitem s "password")
         && is_ok (getitem s "sharename") && is_str (getitem s "path")
     | Raise _ => false
     end
  && match getitem data "save_days" with
     | Ok v => match int v with
               | Ok _ => true
               | Raise e => isinstance e ValueError
               end
     | Raise _ => false
     end.

(** The sweep has left its event in the log. *)
Definition swept (w : World) : Prop :=
  exists e, In e (events (log w)) /\ action_name e = "Server File Check".

End Spec.
Import Spec.

(* ===================================================================== *)
(** ** Vocabulary of the further properties *)
(* ===================================================================== *)

Module Notions.

(** The calls that a statement added all satisfy [P]. *)
Definition only (P : call -> bool) (w w' : World) : Prop :=
  exists cs, calls w' = calls w ++ cs /\ forallb P cs = true.

Definition is_report (c : call) : bool :=
  match c with SendNotificationEmail => true | _ => false end.

(** The first of [keys] that the object [fields] does not bind. *)
Definition first_missing (keys : list string) (fields : list (string * json)) : option string :=
  List.find (fun k => match assoc k fields with None => true | Some _ => false end) keys.

(** The keys that [get_config] reads, in the order it reads them. *)
Definition zip_keys : list string :=
  ["url-zip"; "file"; "notification"; "email"; "mattermost_webhook"].

(** The keys that [SMBServer.__init__] reads in the ["smb"] object. *)
Definition smb_keys : list string :=
  ["ip"; "hostname"; "user"; "password"; "sharename"; "path"].

(** The key whose absence ends [SMBServer.__init__], for a configuration
    whose ["smb"] entry, when there is one, is an object. *)
Definition smb_missing (fields : list (string * json)) : option string :=
  match assoc "smb" fields with
  | None => Some "smb"
  | Some (JObj sub) =>
      match first_missing smb_keys sub with
      | Some k => Some k
      | None => match assoc "save_days" fields with
                | None => Some "save_days"
                | Some _ => None
                end
      end
  | Some _ => None
  end.

(** A day of the calendar of [datetime.date]. *)
Definition valid (d : Date.date) : bool :=
  (1 <=? Date.year d) && (Date.year d <=? 9999)
  && (1 <=? Date.month d) && (Date.month d <=? 12)
  && (1 <=? Date.day d) && (Date.day d <=? Date.days_in_month (Date.year d) (Date.month d)).


(** The end of [_ord2ymd]: the month and the day of the day of rank [n]
    (from 0) of a year. *)
Definition month_day (leapyear : bool) (n : Z) : Z * Z :=
  let m := Z.shiftr (n + 50) 5 in
  let preceding :=
    Date.DAYS_BEFORE_MONTH m + (if (2 <? m) && leapyear then 1 else 0) in
  if n <? preceding then
    let m' := m - 1 in
    let dim :=
      nth (Z.to_nat m') [0; 31; 28; 31; 30; 31; 30; 31; 31; 30; 31; 30; 31] 0
      + (if (m' =? 2) && leapyear then 1 else 0) in
    (m', n - (preceding - dim) + 1)
  else (m, n - preceding + 1).

(** What is checked of [month_day] on each day of a year: the month and
    the day are of the calendar, and the day has the rank [n]. *)
Definition month_day_ok (leapyear : bool) (n : Z) : bool :=
  let md := month_day leapyear n in
  (1 <=? fst md) && (fst md <=? 12) && (1 <=? snd md)
  && (snd md <=? (if fst md =? 2 then (if leapyear then 29 else 28)
                  else if (fst md =? 4) || (fst md =? 6) || (fst md =? 9) || (fst md =? 11)
                       then 30 else 31))
  && (Date.DAYS_BEFORE_MONTH (fst md) + (if (2 <? fst md) && leapyear then 1 else 0) + snd md
      =? n + 1).

(** What is checked of [strptime] on each day and month: the two digits
    of the day and of the month read as that day and that month. *)
Definition day_month_ok (d m : Z) : bool :=
  match Date.first_match 0
          (Date.day_branches (list_ascii_of_string (Str.dec2 d +:+ Str.dec2 m))) with
  | Some (_, d', m', []) => (d' =? d) && (m' =? m)
  | _ => false
  end.

(** The number of days that the object of a configuration keeps an
    archive: what [int] makes of ["save_days"], 7 when it raises
    [ValueError]. *)
Definition retention (data : json) : Z :=
  match getitem data "save_days" with
  | Ok v => match int v with Ok k => k | Raise _ => 7 end
  | Raise _ => 7
  end.

(** Every call but the report. *)
Definition not_report (c : call) : bool := negb (is_report c).

(** The calls of a session that transfers nothing. *)
Definition idle_call (c : call) : bool :=
  match c with
  | SmbConnect | SmbListPath _ | SmbDeleteFiles _ | SmbClose => true
  | _ => false
  end.

(** The share is as it was. *)
Definition same_share (w w' : World) : Prop := remote w' = remote w.

Fixpoint no_slash (s : string) : bool :=
  match s with
  | EmptyString => true
  | String c rest => negb (Ascii.eqb c "/") && no_slash rest
  end.

End Notions.
Import Notions.

(* ===================================================================== *)
(** ** The bounds of the model *)
(* ===================================================================== *)

(** The conditions under which the statements about two files, and about
    whole runs, are made.

    The working directory maps the paths that the program writes to
    contents, and two paths are two files.  This is so of two entries of
    the working directory, names without a slash other than the empty
    name, [.] and [..]; and of such a name and [./prev_dump.sql], which
    is the entry [prev_dump.sql], when the name is another one.

    [get_config] and [main] have [Log(...)] and [send_notification_email]
    as they are when the reports are off: without an email section and
    with a notification that is [None] or ["never"], [Log.__init__]
    returns without an event and the report returns without a call;
    [Report] below has the three classes in full. *)
Module Bounds.

(** An entry of the working directory that is not the retained copy. *)
Definition apart (n : string) : bool :=
  no_slash n
  && negb (existsb (String.eqb n) [EmptyString; "."; ".."; "prev_dump.sql"]).

(** The configuration switches the reports off, or does not reach
    [Log(...)]: [get_config] evaluates the five subscriptions before the
    call. *)
Definition reports_off (data : json) : bool :=
  match getitem data "url-zip", getitem data "file", getitem data "notification",
        getitem data "email", getitem data "mattermost_webhook" with
  | Ok _, Ok _, Ok notification_, Ok emails_, Ok _ =>
      match emails_ with
      | JNull =>
          match notification_ with
          | JNull => true
          | JStr s => String.eqb s "never"
          | _ => false
          end
      | _ => false
      end
  | _, _, _, _, _ => true
  end.

(** The same of the configuration file of a run, when it can be read. *)
Definition silent (e : Env) : bool :=
  match config_file e with
  | Ok data => reports_off data
  | Raise _ => true
  end.

End Bounds.
Import Bounds.

(* ===================================================================== *)
(** ** Scenarios *)
(* ===================================================================== *)

Module Scenario.

(** A configuration whose ["save_days"] is not a number. *)
Definition config : json :=
  JObj [("url-zip", JStr "http://intranet/export/dump");
        ("file", JStr "dump");
        ("notification", JStr "never");
        ("email", JNull);
        ("mattermost_webhook", JNull);
        ("smb", JObj [("ip", JStr "10.0.0.1"); ("hostname", JStr "nas");
                      ("user", JStr "backup"); ("password", JStr "secret");
                      ("sharename", JStr "share"); ("path", JStr "backups")]);
        ("save_days", JStr "a week")].

Definition dump : Sha1.bytes := [Byte.x61; Byte.x62; Byte.x63].
Definition other_dump : Sha1.bytes := [Byte.x61; Byte.x62; Byte.x64].

(** The bundle is served. *)
Definition served : result Response :=
  Ok (MkResponse 200 (Some [MkMember "dump.sql" dump true])).

(** The server answers 404 with a page that is not a zip container. *)
Definition not_found : result Response := Ok (MkResponse 404 None).

(** The 15th of March 2024; the share answers every call. *)
Definition outside (answer : result Response) : Env :=
  MkEnv (Date.Mk 2024 3 15) (Ok config) answer None (fun _ c => c) []
        (Ok true) None None (fun _ => None).

(** The same day, with a share whose listing fails. *)
Definition outside_list_fails : Env :=
  MkEnv (Date.Mk 2024 3 15) (Ok config) served None (fun _ c => c) []
        (Ok true) None (Some (Exn OperationFailure "Failed to list backups/"))
        (fun _ => None).

(** The same day, with a share that does not answer [connect] in time. *)
Definition outside_timeout : Env :=
  MkEnv (Date.Mk 2024 3 15) (Ok config) served None (fun _ c => c) []
        (Raise (Exn SMBTimeout "Timed out")) None None (fun _ => None).

(** Archives of ten, seven, five and two days ago (names are year, day,
    month), with the two directory entries of a listing. *)
Definition share : list SharedFile :=
  [MkShared "." true; MkShared ".." true;
   MkShared "20240503.tgz" false; MkShared "20240803.tgz" false;
   MkShared "20241003.tgz" false; MkShared "20241303.tgz" false].

(** A share where a file that is no archive precedes an old archive. *)
Definition share_with_notes : list SharedFile :=
  [MkShared "notes.txt" false; MkShared "20200101.tgz" false].

(** A share where it stands between two old archives. *)
Definition share_mixed : list SharedFile :=
  [MkShared "20240503.tgz" false; MkShared "README" false;
   MkShared "20240603.tgz" false].

Definition world (e : Env) (files : gmap string Sha1.bytes) (l : list SharedFile) : World :=
  MkWorld e files l LogM.empty [].

Definition retained (content : Sha1.bytes) : gmap string Sha1.bytes :=
  {[ "./prev_dump.sql" := content ]}.

Definition both (prev current : Sha1.bytes) : gmap string Sha1.bytes :=
  <["dump.sql" := current]> (retained prev).

Definition attributes (c : option SMB.SMBConnection) : SMB.Attrs :=
  SMB.MkAttrs (JStr "10.0.0.1") (JStr "nas") (JStr "backup") (JStr "secret")
              7 (JStr "share") "backups/" c.

Definition server (c : option SMB.SMBConnection) : SMB.SMBServer :=
  SMB.MkServer "20241503.tgz" (Some (attributes c)).

Definition script : ZipM.Zip :=
  ZipM.MkZip "20241503.tgz" "./prev_dump.sql" (Some "http://intranet/export/dump.zip")
        (Some "dump.zip") (Some "dump.sql").

End Scenario.

(** Further scenarios. *)
Module Cases.

Import Scenario.

(** The configuration file is not there. *)
Definition outside_no_config : Env :=
  MkEnv (Date.Mk 2024 3 15)
        (Raise (Exn FileNotFoundError "No such file or directory: 'config_file.json'"))
        served None (fun _ c => c) [] (Ok true) None None (fun _ => None).

(** A configuration that keeps archives for the number of days that a
    string spells. *)
Definition config_days (days : json) : json :=
  JObj [("url-zip", JStr "http://intranet/export/dump");
        ("file", JStr "dump");
        ("notification", JStr "never");
        ("email", JNull);
        ("mattermost_webhook", JNull);
        ("smb", JObj [("ip", JStr "10.0.0.1"); ("hostname", JStr "nas");
                      ("user", JStr "backup"); ("password", JStr "secret");
                      ("sharename", JStr "share"); ("path", JStr "backups")]);
        ("save_days", days)].

Definition outside_days (days : json) : Env :=
  MkEnv (Date.Mk 2024 3 15) (Ok (config_days days)) served None (fun _ c => c) []
        (Ok true) None None (fun _ => None).

(** A configuration without the object of the share. *)
Definition config_without_smb : list (string * json) :=
  [("url-zip", JStr "http://intranet/export/dump"); ("file", JStr "dump");
   ("notification", JStr "never"); ("email", JNull); ("mattermost_webhook", JNull);
   ("save_days", JInt 7)].

Definition outside_without_smb : Env :=
  MkEnv (Date.Mk 2024 3 15) (Ok (JObj config_without_smb)) served None (fun _ c => c) []
        (Ok true) None None (fun _ => None).

(** The share refuses the connection. *)
Definition outside_refused : Env :=
  MkEnv (Date.Mk 2024 3 15) (Ok config) served None (fun _ c => c) []
        (Raise (Exn ConnectionRefusedError "Connection refused")) None None (fun _ => None).

(** [tarfile] fails on the dump. *)
Definition outside_tar_fails : Env :=
  MkEnv (Date.Mk 2024 3 15) (Ok config) served
        (Some (Exn ReadError "unexpected end of data")) (fun _ c => c) []
        (Ok true) None None (fun _ => None).

(** The working directory when the archive has been made. *)
Definition archived : gmap string Sha1.bytes := {[ "20241503.tgz" := dump ]}.

(** A configuration whose dump is the retained copy itself, and a bundle
    that holds a member of that name. *)
Definition config_retained : json :=
  JObj [("url-zip", JStr "http://intranet/export/dump");
        ("file", JStr "./prev_dump.sql");
        ("notification", JStr "never");
        ("email", JNull);
        ("mattermost_webhook", JNull);
        ("smb", JObj [("ip", JStr "10.0.0.1"); ("hostname", JStr "nas");
                      ("user", JStr "backup"); ("password", JStr "secret");
                      ("sharename", JStr "share"); ("path", JStr "backups")]);
        ("save_days", JInt 7)].

Definition outside_retained : Env :=
  MkEnv (Date.Mk 2024 3 15) (Ok config_retained)
        (Ok (MkResponse 200 (Some [MkMember "./prev_dump.sql" dump true])))
        None (fun _ c => c) [] (Ok true) None None (fun _ => None).

End Cases.

(* ===================================================================== *)
(** ** source/log.py, source/mattermost.py, source/e_mail.py: the report *)
(* ===================================================================== *)

(** The three classes that make the report, in full: the [Log] object with
    its two collaborators, the records that its methods write to
    [logfile.log], and the calls to the webhook and to the mail servers.
    The answers of [requests], [smtplib], [email] and [email_validator] and
    of the opening of the log file are read from a record of their own. *)
Module Report.

(** [chr(10)] *)
Definition nl : string := String (ascii_of_nat 10) EmptyString.

(** *** Exception objects *)

(** [err.args[0]]: absent, a [str], or another value. *)
Inductive first_arg := NoArg | StrArg (s : string) | OtherArg.

(** An exception object of a library or of the interpreter: the names of
    its class and of the bases of its class, as the sources write them
    ([EnvironmentError] is [OSError]), and [err.args[0]].  The message
    of an exception of the interpreter is abridged. *)
Record exc := MkExc { classes : list string; arg0 : first_arg }.

(** [isinstance(err, c)], which an [except c] clause tests. *)
Definition isinstance (e : exc) (c : string) : bool :=
  existsb (String.eqb c) (classes e).

Definition TypeError_ (msg : string) : exc :=
  MkExc ["TypeError"; "Exception"] (StrArg msg).

Definition AttributeError_ (msg : string) : exc :=
  MkExc ["AttributeError"; "Exception"] (StrArg msg).

Definition IndexError_ (msg : string) : exc :=
  MkExc ["IndexError"; "LookupError"; "Exception"] (StrArg msg).

Definition KeyError_ (key : string) : exc :=
  MkExc ["KeyError"; "LookupError"; "Exception"] (StrArg key).

Definition ValueError_ (msg : string) : exc :=
  MkExc ["ValueError"; "Exception"] (StrArg msg).

Definition UnboundLocalError_ (msg : string) : exc :=
  MkExc ["UnboundLocalError"; "NameError"; "Exception"] (StrArg msg).

Inductive outcome (A : Type) :=
  | Done (a : A)
  | Raised (e : exc).
Arguments Done {A} a.
Arguments Raised {A} e.

(** What is passed as [message]: a [str], an exception object or
    another object. *)
Inductive value := VStr (s : string) | VExc (e : exc) | VOther.

(** *** The objects *)

(** [Mattermost]: the two columns of [mattermost_content] and the
    webhook. *)
Record Mattermost := MkMattermost {
  tasks : list string;
  status : list string;
  webhook : json
}.

(** The attributes that the end of [Email.__init__] assigns. *)
Record Settings := MkSettings {
  host : json;
  port : Z;
  auth : json;
  include_log : string;
  title : json;
  dest : json
}.

(** [Email]: [server] tells whether [self.server] is an object;
    [settings] is [None] when [__init__] returned before its end. *)
Record Email := MkEmail {
  server : bool;
  content : list string;
  err_warning : option string;
  settings : option Settings
}.

(** [Log]: [mattermost] and [email] are [None] as in the source;
    [send_notification] and [send_emails] are [None] when [__init__] did
    not assign them. *)
Record Log := MkLog {
  nb_error : nat;
  nb_warning : nat;
  mattermost : option Mattermost;
  send_notification : option json;
  email : option Email;
  send_emails : option string
}.

(** One record of [logfile.log] as the call of [logging] that writes it:
    the level, the name of the action and the message.  With a message the
    line is [action_name: message], without one it is the sentence of the
    level about the task [action_name]. *)
Definition record : Type := severity * string * option value.

(** A message handed to [sendmail]: the value of [msg["Subject"]], the
    text part and the attached file, if any, with its name. *)
Record Mail := MkMail {
  subject : json;
  body : string;
  attachment : option (string * list record)
}.

(** The answers of the outside. *)
Record Outside := MkOutside {
  date_today : Date.date;                    (* datetime.date.today() *)
  requests_post : json -> string -> outcome Z; (* status of requests.post(webhook, json=payload) *)
  reason : Z -> string;                      (* message of the HTTPError of a status *)
  validate_email : json -> outcome bool;     (* truth of validate_email(e) *)
  SMTP_SSL : json -> Z -> option exc;        (* smtplib.SMTP_SSL(host, port) failing *)
  server_login : json -> json -> option exc; (* server.login(email, password) failing *)
  server_sendmail : json -> json -> Mail -> option exc;
  server_quit : option exc;
  as_string : Mail -> option exc;            (* msg.as_string() failing *)
  SMTP : option exc;                         (* smtplib.SMTP('192.168.56.1', port=1025) failing *)
  open_log_file : option exc                 (* open(log_file, 'rb') failing *)
}.

(** The calls that leave the process. *)
Inductive call :=
  | Post (url : json) (text : string)
  | Connect (host : json) (port : Z)
  | Login (user password : json)
  | Sendmail (sender recipients : json) (m : Mail)
  | Quit
  | ConnectInternal
  | SendmailInternal (sender recipients : json) (m : Mail).

(** The [Log] object at hand, the records that its methods have written
    to [logfile.log] (what other modules write through [logging] is left
    out) and the calls made. *)
Record Desk := MkDesk {
  outside : Outside;
  log : Log;
  logfile : list record;
  calls : list call
}.

(** *** Statements *)

Definition R (A : Type) : Type := Desk -> outcome A * Desk.

Definition ret {A} (a : A) : R A := fun d => (Done a, d).

Definition bind {A B} (c : R A) (k : A -> R B) : R B :=
  fun d => match c d with
           | (Done a, d') => k a d'
           | (Raised e, d') => (Raised e, d')
           end.

Definition raise {A} (e : exc) : R A := fun d => (Raised e, d).

Definition lift {A} (r : outcome A) : R A := fun d => (r, d).

Definition gets {A} (f : Desk -> A) : R A := fun d => (Done (f d), d).

Definition modify (f : Desk -> Desk) : R unit := fun d => (Done tt, f d).

Definition try_except {A} (body : R A) (handlers : exc -> option (R A)) : R A :=
  fun d => match body d with
           | (Done a, d') => (Done a, d')
           | (Raised e, d') =>
               match handlers e with
               | Some h => h d'
               | None => (Raised e, d')
               end
           end.

Declare Scope report_scope.
Delimit Scope report_scope with report.
Notation "x <- c ;; k" := (bind c (fun x => k))
  (at level 100, c at next level, right associativity) : report_scope.
Notation "c ;;; k" := (bind c (fun _ => k))
  (at level 100, right associativity) : report_scope.
#[local] Open Scope report_scope.

Definition set_log (f : Log -> Log) : R unit :=
  modify (fun d => MkDesk (outside d) (f (log d)) (logfile d) (calls d)).

Definition add_call (c : call) : R unit :=
  modify (fun d => MkDesk (outside d) (log d) (logfile d) (calls d ++ [c])).

(** [logging.info], [logging.warning] and [logging.error]: one record
    more in the file. *)
Definition logging (lv : severity) (action_name : string) (message : option value)
    : R unit :=
  modify (fun d => MkDesk (outside d) (log d) (logfile d ++ [(lv, action_name, message)])
                          (calls d)).

(** [v[k]] for a string key [k] *)
Definition item (v : json) (k : string) : R json :=
  match v with
  | JObj fields =>
      match assoc k fields with
      | Some x => ret x
      | None => raise (KeyError_ k)
      end
  | JStr _ | JArr _ => raise (TypeError_ "indices must be integers")
  | _ => raise (TypeError_ "object is not subscriptable")
  end.

(** [int(v)] *)
Definition to_int (v : json) : R Z :=
  match v with
  | JInt n => ret n
  | JBool b => ret (if b then 1 else 0)
  | JStr s =>
      match int_of_str s with
      | Some n => ret n
      | None => raise (ValueError_ "invalid literal for int() with base 10")
      end
  | _ => raise (TypeError_ "int() argument must be a string or a real number")
  end.

(** [v.lower()], on ASCII letters. *)
Definition lower_char (c : ascii) : ascii :=
  let n := nat_of_ascii c in
  if ((65 <=? n) && (n <=? 90))%nat then ascii_of_nat (n + 32) else c.

Fixpoint lower_str (s : string) : string :=
  match s with
  | EmptyString => EmptyString
  | String c r => String (lower_char c) (lower_str r)
  end.

Definition lower (v : json) : R string :=
  match v with
  | JStr s => ret (lower_str s)
  | _ => raise (AttributeError_ "object has no attribute 'lower'")
  end.

(** [prefix + m], for a [str] prefix. *)
Definition concat (prefix : string) (m : value) : R string :=
  match m with
  | VStr s => ret (prefix +:+ s)
  | _ => raise (TypeError_ "can only concatenate str to str")
  end.

(** [v in (...)] for a tuple of [str]. *)
Definition among (options : list string) (v : string) : bool :=
  existsb (String.eqb v) options.

(** *** [Mattermost] (mattermost.py) *)

(** [Mattermost.__init__] (mattermost.py, lines 30-39) *)
Definition Mattermost_init (webhook_ : json) : Mattermost :=
  MkMattermost ["Tasks"; ":-----------------------------"]
               ["Status"; ":-------------:"]
               (match webhook_ with
                | JNull => JStr "https://chat.telecomste.fr/hooks/13ta3nw3e787tnxxqkyxfh5xnr"
                | _ => webhook_
                end).

Definition append_row (task symbol : string) (m : Mattermost) : Mattermost :=
  MkMattermost (tasks m ++ [task]) (status m ++ [symbol]) (webhook m).

(** [set_info], [set_warning] and [set_error] (mattermost.py, lines
    41-66) *)
Definition set_info (task : string) : Mattermost -> Mattermost :=
  append_row task " :white_check_mark: ".

Definition set_warning (task : string) : Mattermost -> Mattermost :=
  append_row task " :warning: ".

Definition set_error (task : string) : Mattermost -> Mattermost :=
  append_row task " :x: ".

(** [strftime("%B %d, %Y")] *)
Definition month_name (m : Z) : string :=
  nth (Z.to_nat m)
      [EmptyString; "January"; "February"; "March"; "April"; "May"; "June"; "July";
       "August"; "September"; "October"; "November"; "December"] EmptyString.

Definition strftime_BdY (x : Date.date) : string :=
  month_name (Date.month x) +:+ " " +:+ Str.dec2 (Date.day x) +:+ ", "
  +:+ pretty (Date.year x).

(** The loop of [format_notification] over [range(len(tasks))]. *)
Fixpoint format_rows (ts ss : list string) (range : list nat) (content : string)
    : outcome string :=
  match range with
  | [] => Done content
  | i :: rest =>
      match nth_error ts i, nth_error ss i with
      | Some t, Some s =>
          format_rows ts ss rest (content +:+ "|" +:+ t +:+ "|" +:+ s +:+ "|" +:+ nl)
      | _, _ => Raised (IndexError_ "list index out of range")
      end
  end.

(** [Mattermost.format_notification] (mattermost.py, lines 68-87) *)
Definition format_notification (m : Mattermost) (today : Date.date) : outcome string :=
  format_rows (tasks m) (status m) (seq 0 (length (tasks m)))
              ("#### Archiving report for " +:+ strftime_BdY today +:+ nl).

(** [response.raise_for_status()] *)
Definition raise_for_status (o : Outside) (status_code : Z) : outcome unit :=
  if (400 <=? status_code) && (status_code <? 600) then
    Raised (MkExc ["requests.exceptions.HTTPError";
                   "requests.exceptions.RequestException"; "OSError"; "Exception"]
                  (StrArg (reason o status_code)))
  else Done tt.

(** *** [Email]: the content (e_mail.py) *)

(** [Email.add_content] (e_mail.py, lines 183-190), on the [Email] of
    the [Log] at hand. *)
Definition add_content (message_type msg : string) : R unit :=
  set_log (fun l =>
    match email l with
    | Some e =>
        MkLog (nb_error l) (nb_warning l) (mattermost l) (send_notification l)
              (Some (MkEmail (server e) (content e ++ [message_type +:+ ": " +:+ msg])
                             (err_warning e) (settings e)))
              (send_emails l)
    | None => l
    end).

(** [Email.format_mail] (e_mail.py, lines 214-224) *)
Fixpoint format_mail (content : list string) : string :=
  match content with
  | [] => EmptyString
  | line :: rest => line +:+ nl +:+ format_mail rest
  end.

(** *** [Log] (log.py) *)

(** [if self.mattermost is not None: self.mattermost.set_...(task)] *)
Definition on_mattermost (f : Mattermost -> Mattermost) : R unit :=
  set_log (fun l =>
    match mattermost l with
    | Some m =>
        MkLog (nb_error l) (nb_warning l) (Some (f m)) (send_notification l)
              (email l) (send_emails l)
    | None => l
    end).

(** The part of the three methods that feeds the email body. *)
Definition on_email (level_name action_name : string) (message : option value)
    (default : string) : R unit :=
  l <- gets log ;;
  match email l with
  | Some _ =>
      match message with
      | Some m => line <- concat (action_name +:+ ": ") m ;; add_content level_name line
      | None => add_content level_name (action_name +:+ default)
      end
  | None => ret tt
  end.

(** [Log.info] (log.py, lines 71-92) *)
Definition info (action_name : string) (message : option value) : R unit :=
  logging INFO action_name message ;;;
  on_mattermost (set_info action_name) ;;;
  on_email "INFO" action_name message ": task successful".

(** [Log.error] (log.py, lines 94-116) *)
Definition error (action_name : string) (message : option value) : R unit :=
  set_log (fun l => MkLog (S (nb_error l)) (nb_warning l) (mattermost l)
                          (send_notification l) (email l) (send_emails l)) ;;;
  logging ERROR action_name message ;;;
  on_mattermost (set_error action_name) ;;;
  on_email "ERROR" action_name message ": task failed".

(** [Log.warning] (log.py, lines 118-140) *)
Definition warning (action_name : string) (message : option value) : R unit :=
  set_log (fun l => MkLog (nb_error l) (S (nb_warning l)) (mattermost l)
                          (send_notification l) (email l) (send_emails l)) ;;;
  logging WARNING action_name message ;;;
  on_mattermost (set_warning action_name) ;;;
  on_email "WARNING" action_name message ": task raised a warning".

(** [Mattermost.send_notification] (mattermost.py, lines 89-117), on the
    [Mattermost] object [m] of the [Log] at hand. *)
Definition send_notification_ (m : Mattermost) : R unit :=
  o <- gets outside ;;
  content <- lift (format_notification m (date_today o)) ;;
  try_except
    (add_call (Post (webhook m) content) ;;;
     status_code <- lift (requests_post o (webhook m) content) ;;
     lift (raise_for_status o status_code))
    (fun err =>
       if isinstance err "requests.exceptions.ConnectionError" then
         Some (warning "Mattermost notification"
                 (Some (VStr "Connection error to the mattermost server. Notification not sent.")))
       else if isinstance err "requests.exceptions.HTTPError" then
         Some (match arg0 err with
               | StrArg s =>
                   warning "Mattermost notification"
                     (Some (VStr ("HTTP error encountered: " +:+ s +:+ ". Notification not sent.")))
               | NoArg => raise (IndexError_ "tuple index out of range")
               | OtherArg => raise (TypeError_ "can only concatenate str to str")
               end)
       else if isinstance err "requests.exceptions.Timeout" then
         Some (warning "Mattermost notification"
                 (Some (VStr "Timeout. Notification not sent.")))
       else if isinstance err "requests.exceptions.RequestException" then
         Some (warning "Mattermost notification"
                 (Some (VStr "Unknown Error. Notification not sent.")))
       else None).

(** *** [Email]: the configuration (e_mail.py) *)

(** The elements that [for _e_ in dest_] goes through, and whether
    [dest_] has a [remove] method. *)
Definition elements (dest_ : json) : outcome (list json * bool) :=
  match dest_ with
  | JArr l => Done (l, true)
  | JStr s => Done (map (fun c => JStr (String c EmptyString)) (list_ascii_of_string s), false)
  | JObj fields => Done (map (fun kv => JStr (fst kv)) fields, false)
  | _ => Raised (TypeError_ "object has no len()")
  end.

(** [l.remove(JStr s)]: the first element equal to the string goes. *)
Fixpoint remove_str (s : string) (l : list json) : list json :=
  match l with
  | [] => []
  | JStr t :: rest => if String.eqb s t then rest else JStr t :: remove_str s rest
  | x :: rest => x :: remove_str s rest
  end.

(** The loop [for _e_ in dest_] of [Email.__init__] (e_mail.py, lines
    93-96): [i] is the index of the iterator, [l] the list as it is; [n]
    bounds the iterations that are left by the length of the list at the
    start, which they cannot exceed. *)
Fixpoint validate_loop (n : nat) (i : nat) (l : list json) (removable : bool)
    : R (list json) :=
  match n with
  | O => ret l
  | S n' =>
      match nth_error l i with
      | None => ret l
      | Some _e_ =>
          o <- gets outside ;;
          valid <- lift (validate_email o _e_) ;;
          if valid then validate_loop n' (S i) l removable
          else
            match _e_ with
            | JStr s =>
                warning "Email config" (Some (VStr (s +:+ " is not valid."))) ;;;
                if removable then validate_loop n' (S i) (remove_str s l) removable
                else raise (AttributeError_ "object has no attribute 'remove'")
            | _ => raise (TypeError_ "unsupported operand type(s) for +")
            end
      end
  end.

(** [v == s] for a [str] [s] *)
Definition is_str (s : string) (v : json) : bool :=
  match v with
  | JStr t => String.eqb t s
  | _ => false
  end.

Definition is_empty_str : json -> bool := is_str EmptyString.

(** [Email.__init__] (e_mail.py, lines 49-104): the object it returns.
    The [Log] at hand is the one that creates it, whose [email] is still
    [None]. *)
Definition Email_init (config_ : json) : R Email :=
  locals <- try_except
    (auth_ <- item config_ "auth" ;;
     il <- item config_ "include_log" ;;
     include_log_ <- lower il ;;
     title_ <- item config_ "title" ;;
     dest_ <- item config_ "dest" ;;
     srv <- item config_ "server" ;;
     host_ <- item srv "host" ;;
     port_ <- try_except
       (srv <- item config_ "server" ;;
        p <- item srv "port" ;;
        to_int p)
       (fun err =>
          if isinstance err "ValueError" then
            Some (info "JSON read"
                    (Some (VStr "Email Server port format not supported. Default value is 465.")) ;;;
                  ret 465)
          else None) ;;
     ret (Some (Some (auth_, include_log_, title_, dest_, host_, port_))))
    (fun err =>
       if isinstance err "json.JSONDecodeError" then
         Some (error "JSON file read" None ;;; ret None)
       else if isinstance err "KeyError" then
         Some (match arg0 err with
               | StrArg k => error "JSON file read" (Some (VStr k))
               | OtherArg => error "JSON file read" (Some VOther)
               | NoArg => raise (IndexError_ "tuple index out of range")
               end ;;; ret None)
       else if isinstance err "OSError" then
         (* the statements after the [try] follow, no local bound *)
         Some (error "JSON file read" None ;;; ret (Some None))
       else None) ;;
  match locals with
  | None => ret (MkEmail false [] None None)
  | Some None => raise (UnboundLocalError_ "cannot access local variable 'auth_'")
  | Some (Some (auth_, include_log_, title_, dest_, host_, port_)) =>
      e <- item auth_ "email" ;;
      (if is_empty_str e then
         warning "Email config" (Some (VStr "No email entered: email sending canceled."))
       else ret tt) ;;;
      p <- item auth_ "password" ;;
      (if is_empty_str p then
         warning "Email config" (Some (VStr "No password entered: email sending canceled."))
       else ret tt) ;;;
      include_log_ <-
        (if among ["yes"; "no"; "y"; "n"] include_log_ then ret include_log_
         else
           warning "Email config"
             (Some (VStr "Value entered for include_log field incorrect. Default value is yes.")) ;;;
           ret "yes") ;;
      title_ <-
        (if is_empty_str title_ then
           warning "Email config" (Some (VStr "Title of email empty, default title added.")) ;;;
           ret (JStr "Scripting System Summary")
         else ret title_) ;;
      items <- lift (elements dest_) ;;
      dest_ <-
        (let '(l, removable) := items in
         match l with
         | [] =>
             warning "Email config" (Some (VStr "No recipients for the email entered.")) ;;;
             ret dest_
         | _ :: _ =>
             l' <- validate_loop (length l) 0 l removable ;;
             ret (if removable then JArr l' else dest_)
         end) ;;
      ret (MkEmail false [] None
             (Some (MkSettings host_ port_ auth_ include_log_ title_ dest_)))
  end.

(** *** [Log]: construction and report (log.py) *)

(** [Log.__init__] (log.py, lines 38-69), on the [Log] at hand. *)
Definition Log_init (notification_ emails_ webhook_ : json) : R unit :=
  set_log (fun _ => MkLog 0 0 None None None None) ;;;
  (* delete initial content of file *)
  modify (fun d => MkDesk (outside d) (log d) [] (calls d)) ;;;
  (* instantiate Mattermost object *)
  match notification_ with
  | JNull => ret tt
  | _ =>
      set_log (fun l =>
        MkLog (nb_error l) (nb_warning l) (Some (Mattermost_init webhook_))
              (Some notification_) (email l) (send_emails l)) ;;;
      if match notification_ with
         | JStr s => among ["always"; "error"; "never"] s
         | _ => false
         end
      then ret tt
      else
        set_log (fun l =>
          MkLog (nb_error l) (nb_warning l) (mattermost l) (Some (JStr "always"))
                (email l) (send_emails l)) ;;;
        warning "Config File"
          (Some (VStr "Notification value not supported. Default value 'always' applied"))
  end ;;;
  (* instantiate Email Object *)
  match emails_ with
  | JNull => ret tt
  | _ =>
      v <- item emails_ "send-mail" ;;
      send_emails_ <- lower v ;;
      set_log (fun l =>
        MkLog (nb_error l) (nb_warning l) (mattermost l) (send_notification l)
              (email l) (Some send_emails_)) ;;;
      e <- Email_init emails_ ;;
      set_log (fun l =>
        MkLog (nb_error l) (nb_warning l) (mattermost l) (send_notification l)
              (Some e) (send_emails l)) ;;;
      if among ["yes"; "y"; "no"; "n"] send_emails_ then ret tt
      else
        set_log (fun l =>
          MkLog (nb_error l) (nb_warning l) (mattermost l) (send_notification l)
                (email l) (Some "yes")) ;;;
        warning "Config File"
          (Some (VStr "Email value not supported. Default value 'yes' applied"))
  end.

(** *** [Email]: sending (e_mail.py) *)

Definition get_email : R Email :=
  l <- gets log ;;
  match email l with
  | Some e => ret e
  | None => raise (AttributeError_ "'NoneType' object has no attribute")
  end.

Definition set_email (f : Email -> Email) : R unit :=
  set_log (fun l =>
    match email l with
    | Some e =>
        MkLog (nb_error l) (nb_warning l) (mattermost l) (send_notification l)
              (Some (f e)) (send_emails l)
    | None => l
    end).

(** [self.host], [self.auth] and the like *)
Definition get_settings : R Settings :=
  e <- get_email ;;
  match settings e with
  | Some s => ret s
  | None => raise (AttributeError_ "'Email' object has no attribute")
  end.

Definition or_raise (o : option exc) : R unit :=
  match o with
  | Some e => raise e
  | None => ret tt
  end.

(** [strftime("%d_%m_%Y")] *)
Definition strftime_dmY (x : Date.date) : string :=
  Str.dec2 (Date.day x) +:+ "_" +:+ Str.dec2 (Date.month x) +:+ "_"
  +:+ pretty (Date.year x).

(** [Email.attach_file] (e_mail.py, lines 192-212): the attachment that
    the message has afterwards. *)
Definition attach_file : R (option (string * list record)) :=
  s <- get_settings ;;
  if among ["yes"; "y"] (include_log s) then
    try_except
      (o <- gets outside ;;
       or_raise (open_log_file o) ;;;
       payload <- gets logfile ;;
       info "Attachment" (Some (VStr "Log file added to mail")) ;;;
       ret (Some ("log_file_" +:+ strftime_dmY (date_today o) +:+ ".txt", payload)))
      (fun err =>
         if isinstance err "OSError" then
           Some (warning "Attachment"
                   (Some (VStr "Error while loading attachment into email body. No file attached.")) ;;;
                 ret None)
         else None)
  else ret None.

(** [self.server.login] and the like: the attribute of [self.server] *)
Definition server_attr : R unit :=
  e <- get_email ;;
  if server e then ret tt
  else raise (AttributeError_ "'NoneType' object has no attribute").

(** [Email.login] (e_mail.py, lines 106-118) *)
Definition login : R unit :=
  try_except
    (server_attr ;;;
     s <- get_settings ;;
     user <- item (auth s) "email" ;;
     password <- item (auth s) "password" ;;
     add_call (Login user password) ;;;
     o <- gets outside ;;
     or_raise (server_login o user password))
    (fun err =>
       if isinstance err "smtplib.SMTPAuthenticationError" then
         (* the message is a [str] plus the exception *)
         Some (m <- concat "Credentials not accepted on server. Email not sent." (VExc err) ;;
               warning "Email authentication" (Some (VStr m)))
       else if isinstance err "smtplib.SMTPNotSupportedError" then
         Some (warning "Email authentication"
                 (Some (VStr "AUTH command not supported on the server. Email not sent.")))
       else if isinstance err "smtplib.SMTPException" then
         Some (warning "Email authentication"
                 (Some (VStr "Unknown error occurred. Email not sent.")))
       else None).

(** [self.title + ": " + self.err_warning] *)
Definition subject_line (title_ : json) (err_warning_ : option string) : R string :=
  match title_, err_warning_ with
  | JStr t, Some w => ret (t +:+ ": " +:+ w)
  | _, _ => raise (TypeError_ "can only concatenate str to str")
  end.

(** [Email.login_and_send] (e_mail.py, lines 120-150) *)
Definition login_and_send : R unit :=
  try_except
    (login ;;;
     s <- get_settings ;;
     e <- get_email ;;
     subject_ <- subject_line (title s) (err_warning e) ;;
     let body_ := format_mail (content e) in
     attachment_ <- attach_file ;;
     let msg := MkMail (JStr subject_) body_ attachment_ in
     server_attr ;;;
     sender <- item (auth s) "email" ;;
     o <- gets outside ;;
     or_raise (as_string o msg) ;;;
     add_call (Sendmail sender (dest s) msg) ;;;
     or_raise (server_sendmail o sender (dest s) msg) ;;;
     info "Email sent" None ;;;
     server_attr ;;;
     add_call Quit ;;;
     or_raise (server_quit o))
    (fun err =>
       if isinstance err "smtplib.SMTPRecipientsRefused" then
         Some (warning "Sending email"
                 (Some (VStr "Recipients refused, email was not sent.")))
       else if isinstance err "smtplib.SMTPSenderRefused" then
         Some (warning "Sending email"
                 (Some (VStr "Sender address not accepted by server. Email not sent.")))
       else if isinstance err "smtplib.SMTPDataError" then
         Some (warning "Sending email" (Some (VStr "Error occurred. Email not sent.")))
       else if isinstance err "smtplib.SMTPServerDisconnected" then
         (* the message is a [str] plus the exception *)
         Some (m <- concat "Server disconnected. Email not sent." (VExc err) ;;
               warning "Sending email" (Some (VStr m)))
       else if isinstance err "smtplib.SMTPException" then
         Some (warning "Sending email"
                 (Some (VStr "Unknown error occurred. Email not sent.")))
       else if isinstance err "Exception" then
         Some (warning "Sending mail" (Some (VExc err)))
       else None).

(** [Email.send_stmp] (e_mail.py, lines 152-166) *)
Definition send_stmp : R unit :=
  try_except
    (s <- get_settings ;;
     add_call (Connect (host s) (port s)) ;;;
     o <- gets outside ;;
     or_raise (SMTP_SSL o (host s) (port s)) ;;;
     set_email (fun e => MkEmail true (content e) (err_warning e) (settings e)))
    (fun err =>
       if isinstance err "TimeoutError" then
         Some (warning "Email server connection"
                 (Some (VStr "Timeout error, email not sent.")))
       else if isinstance err "smtplib.SMTPServerDisconnected" then
         Some (warning "Email server connection"
                 (Some (VStr "Server disconnected, email not sent.")))
       else None) ;;;
  e <- get_email ;;
  if server e then login_and_send else ret tt.

(** [Email.send_internal_server] (e_mail.py, lines 168-181) *)
Definition send_internal_server : R unit :=
  try_except
    (add_call ConnectInternal ;;;
     o <- gets outside ;;
     or_raise (SMTP o) ;;;
     s <- get_settings ;;
     e <- get_email ;;
     let body_ := format_mail (content e) in
     attachment_ <- attach_file ;;
     let msg := MkMail (title s) body_ attachment_ in
     sender <- item (auth s) "email" ;;
     or_raise (as_string o msg) ;;;
     add_call (SendmailInternal sender (dest s) msg) ;;;
     or_raise (server_sendmail o sender (dest s) msg))
    (fun err =>
       if isinstance err "Exception" then
         Some (warning "Sending email" (Some (VExc err)))
       else None).

(** [Email.send_email] (e_mail.py, lines 226-234) *)
Definition send_email : R unit :=
  s <- get_settings ;;
  if negb (is_empty_str (host s)) then send_stmp else send_internal_server.

(** [Log.send_notification_email] (log.py, lines 149-168) *)
Definition send_notification_email : R unit :=
  l <- gets log ;;
  match mattermost l with
  | Some m =>
      match send_notification l with
      | Some JNull => ret tt
      | Some v =>
          if is_str "always" v || (is_str "error" v && (0 <? nb_error l)%nat)
          then send_notification_ m
          else ret tt
      | None => raise (AttributeError_ "'Log' object has no attribute 'send_notification'")
      end
  | None => ret tt
  end ;;;
  l <- gets log ;;
  match email l with
  | Some _ =>
      match send_emails l with
      | Some v =>
          if among ["yes"; "y"] v then
            set_email (fun e =>
              MkEmail (server e) (content e)
                (Some (if (0 <? nb_error l)%nat
                       then "Service disrupted due to " +:+ pretty (nb_error l) +:+ " error(s)"
                       else "Service completed with " +:+ pretty (nb_warning l)
                            +:+ " warning(s)"))
                (settings e)) ;;;
            send_email
          else ret tt
      | None => raise (AttributeError_ "'Log' object has no attribute 'send_emails'")
      end
  | None => ret tt
  end.

(** *** Sequences of events *)

(** One call of [info], [error] or [warning] for a status event of a run:
    the message is a [str] or absent. *)
Definition emit (e : StatusEvent) : R unit :=
  let m := option_map VStr (message e) in
  match level e with
  | INFO => info (action_name e) m
  | ERROR => error (action_name e) m
  | WARNING => warning (action_name e) m
  end.

Fixpoint emit_all (es : list StatusEvent) : R unit :=
  match es with
  | [] => ret tt
  | e :: rest => emit e ;;; emit_all rest
  end.

End Report.

(* ===================================================================== *)
(** ** What a report shows *)
(* ===================================================================== *)

Module Reported.
Import Report.

(** The rows of the table for two columns. *)
Fixpoint rows (ts ss : list string) : string :=
  match ts, ss with
  | t :: ts', s :: ss' => "|" +:+ t +:+ "|" +:+ s +:+ "|" +:+ nl +:+ rows ts' ss'
  | _, _ => EmptyString
  end.

Definition symbol (lv : severity) : string :=
  match lv with
  | INFO => " :white_check_mark: "
  | WARNING => " :warning: "
  | ERROR => " :x: "
  end.

(** The method of [Mattermost] for a level. *)
Definition setter (lv : severity) : string -> Mattermost -> Mattermost :=
  match lv with
  | INFO => set_info
  | WARNING => set_warning
  | ERROR => set_error
  end.

(** The text of the notification for a day and the events of a run. *)
Definition notification (today : Date.date) (es : list StatusEvent) : string :=
  "#### Archiving report for " +:+ strftime_BdY today +:+ nl
  +:+ rows ("Tasks" :: ":-----------------------------" :: map action_name es)
           ("Status" :: ":-------------:" :: map (fun e => symbol (level e)) es).

(** The record of the log file and the line of the email body for an
    event. *)
Definition record_of (e : StatusEvent) : record :=
  (level e, action_name e, option_map VStr (message e)).

Definition line_of (e : StatusEvent) : string :=
  match level e with INFO => "INFO" | WARNING => "WARNING" | ERROR => "ERROR" end
  +:+ ": "
  +:+ match message e with
      | Some m => (action_name e +:+ ": ") +:+ m
      | None =>
          action_name e
          +:+ match level e with
              | INFO => ": task successful"
              | ERROR => ": task failed"
              | WARNING => ": task raised a warning"
              end
      end.

Definition has_level (lv : severity) (r : severity) : bool :=
  match lv, r with
  | INFO, INFO | WARNING, WARNING | ERROR, ERROR => true
  | _, _ => false
  end.

(** The number of events, and of records, of a level. *)
Definition count (lv : severity) (es : list StatusEvent) : nat :=
  length (List.filter (fun e => has_level lv (level e)) es).

Definition count_records (lv : severity) (rs : list record) : nat :=
  length (List.filter (fun r : record => has_level lv (fst (fst r))) rs).

(** The [Log] object after the events [es]. *)
Definition logged (es : list StatusEvent) (l : Log) : Log :=
  MkLog (nb_error l + count ERROR es) (nb_warning l + count WARNING es)
        (option_map (fun m => MkMattermost (tasks m ++ map action_name es)
                                (status m ++ map (fun e => symbol (level e)) es)
                                (webhook m))
                    (mattermost l))
        (send_notification l)
        (option_map (fun e => MkEmail (server e) (content e ++ map line_of es)
                                (err_warning e) (settings e))
                    (email l))
        (send_emails l).

(** [Log.__init__] keeps a value of the configuration that is ["always"],
    ["error"] or ["never"]. *)
Definition supported (notification_ : json) : bool :=
  match notification_ with
  | JStr s => among ["always"; "error"; "never"] s
  | _ => false
  end.

(** The events that [Log.__init__] logs itself when no email is
    configured. *)
Definition init_events (notification_ : json) : list StatusEvent :=
  match notification_ with
  | JNull => []
  | _ =>
      if supported notification_ then []
      else [Event WARNING "Config File"
              (Some "Notification value not supported. Default value 'always' applied")]
  end.

(** Whether a run with the events [es] is to be notified, for a value of
    the configuration. *)
Definition notifies (notification_ : json) (es : list StatusEvent) : bool :=
  match notification_ with
  | JNull => false
  | _ =>
      if is_str "never" notification_ then false
      else if is_str "error" notification_ then (0 <? count ERROR es)%nat
      else true
  end.

(** The text that a [Mattermost] object with columns of one length
    shows. *)
Definition notification_text (today : Date.date) (m : Mattermost) : string :=
  "#### Archiving report for " +:+ strftime_BdY today +:+ nl
  +:+ rows (tasks m) (status m).

(** The failure of the post, if any: the exception of [requests.post] or
    the one of [raise_for_status]. *)
Definition post_failure (o : Outside) (url : json) (text : string) : option exc :=
  match requests_post o url text with
  | Raised e => Some e
  | Done code =>
      match raise_for_status o code with
      | Raised e => Some e
      | Done _ => None
      end
  end.

(** The key whose absence ends [Email.__init__] before its assignments,
    for a configuration whose ["server"] entry, when there is one, is an
    object. *)
Definition email_missing (fields : list (string * json)) : option string :=
  match first_missing ["auth"; "include_log"; "title"; "dest"; "server"] fields with
  | Some k => Some k
  | None =>
      match assoc "server" fields with
      | Some (JObj sub) => first_missing ["host"; "port"] sub
      | _ => None
      end
  end.

(** The ["include_log"] entry is a string, if there is one. *)
Definition include_log_str (fields : list (string * json)) : bool :=
  match assoc "include_log" fields with
  | Some (JStr _) | None => true
  | Some _ => false
  end.

(** The end of the subject of the email for the two counters. *)
Definition summary (errors warnings : nat) : string :=
  if (0 <? errors)%nat
  then "Service disrupted due to " +:+ pretty errors +:+ " error(s)"
  else "Service completed with " +:+ pretty warnings +:+ " warning(s)".

(** The counters and the table agree with the records of the log file:
    as many errors and warnings as records of the level, and one row per
    record under the two heading rows. *)
Definition in_step (d : Desk) : bool :=
  (nb_error (log d) =? count_records ERROR (logfile d))%nat
  && (nb_warning (log d) =? count_records WARNING (logfile d))%nat
  && match mattermost (log d) with
     | Some m =>
         (length (tasks m) =? 2 + length (logfile d))%nat
         && (length (status m) =? 2 + length (logfile d))%nat
     | None => true
     end.

(** The calls that the rest of the program makes on a [Log] object. *)
Inductive method :=
  | Info (action_name : string) (message : option value)
  | Error (action_name : string) (message : option value)
  | Warning (action_name : string) (message : option value)
  | Send_notification_email.

Definition invoke (c : method) : R unit :=
  match c with
  | Info a m => info a m
  | Error a m => error a m
  | Warning a m => warning a m
  | Send_notification_email => send_notification_email
  end.

(** A sequence of calls, up to the first that raises. *)
Fixpoint invoke_all (cs : list method) : R unit :=
  match cs with
  | [] => ret tt
  | c :: rest => bind (invoke c) (fun _ => invoke_all rest)
  end.

(** A step that leaves the counters and the table in agreement with the
    log file when they were. *)
Definition steady (d d' : Desk) : Prop := in_step d = true -> in_step d' = true.

(** Every run of a statement relates the state before to the state
    after, whatever its outcome. *)
Definition always {A} (T : Desk -> Desk -> Prop) (c : R A) : Prop :=
  forall d r d', c d = (r, d') -> T d d'.

End Reported.

(** Scenarios of the report. *)
Module Desks.
Import Report.

(** The 15th of March 2024; the webhook answers 200, the validator accepts
    every address and the mail servers every step. *)
Definition obliging : Outside :=
  MkOutside (Date.Mk 2024 3 15) (fun _ _ => Done 200) (fun _ => "Error")
            (fun _ => Done true) (fun _ _ => None) (fun _ _ => None)
            (fun _ _ _ => None) None (fun _ => None) None None.

(** The webhook answers 404. *)
Definition webhook_not_found : Outside :=
  MkOutside (Date.Mk 2024 3 15) (fun _ _ => Done 404)
            (fun _ => "404 Client Error: Not Found for url: https://chat.example.org/hooks/x")
            (fun _ => Done true) (fun _ _ => None) (fun _ _ => None)
            (fun _ _ _ => None) None (fun _ => None) None None.

(** The mail server rejects the credentials. *)
Definition SMTPAuthenticationError : exc :=
  MkExc ["smtplib.SMTPAuthenticationError"; "smtplib.SMTPResponseException";
         "smtplib.SMTPException"; "OSError"; "Exception"] OtherArg.

Definition rejecting : Outside :=
  MkOutside (Date.Mk 2024 3 15) (fun _ _ => Done 200) (fun _ => "Error")
            (fun _ => Done true) (fun _ _ => None)
            (fun _ _ => Some SMTPAuthenticationError)
            (fun _ _ _ => None) None (fun _ => None) None None.

(** Nothing listens at the address of the internal server. *)
Definition ConnectionRefusedError_ : exc :=
  MkExc ["ConnectionRefusedError"; "ConnectionError"; "OSError"; "Exception"] OtherArg.

Definition no_internal_server : Outside :=
  MkOutside (Date.Mk 2024 3 15) (fun _ _ => Done 200) (fun _ => "Error")
            (fun _ => Done true) (fun _ _ => None) (fun _ _ => None)
            (fun _ _ _ => None) None (fun _ => None)
            (Some ConnectionRefusedError_) None.

(** The validator rejects two addresses. *)
Definition picky : Outside :=
  MkOutside (Date.Mk 2024 3 15) (fun _ _ => Done 200) (fun _ => "Error")
            (fun v => Done (negb (is_str "nobody" v || is_str "no one" v)))
            (fun _ _ => None) (fun _ _ => None)
            (fun _ _ _ => None) None (fun _ => None) None None.

Definition blank : Log := MkLog 0 0 None None None None.

Definition desk (o : Outside) (l : Log) : Desk := MkDesk o l [] [].

Definition credentials : list (string * json) :=
  [("email", JStr "backup@example.org"); ("password", JStr "secret")].

Definition complete : Settings :=
  MkSettings (JStr "smtp.example.org") 465 (JObj credentials) "yes" (JStr "Backup")
             (JArr [JStr "admin@example.org"]).

(** A [Log] with an [Email] object, after one error of a run. *)
Definition mailing (s : Settings) : Log :=
  MkLog 1 0 None None
        (Some (MkEmail false ["ERROR: Request ZIP: HTTP error encountered: 404"] None (Some s)))
        (Some "yes").

Definition one_error : list record :=
  [(ERROR, "Request ZIP", Some (VStr "HTTP error encountered: 404"))].

(** An email section without a title. *)
Definition untitled : list (string * json) :=
  [("send-mail", JStr "Yes");
   ("auth", JObj credentials);
   ("include_log", JStr "no");
   ("dest", JArr [JStr "admin@example.org"]);
   ("server", JObj [("host", JStr "smtp.example.org"); ("port", JInt 465)])].

(** The events of a run whose fetch fails. *)
Definition events_404 : list StatusEvent :=
  [Event ERROR "Request ZIP" (Some "HTTP error encountered: 404");
   Event INFO "SQL File Comparison" (Some "There is no previous file to compare.")].

End Desks.

(* ===================================================================== *)
(** * Properties *)
(* ===================================================================== *)

(** ** Exceptions *)

Lemma isinstance_Exception (e : exn) : isinstance e Exception = true.
Proof. destruct e as [c s]; destruct c; reflexivity. Qed.

(** ** The fingerprint *)

Section Fingerprint.

Import Sha1.

Lemma absorb_small h bs :
  (length bs < block_size)%nat -> absorb h bs = (h, bs).
Proof.
  intros Hlt. rewrite absorb_equation_1.
  destruct (le_lt_dec block_size (length bs)); simpl; [lia | reflexivity].
Qed.

Lemma absorb_block h bs :
  (block_size <= length bs)%nat ->
  absorb h bs = absorb (compress h (firstn block_size bs)) (skipn block_size bs).
Proof.
  intros Hle. rewrite absorb_equation_1 at 1.
  destruct (le_lt_dec block_size (length bs)); simpl; [reflexivity | lia].
Qed.

Lemma absorb_rest_short h bs : (length (snd (absorb h bs)) < block_size)%nat.
Proof.
  remember (length bs) as n eqn:Hn. revert h bs Hn.
  induction n as [n IH] using lt_wf_ind. intros h bs ->.
  destruct (le_lt_dec block_size (length bs)) as [Hle | Hlt].
  - rewrite absorb_block by assumption.
    apply (IH (length (skipn block_size bs))); [| reflexivity].
    rewrite length_skipn. unfold block_size in *. lia.
  - rewrite absorb_small by assumption. exact Hlt.
Qed.

(** Absorbing [a ++ b] is absorbing [a], then what [a] left followed by
    [b]: block boundaries do not depend on how the bytes arrived. *)
Lemma absorb_app h a b :
  absorb h (a ++ b) = absorb (fst (absorb h a)) (snd (absorb h a) ++ b).
Proof.
  remember (length a) as n eqn:Hn. revert h a Hn.
  induction n as [n IH] using lt_wf_ind. intros h a ->.
  destruct (le_lt_dec block_size (length a)) as [Hle | Hlt].
  - rewrite (absorb_block h a) by assumption.
    rewrite (absorb_block h (a ++ b)) by (rewrite length_app; lia).
    rewrite firstn_app, skipn_app.
    replace (block_size - length a)%nat with 0%nat by lia.
    simpl firstn at 2. simpl skipn at 2. rewrite app_nil_r.
    apply (IH (length (skipn block_size a))); [| reflexivity].
    rewrite length_skipn. unfold block_size in *. lia.
  - rewrite (absorb_small h a) by assumption. reflexivity.
Qed.

Lemma update_short s data : short (update s data).
Proof.
  unfold short, update.
  pose proof (absorb_rest_short (chain s) (pending s ++ data)) as H.
  destruct (absorb (chain s) (pending s ++ data)); exact H.
Qed.

Lemma new_short : short new.
Proof. unfold short, block_size; simpl; lia. Qed.

Lemma update_nil s : short s -> update s [] = s.
Proof.
  intros Hs. unfold update. rewrite app_nil_r, absorb_small by exact Hs.
  destruct s; simpl. f_equal. lia.
Qed.

(** [m.update(a); m.update(b)] is [m.update(a + b)]. *)
Lemma update_app s a b : update (update s a) b = update s (a ++ b).
Proof.
  unfold update.
  rewrite (app_assoc (pending s) a b), (absorb_app (chain s) (pending s ++ a) b).
  destruct (absorb (chain s) (pending s ++ a)) as [h r]; simpl.
  destruct (absorb h (r ++ b)). f_equal.
  rewrite length_app. lia.
Qed.

Lemma update_chunks chunks : forall s,
  short s -> fold_left update chunks s = update s (concat chunks).
Proof.
  induction chunks as [| c cs IH]; intros s Hs; simpl.
  - symmetry. apply update_nil, Hs.
  - rewrite IH by apply update_short. apply update_app.
Qed.

(** The reading loop of [check_file_version] feeds the whole content. *)
Lemma read_loop_update n : forall rest s,
  short s -> ZipM.read_loop (S n) s rest = update s rest.
Proof.
  intros rest. remember (length rest) as k eqn:Hk. revert rest Hk.
  induction k as [k IH] using lt_wf_ind. intros rest -> s Hs.
  rewrite ZipM.read_loop_equation_1. unfold ZipM.read.
  destruct rest as [| b rest]; simpl.
  - symmetry. apply update_nil, Hs.
  - rewrite (IH (length (skipn n rest))).
    + rewrite update_app. simpl. rewrite firstn_skipn. reflexivity.
    + rewrite length_skipn. simpl. lia.
    + reflexivity.
    + apply update_short.
Qed.

Lemma CHUNK_pos : exists n, ZipM.CHUNK = S n.
Proof.
  unfold ZipM.CHUNK. exists (Z.to_nat 65535).
  rewrite <- Z2Nat.inj_succ by lia. reflexivity.
Qed.

Lemma file_hexdigest_sha1 content : ZipM.file_hexdigest content = sha1_hex content.
Proof.
  unfold ZipM.file_hexdigest, sha1_hex.
  destruct CHUNK_pos as [n ->].
  rewrite read_loop_update by apply new_short. reflexivity.
Qed.

End Fingerprint.

(** ** The calendar *)

Section Calendar.

Import Date.

Lemma days_before_year_succ y :
  days_before_year (y + 1) = days_before_year y + 365 + (if is_leap y then 1 else 0).
Proof.
  unfold days_before_year, is_leap.
  replace (y + 1 - 1) with y by lia.
  destruct (y mod 4 =? 0) eqn:E4; destruct (y mod 100 =? 0) eqn:E100;
    destruct (y mod 400 =? 0) eqn:E400; simpl;
    repeat match goal with
           | H : (_ =? _) = true |- _ => apply Z.eqb_eq in H
           | H : (_ =? _) = false |- _ => apply Z.eqb_neq in H
           end;
    Z.div_mod_to_equations; lia.
Qed.

Lemma days_before_year_mono y y' :
  y < y' -> days_before_year (y + 1) <= days_before_year y'.
Proof.
  unfold days_before_year. intros H. Z.div_mod_to_equations. lia.
Qed.


Lemma month_cases m :
  1 <= m <= 12 ->
  m = 1 \/ m = 2 \/ m = 3 \/ m = 4 \/ m = 5 \/ m = 6 \/ m = 7 \/ m = 8 \/ m = 9
  \/ m = 10 \/ m = 11 \/ m = 12.
Proof. lia. Qed.

Ltac months H :=
  apply month_cases in H;
  repeat match type of H with _ \/ _ => destruct H as [H | H] end; subst.

Lemma within_year y m d :
  1 <= m <= 12 -> 1 <= d <= days_in_month y m ->
  1 <= days_before_month y m + d <= 365 + (if is_leap y then 1 else 0).
Proof.
  intros Hm. unfold days_before_month, days_in_month, DAYS_BEFORE_MONTH.
  months Hm; simpl; destruct (is_leap y); simpl; lia.
Qed.

Lemma month_order y m m' d d' :
  1 <= m <= 12 -> 1 <= m' <= 12 ->
  1 <= d <= days_in_month y m -> 1 <= d' ->
  m < m' ->
  days_before_month y m + d < days_before_month y m' + d'.
Proof.
  intros Hm Hm'. unfold days_before_month, days_in_month, DAYS_BEFORE_MONTH.
  months Hm; months Hm'; simpl; destruct (is_leap y); simpl; lia.
Qed.

Lemma valid_inv d :
  valid d = true ->
  1 <= year d <= 9999 /\ 1 <= month d <= 12
  /\ 1 <= day d <= days_in_month (year d) (month d).
Proof. unfold valid. intros H. lia. Qed.

Lemma lt_toordinal_lt x y :
  valid x = true -> valid y = true ->
  (year x < year y
   \/ (year x = year y /\ (month x < month y \/ (month x = month y /\ day x < day y)))) ->
  toordinal x < toordinal y.
Proof.
  intros Hx Hy. apply valid_inv in Hx as (Hyx & Hmx & Hdx).
  apply valid_inv in Hy as (Hyy & Hmy & Hdy). unfold toordinal.
  pose proof (within_year _ _ _ Hmx Hdx) as Wx.
  pose proof (within_year _ _ _ Hmy Hdy) as Wy.
  intros [H | [H [Hm | [Hm Hd]]]].
  - pose proof (days_before_year_mono _ _ H) as M.
    rewrite days_before_year_succ in M. lia.
  - rewrite H in *. pose proof (month_order (year y) _ _ (day x) (day y) Hmx Hmy) as O.
    lia.
  - rewrite H, Hm. lia.
Qed.

(** Dates are ordered as their ordinals are. *)
Lemma lt_toordinal x y :
  valid x = true -> valid y = true ->
  lt x y = (toordinal x <? toordinal y).
Proof.
  intros Hx Hy. unfold lt.
  destruct (Z.ltb_spec (toordinal x) (toordinal y)) as [H | H].
  - destruct (Z.ltb_spec (year x) (year y)) as [| Hy1]; [reflexivity |].
    destruct (Z.eqb_spec (year x) (year y)) as [Hey |]; simpl.
    2: { pose proof (lt_toordinal_lt y x Hy Hx ltac:(lia)). lia. }
    destruct (Z.ltb_spec (month x) (month y)) as [| Hm1]; [reflexivity |].
    destruct (Z.eqb_spec (month x) (month y)) as [Hem |]; simpl.
    2: { pose proof (lt_toordinal_lt y x Hy Hx ltac:(lia)). lia. }
    destruct (Z.ltb_spec (day x) (day y)) as [| Hd1]; [reflexivity |].
    unfold toordinal in H. rewrite Hey, Hem in H. lia.
  - destruct (Z.ltb_spec (year x) (year y)) as [Hy1 |]; simpl.
    { pose proof (lt_toordinal_lt x y Hx Hy ltac:(lia)). lia. }
    destruct (Z.eqb_spec (year x) (year y)) as [Hey |]; simpl; [| reflexivity].
    destruct (Z.ltb_spec (month x) (month y)) as [Hm1 |]; simpl.
    { pose proof (lt_toordinal_lt x y Hx Hy ltac:(lia)). lia. }
    destruct (Z.eqb_spec (month x) (month y)) as [Hem |]; simpl; [| reflexivity].
    destruct (Z.ltb_spec (day x) (day y)) as [Hd1 |]; [| reflexivity].
    pose proof (lt_toordinal_lt x y Hx Hy ltac:(lia)). lia.
Qed.


Lemma fromordinal_unfold ord :
  fromordinal ord
  = let n := ord - 1 in
    let n400 := n / 146097 in
    let r0 := n mod 146097 in
    let n100 := r0 / 36524 in
    let r1 := r0 mod 36524 in
    let n4 := r1 / 1461 in
    let r2 := r1 mod 1461 in
    let n1 := r2 / 365 in
    let r3 := r2 mod 365 in
    let y := n400 * 400 + 1 + n100 * 100 + n4 * 4 + n1 in
    if (n1 =? 4) || (n100 =? 4) then Mk (y - 1) 12 31
    else
      let md := month_day ((n1 =? 3) && (negb (n4 =? 24) || (n100 =? 3))) r3 in
      Mk y (fst md) (snd md).
Proof.
  unfold fromordinal, month_day. cbv zeta.
  destruct ((_ =? 4) || (_ =? 4)); [reflexivity |].
  match goal with |- context [if ?c then _ else _] => destruct c end; reflexivity.
Qed.

Lemma month_day_table leapyear :
  forallb (fun k => month_day_ok leapyear (Z.of_nat k)) (seq 0 365) = true.
Proof. destruct leapyear; vm_compute; reflexivity. Qed.

Lemma month_day_spec leapyear n :
  0 <= n < 365 -> month_day_ok leapyear n = true.
Proof.
  intros Hn. pose proof (month_day_table leapyear) as T.
  rewrite forallb_forall in T. specialize (T (Z.to_nat n)).
  rewrite Z2Nat.id in T by lia. apply T. apply in_seq. lia.
Qed.

Lemma fromordinal_spec ord :
  1 <= ord <= MAXORDINAL ->
  valid (fromordinal ord) = true /\ toordinal (fromordinal ord) = ord.
Proof.
  unfold MAXORDINAL. intros Ho. rewrite fromordinal_unfold. cbv zeta.
  set (n := ord - 1).
  assert (Hn : ord = n + 1) by (subst n; lia).
  assert (Hn0 : 0 <= n <= 3652058) by (subst n; lia).
  clearbody n. clear Ho.
  set (n400 := n / 146097). set (r0 := n mod 146097).
  set (n100 := r0 / 36524). set (r1 := r0 mod 36524).
  set (n4 := r1 / 1461). set (r2 := r1 mod 1461).
  set (n1 := r2 / 365). set (r3 := r2 mod 365).
  assert (F : n = 146097 * n400 + 36524 * n100 + 1461 * n4 + 365 * n1 + r3
              /\ 0 <= n400 /\ 0 <= n100 <= 4 /\ 0 <= n4 <= 24 /\ 0 <= n1 <= 4
              /\ 0 <= r3 < 365
              /\ (n100 = 4 -> n4 = 0 /\ n1 = 0 /\ r3 = 0)
              /\ (n1 = 4 -> r3 = 0 /\ n4 <= 23)
              /\ n400 * 400 + n100 * 100 + n4 * 4 + n1 <= 9999
              /\ (n1 <= 3 -> n100 <= 3 -> n400 * 400 + n100 * 100 + n4 * 4 + n1 <= 9998)).
  { subst n400 r0 n100 r1 n4 r2 n1 r3.
    repeat match goal with |- _ /\ _ => split end; intros;
      Z.div_mod_to_equations; lia. }
  clearbody n400 r0 n100 r1 n4 r2 n1 r3.
  destruct F as (Fn & F400 & F100 & F4 & F1 & F3 & Fc & Fy & Fmax & Fmax').
  destruct ((n1 =? 4) || (n100 =? 4)) eqn:Esp.
  - assert (Hleap : is_leap (n400 * 400 + 1 + n100 * 100 + n4 * 4 + n1 - 1) = true).
    { unfold is_leap. apply orb_true_iff in Esp.
      destruct Esp as [E | E]; apply Z.eqb_eq in E.
      - destruct (Fy E) as [_ H23].
        apply andb_true_iff. split; [apply Z.eqb_eq | apply orb_true_iff; left;
          apply negb_true_iff; apply Z.eqb_neq]; Z.div_mod_to_equations; lia.
      - destruct (Fc E) as (-> & -> & _).
        apply andb_true_iff. split; [apply Z.eqb_eq | apply orb_true_iff; right;
          apply Z.eqb_eq]; Z.div_mod_to_equations; lia. }
    split.
    + unfold valid. simpl. unfold days_in_month. simpl.
      apply orb_true_iff in Esp. 
      assert (1 <= n400 * 400 + 1 + n100 * 100 + n4 * 4 + n1 - 1 <= 9999).
      { destruct Esp as [E | E]; apply Z.eqb_eq in E; lia. }
      lia.
    + unfold toordinal, days_before_month. simpl. rewrite Hleap. simpl.
      change (DAYS_BEFORE_MONTH 12) with 334.
      unfold days_before_year.
      apply orb_true_iff in Esp.
      destruct Esp as [E | E]; apply Z.eqb_eq in E.
      * destruct (Fy E) as [-> H23]. subst n1. Z.div_mod_to_equations. lia.
      * destruct (Fc E) as (-> & -> & ->). subst n100. Z.div_mod_to_equations. lia.
  - apply orb_false_iff in Esp as [E1 E100].
    apply Z.eqb_neq in E1, E100.
    set (leapyear := (n1 =? 3) && (negb (n4 =? 24) || (n100 =? 3))).
    set (y := n400 * 400 + 1 + n100 * 100 + n4 * 4 + n1).
    assert (Hleap : is_leap y = leapyear).
    { unfold is_leap, leapyear, y.
      destruct (Z.eqb_spec n1 3) as [-> | N1]; simpl.
      - replace ((n400 * 400 + 1 + n100 * 100 + n4 * 4 + 3) mod 4 =? 0) with true
          by (symmetry; apply Z.eqb_eq; Z.div_mod_to_equations; lia).
        simpl. destruct (Z.eqb_spec n4 24) as [-> | N4]; simpl.
        + replace ((n400 * 400 + 1 + n100 * 100 + 24 * 4 + 3) mod 100 =? 0) with true
            by (symmetry; apply Z.eqb_eq; Z.div_mod_to_equations; lia).
          simpl. destruct (Z.eqb_spec n100 3) as [-> | N100].
          * apply Z.eqb_eq. Z.div_mod_to_equations. lia.
          * apply Z.eqb_neq. Z.div_mod_to_equations. lia.
        + replace ((n400 * 400 + 1 + n100 * 100 + n4 * 4 + 3) mod 100 =? 0) with false
            by (symmetry; apply Z.eqb_neq; Z.div_mod_to_equations; lia).
          reflexivity.
      - replace ((n400 * 400 + 1 + n100 * 100 + n4 * 4 + n1) mod 4 =? 0) with false
          by (symmetry; apply Z.eqb_neq; Z.div_mod_to_equations; lia).
        reflexivity. }
    pose proof (month_day_spec leapyear r3 F3) as T. unfold month_day_ok in T.
    cbv zeta in T. destruct (month_day leapyear r3) as [m d]. simpl in T. simpl.
    repeat (apply andb_true_iff in T as [T ?]).
    assert (Hy : days_before_year y = n - r3).
    { unfold days_before_year, y. Z.div_mod_to_equations. lia. }
    split.
    + unfold valid. simpl. unfold days_in_month. rewrite Hleap.
      assert (1 <= y <= 9999) by (unfold y; lia).
      repeat (apply andb_true_iff; split); try lia; assumption.
    + unfold toordinal, days_before_month. simpl. rewrite Hleap, Hy. lia.
Qed.

Lemma toordinal_range d :
  valid d = true -> 1 <= toordinal d <= MAXORDINAL.
Proof.
  intros Hv. apply valid_inv in Hv as (Hy & Hm & Hd). unfold toordinal, MAXORDINAL.
  pose proof (within_year _ _ _ Hm Hd) as W.
  assert (0 <= days_before_year (year d)).
  { unfold days_before_year. Z.div_mod_to_equations. lia. }
  assert (days_before_year (year d + 1) <= days_before_year 10000).
  { destruct (Z.eq_dec (year d) 9999) as [-> | N]; [reflexivity |].
    etransitivity; [| apply (days_before_year_mono (year d + 1) 10000); lia].
    rewrite (days_before_year_succ (year d + 1)).
    destruct (is_leap (year d + 1)); lia. }
  rewrite days_before_year_succ in *.
  change (days_before_year 10000) with 3652059 in *. lia.
Qed.


(** *** The name of an archive and the date read in it *)

Lemma digit_char_nat z : nat_of_ascii (Str.digit_char z) = Z.to_nat (48 + z mod 10).
Proof.
  unfold Str.digit_char. apply nat_ascii_embedding.
  pose proof (Z.mod_pos_bound z 10 ltac:(lia)). lia.
Qed.

Lemma digit_char_is_digit z : Str.is_digit (Str.digit_char z) = true.
Proof.
  unfold Str.is_digit. rewrite digit_char_nat.
  pose proof (Z.mod_pos_bound z 10 ltac:(lia)).
  apply andb_true_iff. split; apply Nat.leb_le; lia.
Qed.

Lemma digit_char_val z : Str.digit_val (Str.digit_char z) = z mod 10.
Proof.
  unfold Str.digit_val. rewrite digit_char_nat.
  pose proof (Z.mod_pos_bound z 10 ltac:(lia)). lia.
Qed.

Lemma remove_tgz_cons c rest :
  c <> "."%char -> Str.remove_tgz (String c rest) = String c (Str.remove_tgz rest).
Proof.
  intros Hc. destruct c as [[] [] [] [] [] [] [] []]; try reflexivity.
  contradiction Hc. reflexivity.
Qed.

Lemma digit_char_not_dot z : Str.digit_char z <> "."%char.
Proof.
  intros E. apply (f_equal nat_of_ascii) in E. rewrite digit_char_nat in E.
  pose proof (Z.mod_pos_bound z 10 ltac:(lia)).
  change (nat_of_ascii ".") with 46%nat in E. lia.
Qed.

Lemma remove_tgz_name d :
  Str.remove_tgz (strftime_Ydm d +:+ ".tgz") = strftime_Ydm d.
Proof.
  unfold strftime_Ydm, Str.dec4, Str.dec2. cbv [String.append].
  rewrite !remove_tgz_cons by apply digit_char_not_dot. reflexivity.
Qed.

Lemma first_match_year y l :
  first_match y l
  = match first_match 0 l with
    | Some (_, d, m, r) => Some (y, d, m, r)
    | None => None
    end.
Proof.
  induction l as [| [d r] l IH]; simpl; [reflexivity |].
  destruct (month_branches r) as [| [m r'] ?]; [exact IH | reflexivity].
Qed.

Lemma day_month_table :
  forallb (fun d => forallb (fun m => day_month_ok (Z.of_nat d) (Z.of_nat m)) (seq 1 12))
          (seq 1 31) = true.
Proof. vm_compute. reflexivity. Qed.

Lemma day_month_spec y d m :
  1 <= d <= 31 -> 1 <= m <= 12 ->
  first_match y (day_branches (list_ascii_of_string (Str.dec2 d +:+ Str.dec2 m)))
  = Some (y, d, m, []).
Proof.
  intros Hd Hm. pose proof day_month_table as T.
  rewrite forallb_forall in T. specialize (T (Z.to_nat d) ltac:(apply in_seq; lia)).
  rewrite forallb_forall in T. specialize (T (Z.to_nat m) ltac:(apply in_seq; lia)).
  rewrite !Z2Nat.id in T by lia. unfold day_month_ok in T.
  rewrite first_match_year.
  destruct (first_match 0 _) as [[[[y0 d'] m'] r] |]; [| discriminate T].
  destruct r; [| discriminate T].
  apply andb_true_iff in T as [T1 T2]. apply Z.eqb_eq in T1, T2. subst. reflexivity.
Qed.

Lemma days_in_month_le y m : days_in_month y m <= 31.
Proof.
  unfold days_in_month.
  destruct (m =? 2); [destruct (is_leap y); lia |].
  destruct ((m =? 4) || (m =? 6) || (m =? 9) || (m =? 11)); lia.
Qed.

(** The name that [Zip.__init__] makes of a day reads, in the sweep, as
    that day. *)
Lemma strptime_strftime d :
  valid d = true -> 1000 <= year d ->
  strptime_Ydm (Str.remove_tgz (strftime_Ydm d +:+ ".tgz")) = Ok d.
Proof.
  intros Hv Hy. rewrite remove_tgz_name.
  pose proof (valid_inv d Hv) as (Hyr & Hm & Hd).
  pose proof (days_in_month_le (year d) (month d)).
  unfold strptime_Ydm, strftime_Ydm, Str.dec4.
  change (list_ascii_of_string
            ((Str.dec2 (year d / 100) +:+ Str.dec2 (year d))
             +:+ Str.dec2 (day d) +:+ Str.dec2 (month d)))
    with (Str.digit_char (year d / 100 / 10) :: Str.digit_char (year d / 100)
          :: Str.digit_char (year d / 10) :: Str.digit_char (year d)
          :: list_ascii_of_string (Str.dec2 (day d) +:+ Str.dec2 (month d))).
  unfold re_match. rewrite !digit_char_is_digit. cbn [andb].
  rewrite !digit_char_val.
  rewrite day_month_spec by lia.
  replace (1000 * ((year d / 100 / 10) mod 10) + 100 * ((year d / 100) mod 10)
           + 10 * ((year d / 10) mod 10) + year d mod 10) with (year d)
    by (Z.div_mod_to_equations; lia).
  unfold make, MINYEAR, MAXYEAR.
  replace ((1 <=? year d) && (year d <=? 9999)) with true by (symmetry; lia).
  replace ((1 <=? month d) && (month d <=? 12)) with true by (symmetry; lia).
  replace ((1 <=? day d) && (day d <=? days_in_month (year d) (month d))) with true
    by (symmetry; lia).
  simpl. destruct d; reflexivity.
Qed.

End Calendar.

(** ** The statements of the monad *)

Ltac run :=
  unfold bind, ret, lift, gets, modify, raise, try_except,
    LogM.info, LogM.error, LogM.warning, LogM.init,
    LogM.send_notification_email in *;
  simpl in *.

(** ** The eviction sweep *)

Section Sweep.

Import SMB.

Lemma after_deletes_env dir names : forall w, env (after_deletes dir names w) = env w.
Proof.
  induction names as [| n ns IH]; intros w; simpl; [reflexivity |].
  unfold after_deletes in *. simpl. rewrite IH. reflexivity.
Qed.

Lemma after_deletes_fs dir names : forall w, fs (after_deletes dir names w) = fs w.
Proof.
  induction names as [| n ns IH]; intros w; simpl; [reflexivity |].
  unfold after_deletes in *. simpl. rewrite IH. reflexivity.
Qed.

Lemma after_deletes_log dir names : forall w, log (after_deletes dir names w) = log w.
Proof.
  induction names as [| n ns IH]; intros w; simpl; [reflexivity |].
  unfold after_deletes in *. simpl. rewrite IH. reflexivity.
Qed.

Lemma after_deletes_calls dir names : forall w,
  calls (after_deletes dir names w)
  = calls w ++ map (fun n => SmbDeleteFiles (dir +:+ n)) names.
Proof.
  induction names as [| n ns IH]; intros w; simpl.
  - rewrite app_nil_r. reflexivity.
  - unfold after_deletes in *. simpl. rewrite IH. simpl.
    rewrite <- app_assoc. reflexivity.
Qed.

Lemma after_deletes_remote dir names : forall w,
  remote (after_deletes dir names w)
  = List.filter (fun g => negb (removed names g)) (remote w).
Proof.
  induction names as [| n ns IH]; intros w; simpl.
  - unfold removed. simpl. 
    rewrite (List.filter_ext (fun g => negb (negb (isDirectory g) && false)) (fun _ => true)).
    + induction (remote w) as [| x l IHl]; simpl; [reflexivity | f_equal; exact IHl].
    + intros g. rewrite andb_false_r. reflexivity.
  - unfold after_deletes in *. simpl. rewrite IH. simpl.
    unfold unlink. clear IH.
    induction (remote w) as [| x l IHl]; simpl; [reflexivity |].
    unfold removed at 2. simpl.
    destruct (String.eqb n (filename x)) eqn:En; destruct (isDirectory x) eqn:Ed; simpl;
      try rewrite IHl; unfold removed; try rewrite Ed; simpl; try reflexivity.
Qed.

Lemma deleted_names_cons max_date f r :
  deleted_names max_date (f :: r)
  = if isDirectory f then deleted_names max_date r
    else match entry_date f with
         | Ok d => if Date.lt d max_date
                   then filename f :: deleted_names max_date r
                   else deleted_names max_date r
         | Raise _ => []
         end.
Proof.
  unfold deleted_names. simpl. unfold readable.
  destruct (isDirectory f) eqn:Ed; simpl.
  { unfold expired at 1. rewrite Ed. reflexivity. }
  destruct (entry_date f) as [d | e] eqn:Ep; simpl; [| reflexivity].
  unfold expired at 1. rewrite Ed, Ep. simpl.
  destruct (Date.lt d max_date); reflexivity.
Qed.

(** The loop, when the session is open and no deletion fails: it deletes
    the expired files among the scanned entries and ends with the count,
    or with the exception of the first entry that is not readable. *)
Lemma sweep_spec a c max_date l : forall k w,
  sock c = true ->
  (forall p, smb_delete (env w) p = None) ->
  sweep a c max_date l k w
  = (match first_error l with
     | None => Ok (k + length (deleted_names max_date l))%nat
     | Some e => Raise e
     end,
     after_deletes (path a) (deleted_names max_date l) w).
Proof.
  induction l as [| f r IH]; intros k w Hs Hd.
  - simpl. unfold ret, deleted_names. simpl. rewrite Nat.add_0_r. reflexivity.
  - rewrite deleted_names_cons. simpl sweep. simpl first_error.
    destruct (isDirectory f) eqn:Ed; simpl.
    + apply IH; assumption.
    + unfold entry_date.
      destruct (Date.strptime_Ydm (Str.remove_tgz (filename f))) as [d | e] eqn:Ep.
      * unfold bind at 1, lift. 
        destruct (Date.lt d max_date) eqn:El.
        -- unfold bind at 1. unfold deleteFiles. run. unfold connected. rewrite Hs.
           run. rewrite Hd. run.
           rewrite IH; [| assumption | simpl; assumption].
           rewrite <- plus_n_Sm. reflexivity.
        -- apply IH; assumption.
      * run. reflexivity.
Qed.

Lemma check_server_connected self a c w max_date :
  attrs self = Some a -> samba a = Some c -> sock c = true ->
  smb_list (env w) = None ->
  (forall p, smb_delete (env w) p = None) ->
  Date.minus_days (today (env w)) (save_days a) = Ok max_date ->
  check_server self w
  = (Ok tt,
     let names := deleted_names max_date (remote w) in
     let w' := after_deletes (path a) names (add_call (SmbListPath (path a)) w) in
     match first_error (remote w) with
     | None =>
         snd (LogM.info "Server File Check"
                (Some (pretty (length names) +:+ " file(s) removed from remote server.")) w')
     | Some e =>
         snd (LogM.error "Server File Check" (Some ("Error encountered: " +:+ args0 e)) w')
     end).
Proof.
  intros Ha Hc Hs Hl Hd Hm.
  unfold check_server, getattrs. rewrite Ha.
  unfold try_except, bind at 1, ret. rewrite Hc.
  unfold bind at 1. unfold listPath. unfold connected. rewrite Hs.
  run. rewrite Hl. run. rewrite Hm. 
  rewrite sweep_spec; [| assumption | simpl; assumption].
  simpl.
  destruct (first_error (remote w)) as [e |].
  - rewrite isinstance_Exception. reflexivity.
  - reflexivity.
Qed.

Lemma scanned_all l : forallb readable l = true -> scanned l = l.
Proof.
  induction l as [| f r IH]; simpl; [reflexivity |].
  intros H. apply andb_true_iff in H as [Hf Hr]. rewrite Hf, IH by exact Hr. reflexivity.
Qed.

Lemma expired_same_name max_date f g :
  filename f = filename g -> isDirectory g = false ->
  expired max_date f = true -> expired max_date g = true.
Proof.
  unfold expired, entry_date. intros -> ->.
  intros H. apply andb_true_iff in H as [_ H]. exact H.
Qed.

Lemma removed_expired max_date l g :
  removed (deleted_names max_date l) g = true -> expired max_date g = true.
Proof.
  unfold removed, deleted_names. intros H.
  apply andb_true_iff in H as [Hd H].
  apply existsb_exists in H as [n [Hin Hn]].
  apply String.eqb_eq in Hn. subst n.
  apply in_map_iff in Hin as [f [Hf Hin]].
  apply filter_In in Hin as [_ He].
  apply (expired_same_name max_date f g); [exact Hf | | exact He].
  destruct (isDirectory g); [discriminate | reflexivity].
Qed.

Lemma expired_removed max_date l g :
  In g (scanned l) -> expired max_date g = true ->
  removed (deleted_names max_date l) g = true.
Proof.
  intros Hin He. unfold removed, deleted_names.
  apply andb_true_iff. split.
  - unfold expired in He. apply andb_true_iff in He as [He _]. exact He.
  - apply existsb_exists. exists (filename g). split.
    + apply in_map, filter_In. split; assumption.
    + apply String.eqb_refl.
Qed.

Lemma lt_irrefl d : Date.lt d d = false.
Proof. unfold Date.lt. rewrite !Z.ltb_irrefl, !Z.eqb_refl. reflexivity. Qed.

(** C1, as the code has it.  When the session is open, the listing succeeds, no
    deletion fails and [today - save_days] is a date, [check_server] ends
    normally having called [deleteFiles] on exactly the files whose name
    gives a date strictly before [max_date] among the entries listed before
    the first file whose name is not a date; the share loses the files of
    those names and nothing else.  When every name is a date these are
    all the expired files.  A file dated [max_date] itself stays, and no
    directory is deleted. *)
Theorem check_server_evicts self a c w max_date :
  attrs self = Some a -> samba a = Some c -> sock c = true ->
  smb_list (env w) = None ->
  (forall p, smb_delete (env w) p = None) ->
  Date.minus_days (today (env w)) (save_days a) = Ok max_date ->
  exists w',
    check_server self w = (Ok tt, w')
    /\ calls w' = calls w ++ SmbListPath (path a)
                   :: map (fun n => SmbDeleteFiles (path a +:+ n))
                          (deleted_names max_date (remote w))
    /\ remote w'
       = List.filter (fun g => negb (removed (deleted_names max_date (remote w)) g))
                     (remote w)
    /\ (forallb readable (remote w) = true ->
        remote w' = List.filter (fun g => negb (expired max_date g)) (remote w))
    /\ (forall g, In g (remote w) -> entry_date g = Ok max_date -> In g (remote w'))
    /\ (forall g, In g (remote w) -> isDirectory g = true -> In g (remote w')).
Proof.
  intros Ha Hc Hs Hl Hd Hm.
  rewrite (check_server_connected self a c w max_date) by assumption.
  eexists. split; [reflexivity |].
  assert (Hremote :
    remote (let names := deleted_names max_date (remote w) in
            let w' := after_deletes (path a) names (add_call (SmbListPath (path a)) w) in
            match first_error (remote w) with
            | None =>
                snd (LogM.info "Server File Check"
                  (Some (pretty (length names) +:+ " file(s) removed from remote server.")) w')
            | Some e =>
                snd (LogM.error "Server File Check"
                  (Some ("Error encountered: " +:+ args0 e)) w')
            end)
    = List.filter (fun g => negb (removed (deleted_names max_date (remote w)) g)) (remote w)).
  { simpl. destruct (first_error (remote w)); simpl; rewrite after_deletes_remote; reflexivity. }
  split.
  { simpl. destruct (first_error (remote w)); simpl;
      rewrite after_deletes_calls; simpl; rewrite <- app_assoc; reflexivity. }
  split; [exact Hremote |].
  rewrite Hremote. split; [| split].
  - intros Hall. apply List.filter_ext_in. intros g Hg. f_equal.
    destruct (expired max_date g) eqn:He.
    + apply expired_removed; [rewrite scanned_all by exact Hall; exact Hg | exact He].
    + destruct (removed (deleted_names max_date (remote w)) g) eqn:Hr; [| reflexivity].
      apply removed_expired in Hr. congruence.
  - intros g Hg Hb. apply filter_In. split; [exact Hg |].
    destruct (removed (deleted_names max_date (remote w)) g) eqn:Hr; [| reflexivity].
    apply removed_expired in Hr. unfold expired in Hr. rewrite Hb, lt_irrefl in Hr.
    rewrite andb_false_r in Hr. discriminate.
  - intros g Hg Hdir. apply filter_In. split; [exact Hg |].
    unfold removed. rewrite Hdir. reflexivity.
Qed.

Lemma scanned_stop before bad after :
  forallb readable before = true -> readable bad = false ->
  scanned (before ++ bad :: after) = before.
Proof.
  induction before as [| f r IH]; simpl; intros Hb Hbad.
  - rewrite Hbad. reflexivity.
  - apply andb_true_iff in Hb as [Hf Hr]. rewrite Hf, IH by assumption. reflexivity.
Qed.

Lemma first_error_stop before bad after :
  forallb readable before = true -> readable bad = false ->
  exists e, entry_date bad = Raise e
            /\ first_error (before ++ bad :: after) = Some e.
Proof.
  intros Hb Hbad.
  assert (Hex : exists e, entry_date bad = Raise e /\ isDirectory bad = false).
  { unfold readable in Hbad. apply orb_false_iff in Hbad as [Hd Hp].
    destruct (entry_date bad) as [d | e]; [discriminate |]. exists e. split; [reflexivity | exact Hd]. }
  destruct Hex as [e [He Hd]]. exists e. split; [exact He |].
  induction before as [| f r IH]; simpl.
  - rewrite Hd, He. reflexivity.
  - simpl in Hb. apply andb_true_iff in Hb as [Hf Hr].
    unfold readable in Hf. destruct (isDirectory f); [apply IH; exact Hr |].
    simpl in Hf. destruct (entry_date f); [apply IH; exact Hr | discriminate].
Qed.

(** C4, as the code has it.  A file whose name is not a date ends the sweep: the
    [ValueError] of [strptime] is caught by the handler of [check_server],
    which logs one ERROR event and returns; the expired files listed
    before it have been deleted, the entries listed after it have not been
    looked at. *)
Theorem check_server_stops_at_unreadable self a c w max_date before bad after :
  attrs self = Some a -> samba a = Some c -> sock c = true ->
  smb_list (env w) = None ->
  (forall p, smb_delete (env w) p = None) ->
  Date.minus_days (today (env w)) (save_days a) = Ok max_date ->
  remote w = before ++ bad :: after ->
  forallb readable before = true ->
  readable bad = false ->
  exists w' e,
    check_server self w = (Ok tt, w')
    /\ entry_date bad = Raise e
    /\ logged w w' [Event ERROR "Server File Check"
                      (Some ("Error encountered: " +:+ args0 e))]
    /\ calls w' = calls w ++ SmbListPath (path a)
                   :: map (fun n => SmbDeleteFiles (path a +:+ n))
                          (map filename (List.filter (expired max_date) before))
    /\ remote w'
       = List.filter
           (fun g => negb (removed (map filename (List.filter (expired max_date) before)) g))
           (remote w).
Proof.
  intros Ha Hc Hs Hl Hd Hm Hr Hb Hbad.
  rewrite (check_server_connected self a c w max_date) by assumption.
  destruct (first_error_stop before bad after Hb Hbad) as [e [He Hfe]].
  unfold deleted_names. cbv zeta. rewrite Hr. rewrite Hfe, scanned_stop by assumption. rewrite <- Hr.
  eexists. exists e. split; [reflexivity |]. split; [exact He |].
  unfold logged. simpl.
  rewrite after_deletes_log, after_deletes_calls, after_deletes_remote. simpl.
  rewrite <- app_assoc. simpl. auto.
Qed.

End Sweep.

(** ** The session with the share *)

Section Session.

Import SMB.

(** C8.  [check_file] returns [False] with an ERROR event when [samba]
    is [None]; with an open session and a listing that succeeds it returns
    whether an entry of the listing bears the name of the archive; when
    the listing raises, it logs an ERROR event and ends without a [return]
    statement: its value is [None], not [False]. *)
Theorem check_file_outcomes self a w :
  attrs self = Some a ->
  (samba a = None ->
   exists w',
     check_file self w = (Ok (Some false), w')
     /\ logged w w' [Event ERROR "File Uploaded"
          (Some "Unable to connect to the SMB server and check if file was uploaded.")])
  /\ (forall c, samba a = Some c -> sock c = true -> smb_list (env w) = None ->
      exists w',
        check_file self w
        = (Ok (Some (existsb (fun f => String.eqb (file self) (filename f)) (remote w))), w')
        /\ remote w' = remote w)
  /\ (forall c e, samba a = Some c -> sock c = true -> smb_list (env w) = Some e ->
      exists w',
        check_file self w = (Ok None, w')
        /\ logged w w' [Event ERROR "File Uploaded"
             (Some ("Error encountered: " +:+ args0 e))]).
Proof.
  intros Ha. unfold check_file, getattrs, logged. rewrite Ha. repeat split.
  - intros Hc. run. rewrite Hc. run. eexists. split; reflexivity.
  - intros c Hc Hs Hl. run. rewrite Hc. unfold listPath, connected. rewrite Hs. run.
    rewrite Hl. run.
    destruct (existsb _ (remote w)); run; eexists; split; reflexivity.
  - intros c e Hc Hs Hl. run. rewrite Hc. unfold listPath, connected. rewrite Hs. run.
    rewrite Hl. run. rewrite isinstance_Exception. run. eexists. split; reflexivity.
Qed.

Lemma send_file_no_error self w :
  List.filter is_error (events (log (snd (send_file self w))))
  = List.filter is_error (events (log w)).
Proof.
  unfold send_file, getattrs.
  destruct (attrs self) as [a |]; run; [| reflexivity].
  destruct (samba a) as [c |]; run; [| reflexivity].
  unfold ZipM.open_rb. run.
  destruct (fs w !! file self); run; [| reflexivity].
  unfold storeFile, connected. run.
  destruct (sock c); run; [| reflexivity].
  unfold or_raise.
  destruct (smb_store (env w)); run; [reflexivity |].
  rewrite List.filter_app. simpl. rewrite app_nil_r. reflexivity.
Qed.

(** C7.  With [samba] equal to [None], [send_file] does nothing at all:
    no transfer, and no event either.  After a [connect] that timed out,
    [samba] is a closed session, not [None]: [send_file] goes on and an
    exception leaves it, without an event and without a transfer.  In no
    state does [send_file] add an ERROR event to the log. *)
Theorem send_file_not_connected self a w :
  attrs self = Some a ->
  (samba a = None -> send_file self w = (Ok tt, w))
  /\ (forall e, smb_connect (env w) = Raise e -> isinstance e SMBTimeout = true ->
      exists self' w1,
        connect self w = (Ok self', w1)
        /\ logged w w1 [Event ERROR "SMB Connection" (Some "Unable to connect to SMB share")]
        /\ exists x w2,
             send_file self' w1 = (Raise x, w2)
             /\ logged w1 w2 []
             /\ remote w2 = remote w)
  /\ List.filter is_error (events (log (snd (send_file self w))))
     = List.filter is_error (events (log w)).
Proof.
  intros Ha. split; [| split].
  - intros Hc. unfold send_file, getattrs. rewrite Ha. run. rewrite Hc. reflexivity.
  - intros e He Ht. unfold connect, getattrs, lib_connect, lib_close. rewrite Ha. run.
    rewrite He. run. rewrite Ht. run.
    eexists. eexists. split; [reflexivity |]. unfold logged. split; [reflexivity |].
    unfold send_file, getattrs, set_samba. run. unfold ZipM.open_rb. run.
    destruct (fs w !! file self); run.
    + unfold storeFile, connected. run. eexists. eexists.
      split; [reflexivity |]. simpl. rewrite app_nil_r. auto.
    + eexists. eexists. split; [reflexivity |]. simpl. rewrite app_nil_r. auto.
  - apply send_file_no_error.
Qed.

End Session.

(** ** The configuration of the share *)

Section Config.

Import SMB.

Lemma report_blank_run v msg w :
  report_blank v msg w
  = (Ok tt, set_log (fun l => MkLog (events l ++ blank_event v msg)
                                (nb_error l + length (blank_event v msg))
                                (nb_warning l)) w).
Proof.
  unfold report_blank, blank_event.
  destruct w as [e0 f r [ev ne nw] c].
  destruct (blank v); run; unfold set_log; simpl.
  - rewrite Nat.add_1_r. reflexivity.
  - rewrite app_nil_r, Nat.add_0_r. reflexivity.
Qed.

(** C10.  When the configuration has the keys of the share and
    [int(data["save_days"])] raises [ValueError], [__init__] ends normally
    with [save_days] equal to 7; what it logs for it is one INFO event (the
    events that follow are those of the blank values, the only ones that
    count as errors), and the sweep of the object computes [today - 7]. *)
Theorem init_save_days_default file_ w data smb_ ip_ hostname_ user_ pswd_ sharename_ p v e :
  config_file (env w) = Ok data ->
  getitem data "smb" = Ok smb_ ->
  getitem smb_ "ip" = Ok ip_ ->
  getitem smb_ "hostname" = Ok hostname_ ->
  getitem smb_ "user" = Ok user_ ->
  getitem smb_ "password" = Ok pswd_ ->
  getitem smb_ "sharename" = Ok sharename_ ->
  getitem smb_ "path" = Ok (JStr p) ->
  getitem data "save_days" = Ok v ->
  int v = Raise e ->
  isinstance e ValueError = true ->
  exists self a w',
    init file_ w = (Ok self, w')
    /\ attrs self = Some a
    /\ save_days a = 7
    /\ logged w w'
         (Event INFO "JSON read" (Some "Time format not supported.")
          :: blank_reports ip_ hostname_ user_ pswd_ sharename_ (JStr p))
    /\ nb_error (log w')
       = (nb_error (log w)
          + length (blank_reports ip_ hostname_ user_ pswd_ sharename_ (JStr p)))%nat
    /\ Date.minus_days (today (env w')) (save_days a)
       = Date.minus_days (today (env w)) 7.
Proof.
  intros Hc Hsmb Hip Hh Hu Hpw Hsh Hp Hsd Hint Hve.
  unfold init, smb_field, read_save_days, ZipM.load_config.
  run. rewrite Hc. run. rewrite Hsmb. run.
  rewrite Hip, Hh, Hu, Hpw, Hsh, Hp. rewrite Hsd. run. rewrite Hint. rewrite Hve.
  rewrite !report_blank_run. run.
  eexists. eexists. eexists. split; [reflexivity |].
  split; [reflexivity |]. split; [reflexivity |]. split; [| split; [| reflexivity]].
  - unfold logged, blank_reports. simpl. rewrite <- !app_assoc. reflexivity.
  - unfold blank_reports. simpl. rewrite !length_app. lia.
Qed.
End Config.

(** ** What the methods leave unchanged *)

Section Run.

Import ZipM SMB Main.

Section Frame.

Variable I : World -> World -> Prop.
Hypothesis I_refl : forall w, I w w.
Hypothesis I_trans : forall a b c, I a b -> I b c -> I a c.

Lemma keeps_ret {A} (a : A) : keeps I (ret a).
Proof. intros w. apply I_refl. Qed.

Lemma keeps_raise {A} (e : exn) : keeps I (@raise A e).
Proof. intros w. apply I_refl. Qed.

Lemma keeps_lift {A} (r : result A) : keeps I (lift r).
Proof. intros w. apply I_refl. Qed.

Lemma keeps_gets {A} (f : World -> A) : keeps I (gets f).
Proof. intros w. apply I_refl. Qed.

Lemma keeps_bind {A B} (c : M A) (k : A -> M B) :
  keeps I c -> (forall a, keeps I (k a)) -> keeps I (bind c k).
Proof.
  intros Hc Hk w. unfold bind. specialize (Hc w).
  destruct (c w) as [[a | e] w1]; simpl in *; [| exact Hc].
  eapply I_trans; [exact Hc | apply Hk].
Qed.

Lemma keeps_try {A} (body : M A) (handlers : exn -> option (M A)) :
  keeps I body ->
  (forall e h, handlers e = Some h -> keeps I h) ->
  keeps I (try_except body handlers).
Proof.
  intros Hb Hh w. unfold try_except. specialize (Hb w).
  destruct (body w) as [[a | e] w1]; simpl in *; [exact Hb |].
  destruct (handlers e) as [h |] eqn:E; [| exact Hb].
  eapply I_trans; [exact Hb | apply (Hh e h E)].
Qed.

End Frame.

Lemma grows_refl w : grows w w.
Proof.
  split; [reflexivity |]. split; exists []; rewrite app_nil_r; reflexivity.
Qed.

Lemma grows_trans a b c : grows a b -> grows b c -> grows a c.
Proof.
  intros [He [[es Hes] [cs Hcs]]] [He' [[es' Hes'] [cs' Hcs']]].
  split; [congruence |]. split.
  - exists (es ++ es'). rewrite Hes', Hes, app_assoc. reflexivity.
  - exists (cs ++ cs'). rewrite Hcs', Hcs, app_assoc. reflexivity.
Qed.

Lemma fs_frame_refl t w : fs_frame t w w.
Proof. intros p _. reflexivity. Qed.

Lemma fs_frame_trans t a b c : fs_frame t a b -> fs_frame t b c -> fs_frame t a c.
Proof. intros H1 H2 p Hp. rewrite (H2 p Hp). apply (H1 p Hp). Qed.

(** The preorder that a whole method keeps: its statements are taken one
    after the other. *)
Ltac handlers :=
  let e := fresh "e" in let h := fresh "h" in let H := fresh "H" in
  intros e h H;
  repeat match type of H with
         | (if ?b then _ else _) = Some _ => destruct b
         end;
  try discriminate H; injection H as <-.

Create HintDb frame.

Ltac steps R T :=
  repeat first
    [ solve [auto 1 with frame nocore]
    | apply (keeps_ret _ R) | apply (keeps_raise _ R) | apply (keeps_lift _ R)
    | apply (keeps_gets _ R)
    | apply (keeps_bind _ T); [| intros ?]
    | apply (keeps_try _ T); [| handlers]
    | match goal with
      | |- keeps _ (match ?x with _ => _ end) => destruct x
      | |- keeps _ (if ?x then _ else _) => destruct x
      end ].

(** *** What the methods leave of the log, the calls and the environment *)

Lemma grows_log f :
  (forall l, exists es, events (f l) = events l ++ es) ->
  keeps grows (modify (set_log f)).
Proof.
  intros Hf w. unfold grows. simpl. split; [reflexivity |].
  split; [apply Hf | exists []; rewrite app_nil_r; reflexivity].
Qed.

Lemma grows_info a m : keeps grows (LogM.info a m).
Proof. apply grows_log. intros l. eexists. reflexivity. Qed.

Lemma grows_error a m : keeps grows (LogM.error a m).
Proof. apply grows_log. intros l. eexists. reflexivity. Qed.

Lemma grows_warning a m : keeps grows (LogM.warning a m).
Proof. apply grows_log. intros l. eexists. reflexivity. Qed.

Lemma grows_call c : keeps grows (modify (add_call c)).
Proof.
  intros w. unfold grows. simpl. split; [reflexivity |].
  split; [exists []; rewrite app_nil_r; reflexivity | eexists; reflexivity].
Qed.

Lemma grows_set_fs f : keeps grows (modify (set_fs f)).
Proof.
  intros w. unfold grows. simpl. split; [reflexivity |].
  split; exists []; rewrite app_nil_r; reflexivity.
Qed.

Lemma grows_set_remote f : keeps grows (modify (set_remote f)).
Proof.
  intros w. unfold grows. simpl. split; [reflexivity |].
  split; exists []; rewrite app_nil_r; reflexivity.
Qed.

#[local] Hint Resolve grows_info grows_error grows_warning grows_call
  grows_set_fs grows_set_remote : frame.

Ltac grow :=
  repeat (progress
    (steps grows_refl grows_trans;
     unfold connected, or_raise, getattrs, lib_connect, lib_close, report_blank,
       smb_field, load_config, isfile, isfile_attr, on_timeout, requests_get,
       extract, open_rb, tar_add_member, read_save_days, archive, rotate)).

Lemma grows_send_report : keeps grows LogM.send_notification_email.
Proof. apply grows_call. Qed.

Lemma grows_sweep a c m l : forall k, keeps grows (sweep a c m l k).
Proof. induction l as [| f r IH]; intros k; simpl; grow; try apply IH. Qed.

#[local] Hint Resolve grows_send_report grows_sweep : frame.

Lemma grows_check_server self : keeps grows (check_server self).
Proof. unfold check_server. grow. Qed.

Lemma grows_check_file self : keeps grows (check_file self).
Proof. unfold check_file. grow. Qed.

Lemma grows_connect self : keeps grows (connect self).
Proof. unfold connect. grow. Qed.

Lemma grows_disconnect self : keeps grows (disconnect self).
Proof. unfold disconnect. grow. Qed.

Lemma grows_send_file self : keeps grows (send_file self).
Proof. unfold send_file. grow. Qed.

Lemma grows_smb_init f : keeps grows (SMB.init f).
Proof. unfold SMB.init. grow. Qed.

Lemma grows_download_unzip self : keeps grows (download_unzip self).
Proof. unfold download_unzip. grow. Qed.

Lemma grows_check_file_version self : keeps grows (check_file_version self).
Proof. unfold check_file_version. grow. Qed.

Lemma grows_compress_targz self : keeps grows (compress_targz self).
Proof. unfold compress_targz. grow. Qed.

Lemma grows_clean_directory self : keeps grows (clean_directory self).
Proof. unfold clean_directory. grow. Qed.

#[local] Hint Resolve grows_check_server grows_check_file grows_connect
  grows_disconnect grows_send_file grows_smb_init grows_download_unzip
  grows_check_file_version grows_compress_targz grows_clean_directory : frame.

Lemma grows_transfer smb : keeps grows (transfer smb).
Proof. unfold transfer. grow. Qed.

Lemma grows_sweep_only smb : keeps grows (sweep_only smb).
Proof. unfold sweep_only. grow. Qed.

#[local] Hint Resolve grows_transfer grows_sweep_only : frame.

(** *** What the methods leave of the working directory *)

Lemma fsf_log T f : keeps (fs_frame T) (modify (set_log f)).
Proof. intros w p _. reflexivity. Qed.

Lemma fsf_info T a m : keeps (fs_frame T) (LogM.info a m).
Proof. apply fsf_log. Qed.

Lemma fsf_error T a m : keeps (fs_frame T) (LogM.error a m).
Proof. apply fsf_log. Qed.

Lemma fsf_warning T a m : keeps (fs_frame T) (LogM.warning a m).
Proof. apply fsf_log. Qed.

Lemma fsf_log_init T : keeps (fs_frame T) LogM.init.
Proof. apply fsf_log. Qed.

Lemma fsf_call T c : keeps (fs_frame T) (modify (add_call c)).
Proof. intros w p _. reflexivity. Qed.

Lemma fsf_remote T f : keeps (fs_frame T) (modify (set_remote f)).
Proof. intros w p _. reflexivity. Qed.

Lemma fsf_insert T n x : In n T -> keeps (fs_frame T) (modify (set_fs (insert n x))).
Proof.
  intros Hn w p Hp. simpl. apply lookup_insert_ne. intros ->. exact (Hp Hn).
Qed.

Lemma fsf_delete T n : In n T -> keeps (fs_frame T) (modify (set_fs (delete n))).
Proof.
  intros Hn w p Hp. simpl. apply lookup_delete_ne. intros ->. exact (Hp Hn).
Qed.

#[local] Hint Resolve fsf_info fsf_error fsf_warning fsf_log_init fsf_call fsf_remote : frame.

Ltac fsf T :=
  repeat (progress
    (steps (fs_frame_refl T) (fs_frame_trans T);
     unfold connected, or_raise, getattrs, lib_connect, lib_close, report_blank,
       smb_field, load_config, isfile, isfile_attr, on_timeout, requests_get,
       extract, open_rb, tar_add_member, read_save_days, with_extension, archive,
       rotate)).

Lemma fsf_send_report T : keeps (fs_frame T) LogM.send_notification_email.
Proof. apply fsf_call. Qed.

Lemma fsf_sweep T a c m l : forall k, keeps (fs_frame T) (sweep a c m l k).
Proof. induction l as [| f r IH]; intros k; simpl; fsf T; try apply IH. Qed.

#[local] Hint Resolve fsf_send_report fsf_sweep : frame.

Lemma fsf_check_server T self : keeps (fs_frame T) (check_server self).
Proof. unfold check_server. fsf T. Qed.

Lemma fsf_check_file T self : keeps (fs_frame T) (check_file self).
Proof. unfold check_file. fsf T. Qed.

Lemma fsf_connect T self : keeps (fs_frame T) (connect self).
Proof. unfold connect. fsf T. Qed.

Lemma fsf_disconnect T self : keeps (fs_frame T) (disconnect self).
Proof. unfold disconnect. fsf T. Qed.

Lemma fsf_send_file T self : keeps (fs_frame T) (send_file self).
Proof. unfold send_file. fsf T. Qed.

Lemma fsf_smb_init T f : keeps (fs_frame T) (SMB.init f).
Proof. unfold SMB.init. fsf T. Qed.

Lemma fsf_zip_init T : keeps (fs_frame T) ZipM.init.
Proof. unfold ZipM.init. fsf T. Qed.

Lemma fsf_get_config T self : keeps (fs_frame T) (get_config self).
Proof. unfold get_config. fsf T. Qed.

#[local] Hint Resolve fsf_check_server fsf_check_file fsf_connect fsf_disconnect
  fsf_send_file fsf_smb_init fsf_zip_init fsf_get_config : frame.

Lemma fsf_sweep_only T smb : keeps (fs_frame T) (sweep_only smb).
Proof. unfold sweep_only. fsf T. Qed.

Lemma fsf_transfer T smb : keeps (fs_frame T) (transfer smb).
Proof. unfold transfer. fsf T. Qed.

#[local] Hint Resolve fsf_sweep_only fsf_transfer : frame.

Lemma fsf_download_unzip self : keeps (fs_frame (names self)) (download_unzip self).
Proof.
  unfold download_unzip, names.
  destruct (name_sql_file self) as [n |].
  - fsf [n]. apply fsf_insert. left. reflexivity.
  - fsf (@nil string).
Qed.

Lemma fsf_check_file_version self :
  keeps (fs_frame (names self)) (check_file_version self).
Proof.
  unfold check_file_version, names.
  destruct (name_sql_file self) as [n |].
  - fsf [n]. apply fsf_delete. left. reflexivity.
  - fsf (@nil string).
Qed.

Lemma fsf_clean_directory self :
  keeps (fs_frame [name_tgz self]) (clean_directory self).
Proof. unfold clean_directory. apply fsf_delete. left. reflexivity. Qed.

(** *** What a method returns *)

Lemma ensures_ret {A} (Q : A -> Prop) a : Q a -> ensures Q (ret a).
Proof. intros H w x w' E. injection E as <- _. exact H. Qed.

Lemma ensures_raise {A} (Q : A -> Prop) e : ensures Q (raise e).
Proof. intros w x w' E. discriminate E. Qed.

Lemma ensures_bind {A B} (Q : B -> Prop) (c : M A) (k : A -> M B) :
  (forall a, ensures Q (k a)) -> ensures Q (bind c k).
Proof.
  intros Hk w b w' E. unfold bind in E.
  destruct (c w) as [[a | e] w1]; [| discriminate E].
  exact (Hk a w1 b w' E).
Qed.

Lemma bind_Ok_inv {A B} (c : M A) (k : A -> M B) w b w' :
  bind c k w = (Ok b, w') ->
  exists a w1, c w = (Ok a, w1) /\ k a w1 = (Ok b, w').
Proof.
  unfold bind. destruct (c w) as [[a | e] w1]; [| discriminate].
  intros E. exists a, w1. split; [reflexivity | exact E].
Qed.

Lemma dot_not_digit z : "."%char <> Str.digit_char z.
Proof.
  unfold Str.digit_char. intros E. apply (f_equal nat_of_ascii) in E.
  pose proof (Z.mod_pos_bound z 10 ltac:(lia)) as Hb.
  rewrite nat_ascii_embedding in E by lia.
  change (nat_of_ascii ".") with 46%nat in E. lia.
Qed.

Lemma lacks_cons c s :
  "."%char <> c -> Str.lacks ".sql" (String c s) = Str.lacks ".sql" s.
Proof.
  intros H. unfold Str.lacks. cbn [String.index String.prefix].
  destruct (ascii_dec "." c); [contradiction |].
  destruct (String.index 0 ".sql" s); reflexivity.
Qed.

Lemma lacks_sql_name_tgz d : Str.lacks ".sql" (Date.strftime_Ydm d +:+ ".tgz") = true.
Proof.
  unfold Date.strftime_Ydm, Str.dec4, Str.dec2.
  cbv [String.append].
  rewrite !lacks_cons by apply dot_not_digit. reflexivity.
Qed.

Lemma substring_append s t :
  substring (String.length s) (String.length t) (s +:+ t) = t.
Proof.
  induction s as [| c s IH]; simpl.
  - induction t as [| c t IHt]; simpl; [reflexivity | f_equal; exact IHt].
  - exact IH.
Qed.

Lemma with_ext_has ext s : ext <> EmptyString -> Str.lacks ext (Str.with_ext ext s) = false.
Proof.
  intros Hne. unfold Str.with_ext.
  destruct (Str.lacks ext s) eqn:E; [| exact E].
  unfold Str.lacks.
  destruct (String.index 0 ext (s +:+ ext)) eqn:Ei; [reflexivity |].
  exfalso.
  apply (index_correct3 0 (String.length s) ext (s +:+ ext) Ei Hne); [lia |].
  apply substring_append.
Qed.

Lemma with_ext_sql_not_tgz f d :
  Str.with_ext ".sql" f <> Date.strftime_Ydm d +:+ ".tgz".
Proof.
  intros E.
  pose proof (with_ext_has ".sql" f ltac:(discriminate)) as H.
  rewrite E, lacks_sql_name_tgz in H. discriminate H.
Qed.

Lemma ensures_bind_lift {A B} (Q : B -> Prop) (r : result A) (k : A -> M B) :
  (forall a, r = Ok a -> ensures Q (k a)) -> ensures Q (bind (lift r) k).
Proof.
  intros Hk w b w' E. unfold bind, lift in E.
  destruct r as [a | e]; [| discriminate E].
  exact (Hk a eq_refl w b w' E).
Qed.

(** The name that [get_config] gives to the dump holds [.sql]. *)
Lemma get_config_file_name self :
  ensures (fun s => forall n, name_sql_file s = Some n ->
                    name_sql_file self = Some n \/ Str.lacks ".sql" n = false)
          (get_config self).
Proof.
  unfold get_config.
  apply ensures_bind. intros _. apply ensures_bind. intros [[uz ud] |].
  - do 2 (apply ensures_bind; intros ?).
    apply ensures_bind. intros uz'.
    apply ensures_bind_lift. intros ud' Hud.
    destruct uz'; [| apply ensures_raise].
    apply ensures_ret. simpl. intros n ->. right.
    destruct ud as [| | | d | |]; try discriminate Hud.
    injection Hud as <-. apply with_ext_has. discriminate.
  - apply ensures_ret. intros n Hn. left. exact Hn.
Qed.

Lemma get_config_fields self :
  ensures (fun s => name_tgz s = name_tgz self /\ prev_sql_file s = prev_sql_file self)
          (get_config self).
Proof.
  unfold get_config.
  apply ensures_bind. intros _. apply ensures_bind. intros [[uz ud] |].
  - repeat (apply ensures_bind; intros ?).
    match goal with
    | |- ensures _ (match ?x with _ => _ end) => destruct x
    end; [apply ensures_ret; split; reflexivity | apply ensures_raise].
  - apply ensures_ret. split; reflexivity.
Qed.

Lemma zip_init_fields :
  ensures (fun s => prev_sql_file s = "./prev_dump.sql"
                    /\ exists d, name_tgz s = Date.strftime_Ydm d +:+ ".tgz")
          ZipM.init.
Proof.
  unfold ZipM.init. apply ensures_bind. intros d. apply ensures_ret.
  split; [reflexivity | exists d; reflexivity].
Qed.

Lemma name_tgz_not_prev d : Date.strftime_Ydm d +:+ ".tgz" <> "./prev_dump.sql".
Proof.
  intros E. apply (f_equal String.length) in E.
  unfold Date.strftime_Ydm, Str.dec4, Str.dec2 in E. simpl in E. discriminate E.
Qed.

(** The parts of [detect]. *)
Lemma detect_inv w script smb changed w1 :
  detect w = (Ok (script, smb, changed), w1) ->
  exists s0 wa wb wc wd,
    ZipM.init w = (Ok s0, wa)
    /\ get_config s0 wa = (Ok script, wb)
    /\ download_unzip script wb = (Ok tt, wc)
    /\ SMB.init (name_tgz script) wc = (Ok smb, wd)
    /\ check_file_version script wd = (Ok changed, w1).
Proof.
  unfold detect. intros E.
  apply bind_Ok_inv in E as (s0 & wa & E0 & E).
  apply bind_Ok_inv in E as (s1 & wb & E1 & E).
  apply bind_Ok_inv in E as ([] & wc & E2 & E).
  apply bind_Ok_inv in E as (smb' & wd & E3 & E).
  apply bind_Ok_inv in E as (ch & we & E4 & E).
  injection E as -> -> -> ->.
  exists s0, wa, wb, wc, wd. auto.
Qed.

Lemma detect_script w script smb changed w1 :
  detect w = (Ok (script, smb, changed), w1) ->
  prev_sql_file script = "./prev_dump.sql"
  /\ name_tgz script <> prev_sql_file script
  /\ (forall n, name_sql_file script = Some n -> n <> name_tgz script).
Proof.
  intros E. apply detect_inv in E as (s0 & wa & wb & wc & wd & E0 & E1 & _).
  pose proof (zip_init_fields _ _ _ E0) as [Hp [d Hd]].
  pose proof (get_config_fields s0 _ _ _ E1) as [Ht Hp'].
  pose proof (get_config_file_name s0 _ _ _ E1) as Hn.
  split; [congruence |]. split.
  - rewrite Ht, Hp', Hd, Hp. apply name_tgz_not_prev.
  - intros n En E. destruct (Hn n En) as [H0 | Hl].
    + unfold ZipM.init, bind, gets, ret in E0. injection E0 as <- _.
      discriminate H0.
    + rewrite E, Ht, Hd, lacks_sql_name_tgz in Hl. discriminate Hl.
Qed.

(** ** The archive step *)

(** The [try] statement always ends normally: the archive file exists
    afterwards, with or without its member, and nothing else changed in
    the working directory. *)
Lemma archive_total self w :
  exists w1 x,
    archive self w = (Ok tt, w1)
    /\ env w1 = env w
    /\ remote w1 = remote w
    /\ fs w1 = <[name_tgz self := x]> (fs w)
    /\ (exists es, events (log w1) = events (log w) ++ es)
    /\ (exists cs, calls w1 = calls w ++ TarOpen (name_tgz self) :: cs).
Proof.
  unfold archive, tar_add_member.
  destruct (name_sql_file self) as [n |]; run.
  - destruct (<[name_tgz self:=targz_empty (env w)]> (fs w) !! n) as [c |] eqn:En; run.
    + destruct (tar_add (env w)) as [err |]; run.
      * destruct (isinstance err CompressionError); [|
        destruct (isinstance err FileNotFoundError); [|
        destruct (isinstance err ReadError); [|
        destruct (isinstance err TarError); [|
        rewrite isinstance_Exception]]]];
        run; eexists; eexists; (split; [reflexivity |]); simpl; eauto 10.
      * eexists; eexists; (split; [reflexivity |]); simpl.
        rewrite insert_insert_eq. eauto 10.
    + eexists; eexists; (split; [reflexivity |]); simpl; eauto 10.
  - eexists; eexists; (split; [reflexivity |]); simpl; eauto 10.
Qed.

Lemma rotate_spec self w n :
  name_sql_file self = Some n ->
  rotate self w
  = (Ok tt,
     set_fs (fun f =>
               let f1 := match f !! prev_sql_file self with
                         | Some _ => delete (prev_sql_file self) f
                         | None => f
                         end in
               match f1 !! n with
               | Some _ => rename n (prev_sql_file self) f1
               | None => f1
               end) w).
Proof.
  intros Hn. unfold rotate, isfile_attr, isfile. rewrite Hn. run.
  destruct w as [e f r l c]. unfold set_fs. simpl.
  destruct (f !! prev_sql_file self); simpl.
  - destruct (delete (prev_sql_file self) f !! n); reflexivity.
  - destruct (f !! n); reflexivity.
Qed.

Lemma compress_targz_rotates self w n :
  name_sql_file self = Some n ->
  n <> prev_sql_file self ->
  n <> name_tgz self ->
  prev_sql_file self <> name_tgz self ->
  exists w',
    compress_targz self w = (Ok tt, w')
    /\ fs w' !! prev_sql_file self = fs w !! n
    /\ fs w' !! n = None.
Proof.
  intros Hn Hnp Hnt Hpt.
  destruct (archive_total self w) as (w1 & x & Ea & _ & _ & Hfs & _).
  unfold compress_targz, bind. rewrite Ea, (rotate_spec self w1 n Hn).
  eexists. split; [reflexivity |]. simpl. rewrite Hfs.
  assert (H1 : forall f : gmap string Sha1.bytes,
             <[name_tgz self := x]> f !! prev_sql_file self = f !! prev_sql_file self).
  { intros f. apply lookup_insert_ne. congruence. }
  assert (H2 : forall f : gmap string Sha1.bytes,
             <[name_tgz self := x]> f !! n = f !! n).
  { intros f. apply lookup_insert_ne. congruence. }
  rewrite H1.
  destruct (fs w !! prev_sql_file self) as [p |] eqn:Ep.
  - rewrite lookup_delete_ne by congruence. rewrite H2. unfold rename.
    rewrite lookup_delete_ne by congruence. rewrite H2.
    destruct (fs w !! n) as [c |] eqn:En.
    + rewrite lookup_insert_eq. split; [reflexivity |].
      rewrite lookup_insert_ne by congruence. apply lookup_delete_eq.
    + rewrite lookup_delete_eq, lookup_delete_ne, H2 by congruence. auto.
  - rewrite H2. unfold rename. rewrite H2.
    destruct (fs w !! n) as [c |] eqn:En.
    + rewrite lookup_insert_eq. split; [reflexivity |].
      rewrite lookup_insert_ne by congruence. apply lookup_delete_eq.
    + rewrite H1, H2. auto.
Qed.

Lemma no_slash_retained : no_slash "./prev_dump.sql" = false.
Proof. reflexivity. Qed.

Lemma apart_no_slash n : apart n = true -> no_slash n = true.
Proof. unfold apart. intros H. apply andb_true_iff in H as [H _]. exact H. Qed.

Lemma apart_not_retained n : apart n = true -> n <> "./prev_dump.sql".
Proof.
  intros H E. apply apart_no_slash in H. rewrite E, no_slash_retained in H.
  discriminate H.
Qed.

Lemma unchanged_run_keeps_retained w script smb w1 r w' :
  detect w = (Ok (script, smb, false), w1) ->
  name_sql_file script <> Some (prev_sql_file script) ->
  main w = (r, w') ->
  fs w' !! prev_sql_file script = fs w !! prev_sql_file script.
Proof.
  intros Ed Hne Em.
  destruct (detect_script _ _ _ _ _ Ed) as (_ & Htp & _).
  unfold main, bind in Em. rewrite Ed in Em.
  assert (Hafter : fs w' !! prev_sql_file script = fs w1 !! prev_sql_file script).
  { replace w' with (snd (after_detection script smb false w1)) by (rewrite Em; reflexivity).
    assert (K : keeps (fs_frame [name_tgz script]) (after_detection script smb false)).
    { unfold after_detection. fsf [name_tgz script]. apply fsf_clean_directory. }
    apply K. simpl. intros [H | []]. exact (Htp H). }
  rewrite Hafter.
  apply detect_inv in Ed as (s0 & wa & wb & wc & wd & E0 & E1 & E2 & E3 & E4).
  assert (Hin : ~ In (prev_sql_file script) (names script)).
  { unfold names. destruct (name_sql_file script) as [n |]; simpl; [| tauto].
    intros [H | []]. apply Hne. congruence. }
  replace w1 with (snd (check_file_version script wd)) by (rewrite E4; reflexivity).
  rewrite (fsf_check_file_version script wd _ Hin).
  replace wd with (snd (SMB.init (name_tgz script) wc)) by (rewrite E3; reflexivity).
  rewrite (fsf_smb_init [] _ wc) by (simpl; tauto).
  replace wc with (snd (download_unzip script wb)) by (rewrite E2; reflexivity).
  rewrite (fsf_download_unzip script wb _ Hin).
  replace wb with (snd (get_config s0 wa)) by (rewrite E1; reflexivity).
  rewrite (fsf_get_config [] s0 wa) by (simpl; tauto).
  replace wa with (snd (ZipM.init w)) by (rewrite E0; reflexivity).
  rewrite (fsf_zip_init [] w) by (simpl; tauto).
  reflexivity.
Qed.

Lemma changed_run_rotates w script smb w1 n :
  detect w = (Ok (script, smb, true), w1) ->
  name_sql_file script = Some n ->
  n <> prev_sql_file script ->
  exists w2,
    compress_targz script w1 = (Ok tt, w2)
    /\ fs w2 !! prev_sql_file script = fs w1 !! n
    /\ fs w2 !! n = None.
Proof.
  intros Ed Hn Hne.
  destruct (detect_script _ _ _ _ _ Ed) as (_ & Htp & Hnt).
  apply compress_targz_rotates; auto.
Qed.


(** ** A run whose fetch fails *)

Lemma is_str_inv r : is_str r = true -> exists s, r = Ok (JStr s).
Proof. destruct r as [[] |]; try discriminate. intros _. eexists. reflexivity. Qed.

Lemma is_ok_inv {A} (r : result A) : is_ok r = true -> exists a, r = Ok a.
Proof. destruct r; [intros _; eexists; reflexivity | discriminate]. Qed.

Lemma get_config_well_formed self w data :
  config_file (env w) = Ok data ->
  well_formed data = true ->
  exists u f w',
    getitem data "file" = Ok (JStr f)
    /\ get_config self w
       = (Ok (MkZip (name_tgz self) (prev_sql_file self)
                    (Some (Str.with_ext ".zip" u))
                    (Some (Str.last_segment (Str.with_ext ".zip" u)))
                    (Some (Str.with_ext ".sql" f))), w')
    /\ env w' = env w /\ fs w' = fs w /\ calls w' = calls w.
Proof.
  intros Hc Hwf. unfold well_formed in Hwf.
  repeat (apply andb_true_iff in Hwf as [Hwf ?]).
  apply is_str_inv in Hwf as [u Hu].
  match goal with H : is_str (getitem data "file") = true |- _ =>
    apply is_str_inv in H as [f Hf] end.
  repeat match goal with H : is_ok _ = true |- _ => apply is_ok_inv in H as [? ?] end.
  exists u, f. unfold get_config, load_config. run. rewrite Hc. run.
  rewrite Hu, Hf. run.
  repeat match goal with H : getitem data _ = Ok _ |- _ => rewrite H end. run.
  destruct u as [| c u]; destruct f as [| c' f]; run;
    eexists; (split; [reflexivity |]); (split; [reflexivity |]); auto.
Qed.

Lemma smb_init_well_formed file_ w data :
  config_file (env w) = Ok data ->
  well_formed data = true ->
  exists a w',
    SMB.init file_ w = (Ok (MkServer file_ (Some a)), w')
    /\ samba a = None
    /\ env w' = env w /\ fs w' = fs w /\ calls w' = calls w.
Proof.
  intros Hc Hwf. unfold well_formed in Hwf.
  repeat (apply andb_true_iff in Hwf as [Hwf ?]).
  destruct (getitem data "smb") as [s |] eqn:Hs; [| discriminate].
  destruct (getitem data "save_days") as [v |] eqn:Hv; [| discriminate].
  repeat match goal with H : _ && _ = true |- _ => apply andb_true_iff in H as [H ?] end.
  match goal with H : is_str (getitem s "path") = true |- _ =>
    apply is_str_inv in H as [p Hp] end.
  repeat match goal with H : is_ok (getitem s _) = true |- _ =>
    apply is_ok_inv in H as [? ?] end.
  unfold SMB.init, smb_field, read_save_days, load_config. run. rewrite Hc. run.
  rewrite Hs. run.
  repeat match goal with H : getitem s _ = Ok _ |- _ => rewrite H end.
  rewrite Hv. run.
  destruct (int v) as [k | e]; run.
  - rewrite !report_blank_run. run. eexists. eexists.
    split; [reflexivity |]. simpl. auto.
  - match goal with H : isinstance e ValueError = true |- _ => rewrite H end.
    rewrite !report_blank_run. run. eexists. eexists.
    split; [reflexivity |]. simpl. auto.
Qed.

Lemma fs_frame_nil w w' : fs_frame [] w w' -> fs w' = fs w.
Proof. intros H. apply map_eq. intros p. apply H. simpl. tauto. Qed.

Lemma grows_event w w' e :
  grows w w' -> In e (events (log w)) -> In e (events (log w')).
Proof. intros (_ & [es ->] & _) H. apply in_or_app. left. exact H. Qed.

Lemma grows_called w w' c : grows w w' -> In c (calls w) -> In c (calls w').
Proof. intros (_ & _ & [cs ->]) H. apply in_or_app. left. exact H. Qed.

Lemma download_http_error self w u resp :
  url_zip self = Some u ->
  http_get (env w) = Ok resp ->
  (400 <=? status_code resp) && (status_code resp <? 600) = true ->
  exists m w',
    download_unzip self w = (Ok tt, w')
    /\ logged w w' [Event ERROR "Request ZIP" (Some m)]
    /\ fs w' = fs w
    /\ env w' = env w
    /\ calls w' = calls w ++ [HttpGet].
Proof.
  intros Hu Hg Hs. unfold download_unzip, requests_get, ZipFile, raise_for_status, logged.
  rewrite Hu. run. rewrite Hg. run.
  destruct (zip_body resp) as [z |]; run.
  - rewrite Hs. run. eexists. eexists. split; [reflexivity |]. simpl. auto.
  - eexists. eexists. split; [reflexivity |]. simpl. auto.
Qed.

Lemma check_file_version_first self w :
  fs w !! prev_sql_file self = None ->
  exists w',
    check_file_version self w = (Ok true, w')
    /\ fs w' = fs w
    /\ logged w w' [Event INFO "SQL File Comparison"
                      (Some "There is no previous file to compare.")].
Proof.
  intros Hp. unfold check_file_version, logged. run. rewrite Hp. run.
  eexists. split; [reflexivity |]. auto.
Qed.

Lemma compress_targz_total self w n :
  name_sql_file self = Some n ->
  n <> name_tgz self ->
  prev_sql_file self <> name_tgz self ->
  exists w',
    compress_targz self w = (Ok tt, w')
    /\ grows w w'
    /\ In (TarOpen (name_tgz self)) (calls w')
    /\ is_Some (fs w' !! name_tgz self).
Proof.
  intros Hn Hnt Hpt.
  destruct (archive_total self w) as (w1 & x & Ea & He & _ & Hfs & Hev & [cs Hcs]).
  unfold compress_targz, bind. rewrite Ea, (rotate_spec self w1 n Hn).
  eexists. split; [reflexivity |]. split; [| split].
  - split; [exact He |]. simpl. split; [exact Hev | eexists; exact Hcs].
  - simpl. rewrite Hcs. apply in_or_app. right. left. reflexivity.
  - simpl. rewrite Hfs.
    assert (H0 : is_Some (<[name_tgz self := x]> (fs w) !! name_tgz self)).
    { rewrite lookup_insert_eq. eexists. reflexivity. }
    assert (H1 : is_Some
                   (match <[name_tgz self := x]> (fs w) !! prev_sql_file self with
                    | Some _ => delete (prev_sql_file self) (<[name_tgz self := x]> (fs w))
                    | None => <[name_tgz self := x]> (fs w)
                    end !! name_tgz self)).
    { destruct (<[name_tgz self := x]> (fs w) !! prev_sql_file self); [| exact H0].
      rewrite lookup_delete_ne by congruence. exact H0. }
    destruct (_ !! n) eqn:E; [| exact H1].
    unfold rename. rewrite E.
    rewrite lookup_insert_ne, lookup_delete_ne by congruence. exact H1.
Qed.

Lemma check_file_total self w : exists r w', check_file self w = (Ok r, w').
Proof.
  unfold check_file, try_except.
  match goal with |- context [match ?b w with _ => _ end] =>
    destruct (b w) as [[r | e] w1] end.
  - eexists. eexists. reflexivity.
  - rewrite isinstance_Exception. run. eexists. eexists. reflexivity.
Qed.

Lemma log_info_swept m w : swept (snd (LogM.info "Server File Check" m w)).
Proof.
  exists (Event INFO "Server File Check" m). split; [| reflexivity]. simpl. apply in_or_app. right. left. reflexivity.
Qed.

Lemma log_error_swept m w : swept (snd (LogM.error "Server File Check" m w)).
Proof.
  exists (Event ERROR "Server File Check" m). split; [| reflexivity]. simpl. apply in_or_app. right. left. reflexivity.
Qed.

Lemma check_server_total self w :
  exists w', check_server self w = (Ok tt, w') /\ swept w'.
Proof.
  unfold check_server, try_except.
  match goal with |- context [match ?b w with _ => _ end] =>
    destruct (b w) as [[[] | e] w1] eqn:E end.
  - eexists. split; [reflexivity |].
    apply bind_Ok_inv in E as (a & wa & _ & E).
    destruct (samba a) as [c |].
    + apply bind_Ok_inv in E as (l & w2 & _ & E).
      apply bind_Ok_inv in E as (now & w3 & _ & E).
      apply bind_Ok_inv in E as (md & w4 & _ & E).
      apply bind_Ok_inv in E as (nb & w5 & _ & E).
      replace w1 with (snd (LogM.info "Server File Check"
        (Some (pretty nb +:+ " file(s) removed from remote server.")) w5))
        by (rewrite E; reflexivity).
      apply log_info_swept.
    + replace w1 with (snd (LogM.error "Server File Check"
        (Some "Unable to connect to the server, file check not done.") wa))
        by (rewrite E; reflexivity).
      apply log_error_swept.
  - rewrite isinstance_Exception. eexists. split; [reflexivity |].
    apply log_error_swept.
Qed.

Lemma bind_ok {A B} (c : M A) (k : A -> M B) w a w1 :
  c w = (Ok a, w1) -> bind c k w = k a w1.
Proof. intros E. unfold bind. rewrite E. reflexivity. Qed.

Lemma bind_raise {A B} (c : M A) (k : A -> M B) w e w1 :
  c w = (Raise e, w1) -> bind c k w = (Raise e, w1).
Proof. intros E. unfold bind. rewrite E. reflexivity. Qed.

Lemma transfer_ok file_ a w auth :
  smb_connect (env w) = Ok auth ->
  smb_store (env w) = None ->
  is_Some (fs w !! file_) ->
  exists w', transfer (MkServer file_ (Some a)) w = (Ok tt, w') /\ swept w'.
Proof.
  intros Hc Hs [content Hf].
  set (smb := MkServer file_ (Some a)).
  set (smb1 := set_samba (Some (MkConn true)) smb a).
  assert (E1 : connect smb w = (Ok smb1, add_call SmbConnect w)).
  { unfold connect, getattrs, lib_connect. run. rewrite Hc. reflexivity. }
  assert (E2 : exists w2, send_file smb1 (add_call SmbConnect w) = (Ok tt, w2)).
  { unfold send_file, getattrs, open_rb, storeFile, connected, or_raise. run.
    rewrite Hf. run. rewrite Hs. run. eexists. reflexivity. }
  destruct E2 as [w2 E2].
  destruct (check_file_total smb1 w2) as (r & w3 & E3).
  destruct (check_server_total smb1 w3) as (w4 & E4 & Hsw).
  assert (E5 : exists smb2, disconnect smb1 w4 = (Ok smb2, add_call SmbClose w4)).
  { unfold disconnect, getattrs, lib_close. run. eexists. reflexivity. }
  destruct E5 as [smb2 E5].
  exists (add_call SmbClose w4). split.
  - unfold transfer, try_except.
    rewrite (bind_ok _ _ _ _ _ E1), (bind_ok _ _ _ _ _ E2), (bind_ok _ _ _ _ _ E3),
      (bind_ok _ _ _ _ _ E4), (bind_ok _ _ _ _ _ E5).
    reflexivity.
  - destruct Hsw as (e & He & Ha). exists e. split; [exact He | exact Ha].
Qed.


Lemma check_file_version_missing self w retained n :
  fs w !! prev_sql_file self = Some retained ->
  name_sql_file self = Some n ->
  fs w !! n = None ->
  check_file_version self w = (Raise (Exn FileNotFoundError n), w).
Proof.
  intros Hp Hn He. unfold check_file_version, open_rb. run.
  rewrite Hp. run. rewrite Hn. run. rewrite He. reflexivity.
Qed.

(** C5.  With a well-formed configuration, a 4xx or 5xx answer to the
    fetch and a retained copy in the working directory, no file is
    extracted and [FileNotFoundError] leaves [main]: [check_file_version]
    opens the file that is not there, outside every [try].  The only call
    made is the fetch: the report is never sent.  And [disconnect] on an
    object that never connected raises [AttributeError]. *)
Theorem main_exception_escapes :
  (forall w data resp f retained,
     config_file (env w) = Ok data ->
     well_formed data = true ->
     getitem data "file" = Ok (JStr f) ->
     http_get (env w) = Ok resp ->
     (400 <=? status_code resp) && (status_code resp <? 600) = true ->
     fs w !! "./prev_dump.sql" = Some retained ->
     fs w !! Str.with_ext ".sql" f = None ->
     exists w',
       main w = (Raise (Exn FileNotFoundError (Str.with_ext ".sql" f)), w')
       /\ calls w' = calls w ++ [HttpGet]
       /\ fs w' = fs w)
  /\ (forall file_ ip_ hostname_ user_ pswd_ days sharename_ path_ w,
        disconnect (MkServer file_
                      (Some (MkAttrs ip_ hostname_ user_ pswd_ days sharename_ path_ None))) w
        = (Raise (Exn AttributeError "'NoneType' object has no attribute 'close'"), w)).
Proof.
  split; [| intros; reflexivity].
  intros w data resp f retained Hc Hwf Hfile Hg Hst Hprev Hmiss.
  set (tgz := Date.strftime_Ydm (today (env w)) +:+ ".tgz").
  set (s0 := MkZip tgz "./prev_dump.sql" None None None).
  assert (E0 : ZipM.init w = (Ok s0, w)) by reflexivity.
  destruct (get_config_well_formed s0 w data Hc Hwf)
    as (u & f' & wb & Hf & E1 & Hbe & Hbf & Hbc).
  assert (f' = f) by congruence. subst f'.
  set (script := MkZip (name_tgz s0) (prev_sql_file s0) (Some (Str.with_ext ".zip" u))
                       (Some (Str.last_segment (Str.with_ext ".zip" u)))
                       (Some (Str.with_ext ".sql" f))) in *.
  assert (Hg' : http_get (env wb) = Ok resp) by (rewrite Hbe; exact Hg).
  destruct (download_http_error script wb (Str.with_ext ".zip" u) resp eq_refl Hg' Hst)
    as (m & wc & E2 & _ & Hcf & Hce & Hcc).
  assert (Hc' : config_file (env wc) = Ok data) by (rewrite Hce, Hbe; exact Hc).
  destruct (smb_init_well_formed tgz wc data Hc' Hwf)
    as (a & wd & E3 & _ & Hde & Hdf & Hdc).
  assert (E4 : check_file_version script wd
               = (Raise (Exn FileNotFoundError (Str.with_ext ".sql" f)), wd)).
  { apply (check_file_version_missing script wd retained).
    - simpl. rewrite Hdf, Hcf, Hbf. exact Hprev.
    - reflexivity.
    - rewrite Hdf, Hcf, Hbf. exact Hmiss. }
  assert (Ed : detect w = (Raise (Exn FileNotFoundError (Str.with_ext ".sql" f)), wd)).
  { unfold detect.
    rewrite (bind_ok _ _ _ _ _ E0), (bind_ok _ _ _ _ _ E1), (bind_ok _ _ _ _ _ E2).
    change (name_tgz script) with tgz.
    rewrite (bind_ok _ _ _ _ _ E3). apply bind_raise. exact E4. }
  exists wd. split; [| split].
  - unfold main. apply bind_raise. exact Ed.
  - rewrite Hdc, Hcc, Hbc. reflexivity.
  - rewrite Hdf, Hcf, Hbf. reflexivity.
Qed.

(** ** The fetch *)

Lemma find_rev_existsb {A} (p : A -> bool) (z : list A) m :
  List.find p (rev z) = Some m -> existsb p z = true.
Proof.
  intros H. apply find_some in H as [Hin Hp].
  apply existsb_exists. exists m. split; [apply in_rev; exact Hin | exact Hp].
Qed.

Lemma download_unzip_ok self w u resp z n m :
  url_zip self = Some u ->
  http_get (env w) = Ok resp ->
  zip_body resp = Some z ->
  (400 <=? status_code resp) && (status_code resp <? 600) = false ->
  name_sql_file self = Some n ->
  List.find (fun x => String.eqb n (member_name x)) (rev z) = Some m ->
  exists w',
    download_unzip self w = (Ok tt, w')
    /\ fs w' = <[n := member_data m]> (fs w)
    /\ calls w' = calls w ++ [HttpGet]
    /\ remote w' = remote w
    /\ env w' = env w
    /\ logged w w'
         [Event INFO "SQL File in Zip" (Some "Zip file contains dump file.");
          if member_ok m
          then Event INFO "SQL File Downloaded" (Some "Zip file extraction successful")
          else Event ERROR "SQL File Downloaded"
                 (Some "Bad zip file: extraction interrupted.")].
Proof.
  intros Hu Hg Hz Hs Hn Hf.
  pose proof (find_rev_existsb _ _ _ Hf) as Hin.
  unfold download_unzip, requests_get, ZipFile, raise_for_status, in_namelist,
    extract, logged.
  rewrite Hu, Hn. run. rewrite Hg. run. rewrite Hz. run. rewrite Hs. run.
  rewrite Hin. run. rewrite Hf. run.
  destruct (member_ok m); run;
    eexists; (split; [reflexivity |]); simpl; rewrite <- ?app_assoc; auto 10.
Qed.

(** X1.  When the server answers outside 4xx and 5xx with a zip container
    that holds the configured member, [download_unzip] writes the bytes of
    that member (the last entry of the name) under the configured name,
    makes the one call of the fetch and leaves the share alone; it logs
    two INFO events, or, when the extraction ends with [BadZipFile], one
    INFO and one ERROR event, the file staying in the working
    directory. *)
Theorem download_unzip_extracts self w u resp z n m :
  url_zip self = Some u ->
  http_get (env w) = Ok resp ->
  zip_body resp = Some z ->
  (400 <=? status_code resp) && (status_code resp <? 600) = false ->
  name_sql_file self = Some n ->
  List.find (fun x => String.eqb n (member_name x)) (rev z) = Some m ->
  exists w',
    download_unzip self w = (Ok tt, w')
    /\ fs w' = <[n := member_data m]> (fs w)
    /\ calls w' = calls w ++ [HttpGet]
    /\ remote w' = remote w
    /\ logged w w'
         [Event INFO "SQL File in Zip" (Some "Zip file contains dump file.");
          if member_ok m
          then Event INFO "SQL File Downloaded" (Some "Zip file extraction successful")
          else Event ERROR "SQL File Downloaded"
                 (Some "Bad zip file: extraction interrupted.")].
Proof.
  intros Hu Hg Hz Hs Hn Hf.
  destruct (download_unzip_ok self w u resp z n m Hu Hg Hz Hs Hn Hf)
    as (w' & E & H1 & H2 & H3 & _ & H4).
  exists w'. auto.
Qed.

(** X2.  [download_unzip] never raises, logs at most one ERROR event,
    writes no file but the configured one and leaves the share alone; when
    it logs no ERROR event, the configured file is in the working
    directory and the two INFO events of the extraction are what it
    logged. *)
Theorem download_unzip_never_raises self w :
  exists w' es,
    download_unzip self w = (Ok tt, w')
    /\ logged w w' es
    /\ (length (List.filter is_error es) <= 1)%nat
    /\ (List.filter is_error es = [] ->
        exists n, name_sql_file self = Some n
                  /\ is_Some (fs w' !! n)
                  /\ es = [Event INFO "SQL File in Zip" (Some "Zip file contains dump file.");
                           Event INFO "SQL File Downloaded"
                             (Some "Zip file extraction successful")])
    /\ fs_frame (names self) w w'
    /\ remote w' = remote w.
Proof.
  pose proof (fsf_download_unzip self w) as Hframe.
  revert Hframe.
  unfold download_unzip, requests_get, ZipFile, raise_for_status, in_namelist,
    extract, logged.
  assert (Hfail : forall (r : result unit * World) w' es,
            r = (Ok tt, w') ->
            events (log w') = events (log w) ++ es ->
            (exists e, List.filter is_error es = [e]) ->
            remote w' = remote w ->
            fs_frame (names self) w w' ->
            exists w'' es',
              r = (Ok tt, w'')
              /\ events (log w'') = events (log w) ++ es'
              /\ (length (List.filter is_error es') <= 1)%nat
              /\ (List.filter is_error es' = [] ->
                  exists n, name_sql_file self = Some n
                            /\ is_Some (fs w'' !! n)
                            /\ es' = [Event INFO "SQL File in Zip"
                                        (Some "Zip file contains dump file.");
                                      Event INFO "SQL File Downloaded"
                                        (Some "Zip file extraction successful")])
              /\ fs_frame (names self) w w''
              /\ remote w'' = remote w).
  { intros r w' es -> Hev [e He] Hr Hf. exists w', es. rewrite He. simpl.
    split; [reflexivity |]. split; [exact Hev |]. split; [lia |].
    split; [discriminate | auto]. }
  destruct (url_zip self) as [u |]; run.
  2: { intros Hframe. eapply Hfail;
         [reflexivity | simpl; reflexivity | eexists; reflexivity | reflexivity | exact Hframe]. }
  destruct (http_get (env w)) as [resp | e]; run.
  2: { destruct (isinstance e HTTPError); [| rewrite isinstance_Exception]; run;
       intros Hframe;
       (eapply Hfail;
         [reflexivity | simpl; reflexivity | eexists; reflexivity | reflexivity | exact Hframe]). }
  destruct (zip_body resp) as [z |]; run.
  2: { intros Hframe; eapply Hfail;
         [reflexivity | simpl; reflexivity | eexists; reflexivity | reflexivity | exact Hframe]. }
  destruct ((400 <=? status_code resp) && (status_code resp <? 600)); run.
  { intros Hframe; eapply Hfail;
      [reflexivity | simpl; reflexivity | eexists; reflexivity | reflexivity | exact Hframe]. }
  destruct (name_sql_file self) as [n |]; run.
  2: { intros Hframe; eapply Hfail;
         [reflexivity | simpl; reflexivity | eexists; reflexivity | reflexivity | exact Hframe]. }
  destruct (existsb (fun m => String.eqb n (member_name m)) z); run.
  2: { intros Hframe; eapply Hfail;
         [reflexivity | simpl; reflexivity | eexists; reflexivity | reflexivity | exact Hframe]. }
  destruct (List.find (fun m => String.eqb n (member_name m)) (rev z)) as [m |]; run.
  2: { intros Hframe; eapply Hfail;
         [reflexivity | simpl; rewrite <- app_assoc; reflexivity | eexists; reflexivity
         | reflexivity | exact Hframe]. }
  destruct (member_ok m); run; intros Hframe.
  - eexists. eexists. split; [reflexivity |]. simpl. rewrite <- app_assoc. simpl.
    split; [reflexivity |]. split; [simpl; lia |]. split; [| auto].
    intros _. exists n. split; [reflexivity |].
    split; [| reflexivity]. rewrite lookup_insert_eq. eexists. reflexivity.
  - eapply Hfail;
      [reflexivity | simpl; rewrite <- app_assoc; reflexivity | eexists; reflexivity
      | reflexivity | exact Hframe].
Qed.

(** X3.  The body of the answer is opened as a zip container before its
    status is looked at: an answer whose body is no zip container is
    reported with the message of [BadZipFile] whatever its status, and a
    4xx or 5xx status is reported as an HTTP error only when the body is a
    zip container.  Nothing is written in either case. *)
Theorem download_unzip_error_page self w u resp :
  url_zip self = Some u ->
  http_get (env w) = Ok resp ->
  (zip_body resp = None ->
   exists w',
     download_unzip self w = (Ok tt, w')
     /\ logged w w' [Event ERROR "Request ZIP"
                       (Some "Error encountered: File is not a zip file")]
     /\ fs w' = fs w)
  /\ (forall z, zip_body resp = Some z ->
      (400 <=? status_code resp) && (status_code resp <? 600) = true ->
      exists m w',
        download_unzip self w = (Ok tt, w')
        /\ logged w w' [Event ERROR "Request ZIP"
                          (Some ("HTTP error encountered: " +:+ m))]
        /\ fs w' = fs w).
Proof.
  intros Hu Hg.
  unfold download_unzip, requests_get, ZipFile, raise_for_status, logged.
  rewrite Hu. run. rewrite Hg. run. split.
  - intros Hz. rewrite Hz. run. eexists. split; [reflexivity |]. simpl. auto.
  - intros z Hz Hs. rewrite Hz. run. rewrite Hs. run.
    eexists. eexists. split; [reflexivity |]. simpl. auto.
Qed.

(** ** The configuration of the fetch *)

(** X4.  What [get_config] does with a configuration it cannot use.  A
    file that is no JSON: one ERROR event without message, and the object
    is left as [__init__] made it.  An object that lacks one of the five
    keys: one ERROR event whose message is the first key that is missing,
    and the object is left as it was.  A file that cannot be opened: the
    handler does not return; three ERROR events are logged and
    [AttributeError] leaves the method.  The log is in each case the new
    [Log] object: it holds these events only. *)
Theorem get_config_failures self w :
  (forall e, config_file (env w) = Raise e -> isinstance e JSONDecodeError = true ->
     exists w',
       get_config self w = (Ok self, w')
       /\ events (log w') = [Event ERROR "JSON file read" None]
       /\ nb_error (log w') = 1%nat)
  /\ (forall fields k,
        config_file (env w) = Ok (JObj fields) ->
        first_missing zip_keys fields = Some k ->
        exists w',
          get_config self w = (Ok self, w')
          /\ events (log w') = [Event ERROR "JSON file read" (Some k)]
          /\ nb_error (log w') = 1%nat)
  /\ (forall e, config_file (env w) = Raise e ->
        isinstance e JSONDecodeError = false -> isinstance e KeyError = false ->
        isinstance e OSError = true ->
        exists x w',
          get_config self w = (Raise x, w')
          /\ cls x = AttributeError
          /\ events (log w') = [Event ERROR "JSON file read" None;
                                Event ERROR "JSON file read" None;
                                Event ERROR "JSON file read" None]
          /\ nb_error (log w') = 3%nat).
Proof.
  unfold get_config, load_config. split; [| split].
  - intros e Hc He. run. rewrite Hc. run. rewrite He. run.
    eexists. split; [reflexivity |]. auto.
  - intros fields k Hc Hk. run. rewrite Hc. run.
    unfold first_missing, zip_keys in Hk. simpl in Hk.
    destruct (assoc "url-zip" fields); [| injection Hk as <-; run; eexists; auto].
    destruct (assoc "file" fields); [| injection Hk as <-; run; eexists; auto].
    destruct (assoc "notification" fields); [| injection Hk as <-; run; eexists; auto].
    destruct (assoc "email" fields); [| injection Hk as <-; run; eexists; auto].
    destruct (assoc "mattermost_webhook" fields); [discriminate Hk |].
    injection Hk as <-. run. eexists. auto.
  - intros e Hc H1 H2 H3. run. rewrite Hc. run. rewrite H1, H2, H3. run.
    eexists. eexists. split; [reflexivity |]. auto.
Qed.

Lemma str_app_cons a s t : String a s +:+ t = String a (s +:+ t).
Proof. reflexivity. Qed.

Lemma str_app_nil_r s : s +:+ EmptyString = s.
Proof.
  induction s as [| a s IH]; [reflexivity |]. rewrite str_app_cons, IH. reflexivity.
Qed.

Lemma str_app_assoc s t u : (s +:+ t) +:+ u = s +:+ (t +:+ u).
Proof.
  induction s as [| a s IH]; [reflexivity |]. rewrite !str_app_cons, IH. reflexivity.
Qed.

Lemma endswith_slash_app s : Str.endswith_slash (s +:+ "/") = true.
Proof.
  induction s as [| a s IH]; [reflexivity |].
  rewrite str_app_cons. cbn [Str.endswith_slash].
  destruct (s +:+ "/") eqn:E; [| exact IH].
  destruct s; discriminate E.
Qed.

Lemma endswith_slash_app_r s t :
  Str.endswith_slash t = true -> Str.endswith_slash (s +:+ t) = true.
Proof.
  intros Ht. induction s as [| a s IH]; [exact Ht |].
  rewrite str_app_cons. cbn [Str.endswith_slash].
  destruct (s +:+ t); [discriminate IH | exact IH].
Qed.

Lemma no_slash_app x c :
  no_slash x = true -> Ascii.eqb c "/" = false -> no_slash (x +:+ String c EmptyString) = true.
Proof.
  intros Hx Hc. induction x as [| a x IH].
  - change (negb (Ascii.eqb c "/") && true = true). rewrite Hc. reflexivity.
  - rewrite str_app_cons. cbn [no_slash] in *.
    apply andb_true_iff in Hx as [Ha Hx]. rewrite Ha. simpl. apply IH. exact Hx.
Qed.

(** [s.split("/")[-1]]: a string with no slash, which ends [s] after the
    empty string or after a string that ends with a slash. *)
Lemma last_segment_from_spec s : forall x,
  no_slash x = true ->
  exists pre,
    x +:+ s = pre +:+ Str.last_segment_from (x +:+ s) s
    /\ no_slash (Str.last_segment_from (x +:+ s) s) = true
    /\ (pre = EmptyString \/ Str.endswith_slash pre = true).
Proof.
  induction s as [| c s IH]; intros x Hx.
  - cbn [Str.last_segment_from]. exists EmptyString. rewrite str_app_nil_r. auto.
  - cbn [Str.last_segment_from]. destruct (Ascii.eqb c "/") eqn:Ec.
    + apply Ascii.eqb_eq in Ec. subst c.
      destruct (IH EmptyString eq_refl) as (pre & Hpre & Hno & Hend).
      change (EmptyString +:+ s) with s in Hpre, Hno.
      exists (x +:+ String "/" pre). split; [| split].
      * rewrite str_app_assoc, str_app_cons, <- Hpre. reflexivity.
      * exact Hno.
      * right. destruct Hend as [-> | Hend].
        -- apply endswith_slash_app.
        -- apply endswith_slash_app_r.
           cbn [Str.endswith_slash]. destruct pre; [discriminate Hend | exact Hend].
    + replace (x +:+ String c s) with ((x +:+ String c EmptyString) +:+ s)
        by (rewrite str_app_assoc; reflexivity).
      apply IH. apply no_slash_app; assumption.
Qed.

Lemma last_segment_spec s :
  exists pre,
    s = pre +:+ Str.last_segment s
    /\ no_slash (Str.last_segment s) = true
    /\ (pre = EmptyString \/ Str.endswith_slash pre = true).
Proof. exact (last_segment_from_spec s EmptyString eq_refl). Qed.

(** X5.  With a well-formed configuration that has no email section
    ([Log(...)] then returns, whatever the notification),
    [get_config] ends normally and
    sets the three names: the URL and the name of the dump, each followed
    by its extension when it does not hold it somewhere (so that both hold
    their extension afterwards, and a value that holds it already is kept
    as it is), and [name_zip], which holds no slash and ends the URL after
    the empty string or after a string that ends with a slash. *)
Theorem get_config_names self w data :
  config_file (env w) = Ok data ->
  well_formed data = true ->
  getitem data "email" = Ok JNull ->
  exists u f url zip sql w',
    getitem data "url-zip" = Ok (JStr u)
    /\ getitem data "file" = Ok (JStr f)
    /\ get_config self w
       = (Ok (MkZip (name_tgz self) (prev_sql_file self) (Some url) (Some zip) (Some sql)), w')
    /\ url = (if Str.lacks ".zip" u then u +:+ ".zip" else u)
    /\ sql = (if Str.lacks ".sql" f then f +:+ ".sql" else f)
    /\ Str.lacks ".zip" url = false
    /\ Str.lacks ".sql" sql = false
    /\ no_slash zip = true
    /\ exists pre, url = pre +:+ zip
                   /\ (pre = EmptyString \/ Str.endswith_slash pre = true).
Proof.
  intros Hc Hwf _. unfold well_formed in Hwf.
  repeat (apply andb_true_iff in Hwf as [Hwf ?]).
  apply is_str_inv in Hwf as [u Hu].
  match goal with H : is_str (getitem data "file") = true |- _ =>
    apply is_str_inv in H as [f Hf] end.
  repeat match goal with H : is_ok _ = true |- _ => apply is_ok_inv in H as [? ?] end.
  destruct (last_segment_spec (Str.with_ext ".zip" u)) as (pre & Hpre & Hno & Hend).
  exists u, f, (Str.with_ext ".zip" u), (Str.last_segment (Str.with_ext ".zip" u)),
    (Str.with_ext ".sql" f).
  assert (E : exists w',
             get_config self w
             = (Ok (MkZip (name_tgz self) (prev_sql_file self)
                          (Some (Str.with_ext ".zip" u))
                          (Some (Str.last_segment (Str.with_ext ".zip" u)))
                          (Some (Str.with_ext ".sql" f))), w')).
  { unfold get_config, load_config. run. rewrite Hc. run.
    rewrite Hu, Hf. run.
    repeat match goal with H : getitem data _ = Ok _ |- _ => rewrite H end. run.
    destruct u as [| c u]; destruct f as [| c' f]; run; eexists; reflexivity. }
  destruct E as [w' E]. exists w'.
  split; [exact Hu |]. split; [exact Hf |]. split; [exact E |].
  split; [reflexivity |]. split; [reflexivity |].
  split; [apply with_ext_has; discriminate |].
  split; [apply with_ext_has; discriminate |].
  split; [exact Hno |]. exists pre. split; [exact Hpre | exact Hend].
Qed.

(** ** The object of the share *)

Lemma ensures_try_any {A} (Q : A -> Prop) (body : M A) handlers :
  ensures Q body ->
  (forall e h, handlers e = Some h -> ensures Q h) ->
  ensures Q (try_except body handlers).
Proof.
  intros Hb Hh w a w' E. unfold try_except in E.
  destruct (body w) as [[x | e] w1] eqn:Eb.
  - injection E as <- <-. exact (Hb _ _ _ Eb).
  - destruct (handlers e) as [h |] eqn:Eh; [| discriminate E].
    exact (Hh e h Eh _ _ _ E).
Qed.

(** X6.  An object that [SMBServer.__init__] returns bears the name it
    was given and, when its attributes were assigned, a [path] that ends
    with a slash and no session. *)
Theorem init_path_ends_with_slash file_ w self w' :
  SMB.init file_ w = (Ok self, w') ->
  file self = file_
  /\ forall a, attrs self = Some a ->
       Str.endswith_slash (path a) = true /\ samba a = None.
Proof.
  revert w self w'.
  change (ensures (fun self => file self = file_
                    /\ forall a, attrs self = Some a ->
                         Str.endswith_slash (path a) = true /\ samba a = None)
                  (SMB.init file_)).
  unfold SMB.init. apply ensures_bind.
  intros [[[[[[[[ip_ hostname_] user_] pswd_] sharename_] path_] save_days_] |] |].
  - do 6 (apply ensures_bind; intros _).
    destruct path_; try apply ensures_raise.
    apply ensures_ret. split; [reflexivity |].
    intros a Ha. injection Ha as <-. simpl. split; [| reflexivity].
    destruct (Str.endswith_slash s) eqn:E; [exact E | apply endswith_slash_app].
  - apply ensures_raise.
  - apply ensures_ret. split; [reflexivity | discriminate].
Qed.

(** X7.  When the configuration has the keys of the share,
    [SMBServer.__init__] takes as [save_days] what [int] makes of the
    value: the number itself, 0 or 1 for a boolean, the number that a
    string spells; [None], a list and an object make [int] raise
    [TypeError], which no handler of [__init__] catches. *)
Theorem init_save_days_read file_ w data smb_ ip_ hostname_ user_ pswd_ sharename_ p v :
  config_file (env w) = Ok data ->
  getitem data "smb" = Ok smb_ ->
  getitem smb_ "ip" = Ok ip_ ->
  getitem smb_ "hostname" = Ok hostname_ ->
  getitem smb_ "user" = Ok user_ ->
  getitem smb_ "password" = Ok pswd_ ->
  getitem smb_ "sharename" = Ok sharename_ ->
  getitem smb_ "path" = Ok (JStr p) ->
  getitem data "save_days" = Ok v ->
  (forall n, int v = Ok n ->
     exists self a w',
       SMB.init file_ w = (Ok self, w')
       /\ attrs self = Some a
       /\ save_days a = n
       /\ logged w w' (blank_reports ip_ hostname_ user_ pswd_ sharename_ (JStr p)))
  /\ (match v with JNull | JArr _ | JObj _ => True | _ => False end ->
      exists e, SMB.init file_ w = (Raise e, w) /\ cls e = TypeError).
Proof.
  intros Hc Hsmb Hip Hh Hu Hpw Hsh Hp Hsd.
  unfold SMB.init, smb_field, read_save_days, ZipM.load_config.
  run. rewrite Hc. run. rewrite Hsmb. run.
  rewrite Hip, Hh, Hu, Hpw, Hsh, Hp. rewrite Hsd. run. split.
  - intros n Hn. rewrite Hn. rewrite !report_blank_run. run.
    eexists. eexists. eexists. split; [reflexivity |].
    split; [reflexivity |]. split; [reflexivity |].
    unfold logged, blank_reports. simpl. rewrite <- !app_assoc. reflexivity.
  - intros Hv. destruct v; try contradiction; run; eexists; split; reflexivity.
Qed.

(** X8.  A configuration that lacks the ["smb"] object, one of its six
    keys or ["save_days"]: [SMBServer.__init__] logs one ERROR event whose
    message is the first key that is missing and returns an object none of
    whose attributes but [log] and [file] is assigned. *)
Theorem init_missing_key file_ w fields k :
  config_file (env w) = Ok (JObj fields) ->
  smb_missing fields = Some k ->
  exists w',
    SMB.init file_ w = (Ok (MkServer file_ None), w')
    /\ logged w w' [Event ERROR "JSON file read" (Some k)]
    /\ nb_error (log w') = S (nb_error (log w)).
Proof.
  intros Hc Hk. unfold smb_missing in Hk.
  unfold SMB.init, smb_field, read_save_days, ZipM.load_config, logged.
  run. rewrite Hc. run.
  destruct (assoc "smb" fields) as [sub |].
  2: { injection Hk as <-. run. eexists. split; [reflexivity |]. auto. }
  destruct sub as [| | | | | sub]; try discriminate Hk.
  unfold first_missing, smb_keys in Hk. simpl in Hk. run.
  destruct (assoc "ip" sub); [| injection Hk as <-; run; eexists; auto].
  destruct (assoc "hostname" sub); [| injection Hk as <-; run; eexists; auto].
  destruct (assoc "user" sub); [| injection Hk as <-; run; eexists; auto].
  destruct (assoc "password" sub); [| injection Hk as <-; run; eexists; auto].
  destruct (assoc "sharename" sub); [| injection Hk as <-; run; eexists; auto].
  destruct (assoc "path" sub); [| injection Hk as <-; run; eexists; auto].
  destruct (assoc "save_days" fields); [discriminate Hk |].
  injection Hk as <-. run. eexists. auto.
Qed.

(** X9.  On an object whose attributes were not assigned, the methods
    that read them inside a [try] statement report and return
    ([check_server] with one ERROR event, [check_file] with one ERROR
    event and no value), and the three others raise [AttributeError];
    none makes a call to the share. *)
Theorem methods_without_attributes self w :
  attrs self = None ->
  (exists m w',
     check_server self w = (Ok tt, w')
     /\ logged w w' [Event ERROR "Server File Check" (Some m)]
     /\ calls w' = calls w /\ remote w' = remote w)
  /\ (exists m w',
        check_file self w = (Ok None, w')
        /\ logged w w' [Event ERROR "File Uploaded" (Some m)]
        /\ calls w' = calls w /\ remote w' = remote w)
  /\ (exists e, connect self w = (Raise e, w) /\ cls e = AttributeError)
  /\ (exists e, send_file self w = (Raise e, w) /\ cls e = AttributeError)
  /\ (exists e, disconnect self w = (Raise e, w) /\ cls e = AttributeError).
Proof.
  intros Ha.
  unfold check_server, check_file, connect, send_file, disconnect, getattrs, logged.
  rewrite Ha. run. repeat split; eexists; try eexists; split; try reflexivity; auto.
Qed.

(** ** The two [try] statements of [main] *)

Lemma disconnect_ok self a c w :
  attrs self = Some a -> samba a = Some c ->
  exists self', disconnect self w = (Ok self', add_call SmbClose w).
Proof.
  intros Ha Hc. unfold disconnect, getattrs, lib_close. rewrite Ha. run.
  rewrite Hc. run. eexists. reflexivity.
Qed.

Lemma sweep_only_raises self a w e :
  attrs self = Some a ->
  smb_connect (env w) = Raise e ->
  isinstance e SMBTimeout || isinstance e TimeoutError = false ->
  sweep_only self w = (Raise e, add_call SmbConnect w).
Proof.
  intros Ha He Hb. apply orb_false_iff in Hb as [Hs Ht].
  unfold sweep_only, connect, getattrs, lib_connect, on_timeout. rewrite Ha. run.
  rewrite He. run. rewrite Hs. run. rewrite Ht. reflexivity.
Qed.

Lemma sweep_only_returns self a w :
  attrs self = Some a ->
  match smb_connect (env w) with
  | Ok _ => True
  | Raise e => isinstance e SMBTimeout || isinstance e TimeoutError = true
  end ->
  exists w', sweep_only self w = (Ok tt, w').
Proof.
  intros Ha.
  assert (Hgo : forall c w1,
            exists w', (check_server (set_samba (Some c) self a) ;;;
                        _ <- disconnect (set_samba (Some c) self a) ;; ret tt) w1
                       = (Ok tt, w')).
  { intros c w1.
    destruct (check_server_total (set_samba (Some c) self a) w1) as (w2 & E2 & _).
    destruct (disconnect_ok (set_samba (Some c) self a) _ c w2 eq_refl eq_refl)
      as (self' & E3).
    eexists. rewrite (bind_ok _ _ _ _ _ E2), (bind_ok _ _ _ _ _ E3). reflexivity. }
  destruct (smb_connect (env w)) as [auth | e] eqn:He.
  - intros _.
    destruct (Hgo (MkConn true) (add_call SmbConnect w)) as [w' E].
    exists w'. unfold sweep_only, try_except.
    assert (E1 : connect self w
                 = (Ok (set_samba (Some (MkConn true)) self a), add_call SmbConnect w)).
    { unfold connect, getattrs, lib_connect. rewrite Ha. run. rewrite He. reflexivity. }
    rewrite (bind_ok _ _ _ _ _ E1), E. reflexivity.
  - destruct (isinstance e SMBTimeout) eqn:Hs; simpl.
    + intros _.
      set (w1 := add_call SmbClose
                   (snd (LogM.error "SMB Connection"
                           (Some "Unable to connect to SMB share") (add_call SmbConnect w)))).
      destruct (Hgo (MkConn false) w1) as [w' E].
      exists w'. unfold sweep_only, try_except.
      assert (E1 : connect self w = (Ok (set_samba (Some (MkConn false)) self a), w1)).
      { unfold connect, getattrs, lib_connect, lib_close. rewrite Ha. run.
        rewrite He. run. rewrite Hs. reflexivity. }
      rewrite (bind_ok _ _ _ _ _ E1), E. reflexivity.
    + intros Ht.
      unfold sweep_only, connect, getattrs, lib_connect, on_timeout. rewrite Ha. run.
      rewrite He. run. rewrite Hs. run. rewrite Ht. run. eexists. reflexivity.
Qed.

(** X10.  On an object whose attributes were assigned, the [try]
    statement of the branch without transfer ends normally exactly when
    [connect(ip)] returns, raises [SMBTimeout] (which [connect] handles)
    or raises a [TimeoutError] (which [main] handles); any other exception
    of [connect(ip)] leaves the statement, and so [main], as it is. *)
Theorem sweep_only_ends_iff self a w :
  attrs self = Some a ->
  ((exists w', sweep_only self w = (Ok tt, w'))
   <-> match smb_connect (env w) with
       | Ok _ => True
       | Raise e => isinstance e SMBTimeout || isinstance e TimeoutError = true
       end)
  /\ (forall e, smb_connect (env w) = Raise e ->
      isinstance e SMBTimeout || isinstance e TimeoutError = false ->
      sweep_only self w = (Raise e, add_call SmbConnect w)).
Proof.
  intros Ha. split; [| intros e; apply (sweep_only_raises self a); exact Ha].
  split; [| apply (sweep_only_returns self a); exact Ha].
  intros [w' E]. destruct (smb_connect (env w)) as [auth | e] eqn:He; [exact I |].
  destruct (isinstance e SMBTimeout || isinstance e TimeoutError) eqn:Hb; [reflexivity |].
  rewrite (sweep_only_raises self a w e Ha He Hb) in E. discriminate E.
Qed.

(** X11.  After a [connect] that caught [SMBTimeout] the session is
    closed, not absent.  The [try] statement of the branch without
    transfer then ends normally: the sweep reports [NotConnectedError] as
    an ERROR event and [disconnect] closes once more; the share is not
    touched.  The [try] statement of the branch with transfer does not:
    the archive being in the working directory, [storeFile] raises
    [NotConnectedError], which is no [TimeoutError] and leaves the
    statement. *)
Theorem connect_timeout_branches self a w e :
  attrs self = Some a ->
  smb_connect (env w) = Raise e ->
  isinstance e SMBTimeout = true ->
  (exists w',
     sweep_only self w = (Ok tt, w')
     /\ logged w w'
          [Event ERROR "SMB Connection" (Some "Unable to connect to SMB share");
           Event ERROR "Server File Check"
             (Some "Error encountered: Not connected to server")]
     /\ calls w' = calls w ++ [SmbConnect; SmbClose; SmbListPath (path a); SmbClose]
     /\ remote w' = remote w)
  /\ (forall content, fs w !! file self = Some content ->
      exists x w',
        transfer self w = (Raise x, w')
        /\ cls x = NotConnectedError
        /\ calls w' = calls w ++ [SmbConnect; SmbClose;
                                   SmbStoreFile (path a +:+ file self)]
        /\ remote w' = remote w).
Proof.
  intros Ha He Hs. split.
  - unfold sweep_only, connect, check_server, disconnect, getattrs, lib_connect,
      lib_close, listPath, connected, on_timeout, logged. rewrite Ha. run.
    rewrite He. run. rewrite Hs. run.
    eexists. split; [reflexivity |]. simpl. rewrite <- !app_assoc. auto.
  - intros content Hf.
    unfold transfer, connect, send_file, getattrs, lib_connect, lib_close,
      storeFile, connected, open_rb, on_timeout. rewrite Ha. run.
    rewrite He. run. rewrite Hs. run. rewrite Hf. run.
    eexists. eexists. split; [reflexivity |]. simpl. rewrite <- !app_assoc. auto.
Qed.

(** ** What the sweep never deletes *)

Lemma unlink_keeps name l g :
  In g l -> (filename g = name -> isDirectory g = true) -> In g (unlink name l).
Proof.
  intros Hin Hg. unfold unlink. apply filter_In. split; [exact Hin |].
  destruct (String.eqb name (filename g)) eqn:E; [| reflexivity].
  apply String.eqb_eq in E. simpl. apply Hg. symmetry. exact E.
Qed.

(** The loop of the sweep, whatever the share answers: the environment,
    the working directory and the log are as they were, every call is a
    [deleteFiles] on an expired entry of the listing, and every entry of
    the share that is not expired is still there. *)
Lemma sweep_safe a c max_date L : forall l k w r w',
  incl l L ->
  sweep a c max_date l k w = (r, w') ->
  env w' = env w /\ fs w' = fs w /\ log w' = log w
  /\ (exists fresh,
        calls w' = calls w ++ map (fun f => SmbDeleteFiles (path a +:+ filename f)) fresh
        /\ Forall (fun f => In f L /\ expired max_date f = true) fresh)
  /\ (forall g, In g (remote w) -> expired max_date g = false -> In g (remote w')).
Proof.
  induction l as [| f l IH]; intros k w r w' Hl E.
  - injection E as _ <-. repeat split; auto.
    exists []. simpl. rewrite app_nil_r. auto.
  - assert (Hf : In f L) by (apply Hl; left; reflexivity).
    assert (Hl' : incl l L) by (intros x Hx; apply Hl; right; exact Hx).
    simpl in E. destruct (isDirectory f) eqn:Ed; simpl in E.
    { exact (IH _ _ _ _ Hl' E). }
    unfold bind at 1, lift in E.
    destruct (Date.strptime_Ydm (Str.remove_tgz (filename f))) as [d | e] eqn:Ep.
    2: { injection E as _ <-. repeat split; auto.
         exists []. simpl. rewrite app_nil_r. auto. }
    destruct (Date.lt d max_date) eqn:El.
    2: { exact (IH _ _ _ _ Hl' E). }
    assert (Hexp : expired max_date f = true).
    { unfold expired, entry_date. rewrite Ed, Ep. exact El. }
    assert (Hstop : forall w1,
              env w1 = env w -> fs w1 = fs w -> log w1 = log w ->
              calls w1 = calls w ++ [SmbDeleteFiles (path a +:+ filename f)] ->
              remote w1 = remote w ->
              env w1 = env w /\ fs w1 = fs w /\ log w1 = log w
              /\ (exists fresh,
                    calls w1
                    = calls w ++ map (fun f => SmbDeleteFiles (path a +:+ filename f)) fresh
                    /\ Forall (fun f => In f L /\ expired max_date f = true) fresh)
              /\ (forall g, In g (remote w) -> expired max_date g = false ->
                             In g (remote w1))).
    { intros w1 H1 H2 H3 H4 H5. repeat split; auto.
      - exists [f]. split; [exact H4 | repeat constructor; assumption].
      - intros g Hg _. rewrite H5. exact Hg. }
    unfold bind at 1 in E. unfold deleteFiles, connected, or_raise in E.
    destruct (sock c); run.
    2: { injection E as _ <-. apply Hstop; reflexivity. }
    destruct (smb_delete (env w) (path a +:+ filename f)) as [err |]; run.
    { injection E as _ <-. apply Hstop; reflexivity. }
    destruct (IH _ _ _ _ Hl' E) as (He & Hfs & Hlog & (fresh & Hc & Hfresh) & Hkeep).
    simpl in He, Hfs, Hlog, Hc, Hkeep.
    split; [exact He |]. split; [exact Hfs |]. split; [exact Hlog |]. split.
    + exists (f :: fresh). split.
      * rewrite Hc, <- app_assoc. reflexivity.
      * constructor; [split; assumption | exact Hfresh].
    + intros g Hg Hng. apply Hkeep; [| exact Hng].
      apply unlink_keeps; [exact Hg |].
      intros Hname. destruct (isDirectory g) eqn:Hdg; [reflexivity |].
      rewrite (expired_same_name max_date f g (eq_sym Hname) Hdg Hexp) in Hng.
      discriminate Hng.
Qed.

Lemma check_server_safe self a w :
  attrs self = Some a ->
  exists w' cs,
    check_server self w = (Ok tt, w')
    /\ calls w' = calls w ++ cs
    /\ fs w' = fs w
    /\ env w' = env w
    /\ (forall c, In c cs ->
        match c with SmbListPath _ | SmbDeleteFiles _ => True | _ => False end)
    /\ (forall max_date,
        Date.minus_days (today (env w)) (save_days a) = Ok max_date ->
        (forall p, In (SmbDeleteFiles p) cs ->
           exists f, In f (remote w) /\ expired max_date f = true
                     /\ p = path a +:+ filename f)
        /\ (forall g, In g (remote w) -> expired max_date g = false -> In g (remote w')))
    /\ (match samba a with Some c => sock c = false | None => True end
        \/ is_ok (Date.minus_days (today (env w)) (save_days a)) = false ->
        remote w' = remote w /\ forall p, ~ In (SmbDeleteFiles p) cs).
Proof.
  intros Ha. unfold check_server, getattrs. rewrite Ha.
  unfold try_except. unfold bind at 1. unfold ret at 1.
  destruct (samba a) as [c |].
  2: { run. eexists. exists []. split; [reflexivity |]. simpl. rewrite app_nil_r.
       repeat split; auto; try tauto. }
  unfold bind at 1. unfold listPath, connected, or_raise.
  destruct (sock c) eqn:Hs; run.
  2: { eexists. exists [SmbListPath (path a)]. split; [reflexivity |]. simpl.
       split; [reflexivity |]. split; [reflexivity |]. split; [reflexivity |]. split.
       { intros x [<- | []]. exact I. }
       split.
       { intros md _. split; [| auto]. intros p [H | []]. discriminate H. }
       intros _. split; [reflexivity |]. intros p [H | []]. discriminate H. }
  destruct (smb_list (env w)) as [err |]; run.
  { rewrite isinstance_Exception. run.
    eexists. exists [SmbListPath (path a)]. split; [reflexivity |]. simpl.
    split; [reflexivity |]. split; [reflexivity |]. split; [reflexivity |]. split.
    { intros x [<- | []]. exact I. }
    split.
    { intros md _. split; [| auto]. intros p [H | []]. discriminate H. }
    intros _. split; [reflexivity |]. intros p [H | []]. discriminate H. }
  destruct (Date.minus_days (today (env w)) (save_days a)) as [md | err] eqn:Hm; run.
  2: { rewrite isinstance_Exception. run.
       eexists. exists [SmbListPath (path a)]. split; [reflexivity |]. simpl.
       split; [reflexivity |]. split; [reflexivity |]. split; [reflexivity |]. split.
       { intros x [<- | []]. exact I. }
       split; [discriminate |].
       intros _. split; [reflexivity |]. intros p [H | []]. discriminate H. }
  destruct (sweep a c md (remote w) 0 (add_call (SmbListPath (path a)) w))
    as [r w1] eqn:Esw.
  destruct (sweep_safe a c md (remote w) (remote w) 0 _ r w1 (incl_refl _) Esw)
    as (He & Hfs & Hlog & (fresh & Hc & Hfresh) & Hkeep).
  simpl in He, Hfs, Hlog, Hc, Hkeep.
  assert (Hcalls : calls w1
            = calls w ++ SmbListPath (path a)
                :: map (fun f => SmbDeleteFiles (path a +:+ filename f)) fresh).
  { rewrite Hc, <- app_assoc. reflexivity. }
  assert (Hkind : forall x,
            In x (SmbListPath (path a)
                  :: map (fun f => SmbDeleteFiles (path a +:+ filename f)) fresh) ->
            match x with SmbListPath _ | SmbDeleteFiles _ => True | _ => False end).
  { intros x [<- | H]; [exact I |].
    apply in_map_iff in H as (f & <- & _). exact I. }
  assert (Hdel : forall max_date, Ok md = Ok max_date ->
            (forall p,
               In (SmbDeleteFiles p)
                  (SmbListPath (path a)
                   :: map (fun f => SmbDeleteFiles (path a +:+ filename f)) fresh) ->
               exists f, In f (remote w) /\ expired max_date f = true
                         /\ p = path a +:+ filename f)
            /\ (forall g, In g (remote w) -> expired max_date g = false ->
                           In g (remote w1))).
  { intros max_date Hmd. injection Hmd as <-. split; [| exact Hkeep].
    intros p [H | H]; [discriminate H |].
    apply in_map_iff in H as (f & Hp & Hin). injection Hp as <-.
    rewrite List.Forall_forall in Hfresh. destruct (Hfresh f Hin) as [HL Hexp].
    exists f. auto. }
  destruct r as [nb | err]; run.
  - eexists. eexists. split; [reflexivity |]. simpl.
    split; [exact Hcalls |]. split; [exact Hfs |]. split; [exact He |].
    split; [exact Hkind |].
    split; [exact Hdel | intros [H | H]; discriminate H].
  - rewrite isinstance_Exception. run.
    eexists. eexists. split; [reflexivity |]. simpl.
    split; [exact Hcalls |]. split; [exact Hfs |]. split; [exact He |].
    split; [exact Hkind |].
    split; [exact Hdel | intros [H | H]; discriminate H].
Qed.

(** X12.  Whatever the share answers, [check_server] returns normally,
    leaves the working directory alone and calls nothing but [listPath]
    and [deleteFiles]; when [today - save_days] is a date, every
    [deleteFiles] it calls names an entry of the listing that is a file
    whose name gives a date strictly before that date, and every entry of
    the share that is not such a file is still on the share afterwards.
    Without a session, or with a closed one, nothing is deleted. *)
Theorem check_server_deletes_only_expired self a w :
  attrs self = Some a ->
  exists w' cs,
    check_server self w = (Ok tt, w')
    /\ calls w' = calls w ++ cs
    /\ fs w' = fs w
    /\ (forall c, In c cs ->
        match c with SmbListPath _ | SmbDeleteFiles _ => True | _ => False end)
    /\ (forall max_date,
        Date.minus_days (today (env w)) (save_days a) = Ok max_date ->
        (forall p, In (SmbDeleteFiles p) cs ->
           exists f, In f (remote w) /\ expired max_date f = true
                     /\ p = path a +:+ filename f)
        /\ (forall g, In g (remote w) -> expired max_date g = false -> In g (remote w')))
    /\ (match samba a with Some c => sock c = false | None => True end ->
        remote w' = remote w /\ forall p, ~ In (SmbDeleteFiles p) cs).
Proof.
  intros Ha.
  destruct (check_server_safe self a w Ha) as (w' & cs & E & Hc & Hf & _ & Hk & Hd & Hn).
  exists w', cs. repeat split; try assumption.
  - intros p Hp. exact (proj1 (Hd max_date H) p Hp).
  - exact (proj2 (Hd max_date H)).
  - exact (proj1 (Hn (or_introl H))).
  - exact (proj2 (Hn (or_introl H))).
Qed.

(** ** Upload and verification *)

Lemma store_spec name l :
  existsb (fun f => String.eqb name (filename f)) (store name l) = true
  /\ (forall g, In g l -> In g (store name l))
  /\ (forall g, In g (store name l) -> In g l \/ g = MkShared name false).
Proof.
  unfold store.
  destruct (existsb (fun f => String.eqb name (filename f)) l) eqn:E.
  - auto.
  - split; [| split].
    + rewrite existsb_app. simpl. rewrite String.eqb_refl, orb_true_r. reflexivity.
    + intros g Hg. apply in_or_app. left. exact Hg.
    + intros g Hg. apply in_app_or in Hg as [Hg | [<- | []]]; auto.
Qed.

(** X13.  With an open session, the archive in the working directory and
    a share that accepts the transfer and the listing, [send_file] makes
    one [storeFile] call under [path + file], logs one INFO event and
    leaves every entry of the share in place, adding at most the entry of
    the archive; the [check_file] that follows returns [True] with one
    INFO event and changes nothing on the share. *)
Theorem send_then_check self a c w content :
  attrs self = Some a -> samba a = Some c -> sock c = true ->
  fs w !! file self = Some content ->
  smb_store (env w) = None ->
  smb_list (env w) = None ->
  exists w1 w2,
    send_file self w = (Ok tt, w1)
    /\ logged w w1 [Event INFO "Send File to SMB" (Some "File sent to the SMB Share.")]
    /\ calls w1 = calls w ++ [SmbStoreFile (path a +:+ file self)]
    /\ fs w1 = fs w
    /\ (forall g, In g (remote w) -> In g (remote w1))
    /\ (forall g, In g (remote w1) -> In g (remote w) \/ g = MkShared (file self) false)
    /\ check_file self w1 = (Ok (Some true), w2)
    /\ logged w1 w2
         [Event INFO "File Uploaded"
            (Some "Tar file exists on the remote server. Upload successful.")]
    /\ remote w2 = remote w1.
Proof.
  intros Ha Hc Hs Hf Hst Hl.
  destruct (store_spec (file self) (remote w)) as (Hex & Hold & Hnew).
  unfold send_file, check_file, getattrs, open_rb, storeFile, listPath, connected,
    or_raise, logged.
  rewrite Ha. run. rewrite Hc. run. rewrite Hf. run. rewrite Hs. run.
  rewrite Hst. run.
  eexists. eexists. split; [reflexivity |]. simpl.
  rewrite Hl. run. rewrite Hex. run.
  repeat split; auto.
Qed.

(** ** The age of an archive *)

Lemma minus_days_inv today n max_date :
  Date.minus_days today n = Ok max_date ->
  valid max_date = true /\ Date.toordinal max_date = Date.toordinal today - n.
Proof.
  unfold Date.minus_days. destruct (999999999 <? Z.abs n); [discriminate |].
  destruct ((1 <=? Date.toordinal today - n)
            && (Date.toordinal today - n <=? Date.MAXORDINAL)) eqn:E; [| discriminate].
  intros H. injection H as <-. apply fromordinal_spec. lia.
Qed.

(** The archive of the day [d] counts as expired exactly when more than
    [n] days lie between [d] and the day of the sweep. *)
Lemma expired_age today n max_date d :
  valid d = true -> 1000 <= Date.year d ->
  Date.minus_days today n = Ok max_date ->
  expired max_date (MkShared (Date.strftime_Ydm d +:+ ".tgz") false)
  = (Date.toordinal d + n <? Date.toordinal today).
Proof.
  intros Hv Hy Hm. apply minus_days_inv in Hm as [Hvm Hom].
  unfold expired, entry_date. cbn [filename isDirectory negb andb].
  rewrite strptime_strftime by assumption.
  rewrite lt_toordinal by assumption. rewrite Hom.
  destruct (Z.ltb_spec (Date.toordinal d) (Date.toordinal today - n));
    destruct (Z.ltb_spec (Date.toordinal d + n) (Date.toordinal today)); lia || reflexivity.
Qed.

(** X14.  The name that [Zip.__init__] gives to the archive of a day of
    the years 1000 to 9999 is read by the sweep as that very day: eight
    digits, year, day and month, and the extension that the sweep
    removes. *)
Theorem archive_name_reads_as_its_day d :
  valid d = true -> 1000 <= Date.year d ->
  String.length (Date.strftime_Ydm d +:+ ".tgz") = 12%nat
  /\ Str.remove_tgz (Date.strftime_Ydm d +:+ ".tgz") = Date.strftime_Ydm d
  /\ entry_date (MkShared (Date.strftime_Ydm d +:+ ".tgz") false) = Ok d.
Proof.
  intros Hv Hy. split; [| split; [apply remove_tgz_name |]].
  - unfold Date.strftime_Ydm, Str.dec4, Str.dec2. cbv [String.append String.length].
    reflexivity.
  - unfold entry_date. cbn [filename]. apply strptime_strftime; assumption.
Qed.

(** X15.  Dates are compared as days are counted: for the archive that
    [Zip.__init__] named on the day [d], the test of the sweep
    [date < today - save_days] holds exactly when more than [save_days]
    days lie between [d] and today.  So the archive of today itself is
    kept by every [save_days] that is not negative, and is expired as
    soon as it is uploaded when [save_days] is negative. *)
Theorem retention_window today n max_date d :
  valid d = true -> 1000 <= Date.year d ->
  Date.minus_days today n = Ok max_date ->
  (expired max_date (MkShared (Date.strftime_Ydm d +:+ ".tgz") false) = true
   <-> Date.toordinal today - Date.toordinal d > n)
  /\ (d = today ->
      expired max_date (MkShared (Date.strftime_Ydm d +:+ ".tgz") false) = (n <? 0)).
Proof.
  intros Hv Hy Hm. rewrite (expired_age today n max_date d Hv Hy Hm). split.
  - rewrite Z.ltb_lt. lia.
  - intros ->. destruct (Z.ltb_spec (Date.toordinal today + n) (Date.toordinal today));
      destruct (Z.ltb_spec n 0); lia || reflexivity.
Qed.

(** ** The calls of a run *)

Lemma only_refl P w : only P w w.
Proof. exists []. rewrite app_nil_r. auto. Qed.

Lemma only_trans P a b c : only P a b -> only P b c -> only P a c.
Proof.
  intros (x & Hx & Px) (y & Hy & Py). exists (x ++ y). split.
  - rewrite Hy, Hx, app_assoc. reflexivity.
  - rewrite forallb_app, Px, Py. reflexivity.
Qed.

Lemma only_log P f : keeps (only P) (modify (set_log f)).
Proof. intros w. exists []. simpl. rewrite app_nil_r. auto. Qed.

Lemma only_info P a m : keeps (only P) (LogM.info a m).
Proof. apply only_log. Qed.

Lemma only_error P a m : keeps (only P) (LogM.error a m).
Proof. apply only_log. Qed.

Lemma only_warning P a m : keeps (only P) (LogM.warning a m).
Proof. apply only_log. Qed.

Lemma only_log_init P : keeps (only P) LogM.init.
Proof. apply only_log. Qed.

Lemma only_fs P f : keeps (only P) (modify (set_fs f)).
Proof. intros w. exists []. simpl. rewrite app_nil_r. auto. Qed.

Lemma only_remote P f : keeps (only P) (modify (set_remote f)).
Proof. intros w. exists []. simpl. rewrite app_nil_r. auto. Qed.

Lemma only_call (P : call -> bool) c : P c = true -> keeps (only P) (modify (add_call c)).
Proof. intros Hc w. exists [c]. simpl. rewrite Hc. auto. Qed.

#[local] Hint Resolve only_info only_error only_warning only_log_init only_fs
  only_remote : frame.

Ltac calls_only P :=
  repeat (progress
    (steps (only_refl P) (only_trans P);
     unfold connected, or_raise, getattrs, lib_connect, lib_close, report_blank,
       smb_field, load_config, isfile, isfile_attr, on_timeout, requests_get,
       extract, open_rb, tar_add_member, read_save_days, with_extension, archive,
       rotate, listPath, storeFile, deleteFiles;
     try (apply only_call; reflexivity))).

Lemma only_sweep P a c m l :
  (forall p, P (SmbDeleteFiles p) = true) ->
  forall k, keeps (only P) (sweep a c m l k).
Proof.
  intros HP. induction l as [| f r IH]; intros k; simpl; calls_only P;
    try apply IH; apply only_call; apply HP.
Qed.

Lemma only_check_server P self :
  (forall p, P (SmbListPath p) = true) -> (forall p, P (SmbDeleteFiles p) = true) ->
  keeps (only P) (check_server self).
Proof.
  intros HL HD. unfold check_server. calls_only P;
    try (apply only_sweep; exact HD); apply only_call; apply HL.
Qed.

#[local] Hint Extern 1 (keeps (only _) (check_server _)) =>
  apply only_check_server; reflexivity : frame.

Lemma only_idle_sweep_only smb : keeps (only idle_call) (sweep_only smb).
Proof. unfold sweep_only, connect, disconnect. calls_only idle_call. Qed.

Lemma not_report_detect : keeps (only not_report) detect.
Proof.
  unfold detect, ZipM.init, get_config, download_unzip, SMB.init, check_file_version.
  calls_only not_report.
Qed.

Lemma not_report_branch script smb (changed : bool) :
  keeps (only not_report)
        (if changed then compress_targz script ;;; transfer smb else sweep_only smb).
Proof.
  destruct changed.
  - unfold compress_targz, transfer, connect, send_file, check_file, disconnect.
    calls_only not_report.
  - unfold sweep_only, connect, disconnect. calls_only not_report.
Qed.

(** X16.  In every run of [main] with the reports off, whatever the
    outside answers, the report is the last call that leaves the process
    and is made once when [main] ends normally, and is not made at all
    when an exception leaves [main]. *)
Theorem main_report_once w r w' :
  silent (env w) = true ->
  main w = (r, w') ->
  exists cs,
    calls w' = calls w ++ cs ++ (if is_ok r then [SendNotificationEmail] else [])
    /\ forallb not_report cs = true.
Proof.
  intros _ E. unfold main in E.
  pose proof (not_report_detect w) as (c1 & H1 & P1).
  destruct (detect w) as [[[[script smb] changed] | e] w1] eqn:Ed; simpl in H1.
  2: { rewrite (bind_raise _ _ _ _ _ Ed) in E. injection E as <- <-.
       exists c1. simpl. rewrite app_nil_r. auto. }
  rewrite (bind_ok _ _ _ _ _ Ed) in E. unfold after_detection in E.
  pose proof (not_report_branch script smb changed w1) as (c2 & H2 & P2).
  destruct ((if changed then compress_targz script ;;; transfer smb else sweep_only smb) w1)
    as [[[] | e] w2] eqn:Eb; simpl in H2.
  - rewrite (bind_ok _ _ _ _ _ Eb) in E.
    unfold LogM.send_notification_email, clean_directory, modify, bind in E.
    injection E as <- <-. simpl. exists (c1 ++ c2). split.
    + rewrite H2, H1, <- !app_assoc. reflexivity.
    + rewrite forallb_app, P1, P2. reflexivity.
  - rewrite (bind_raise _ _ _ _ _ Eb) in E.
    injection E as <- <-. simpl. exists (c1 ++ c2). split.
    + rewrite H2, H1, app_nil_r, <- app_assoc. reflexivity.
    + rewrite forallb_app, P1, P2. reflexivity.
Qed.

(** ** A whole run *)

Lemma same_share_refl w : same_share w w.
Proof. reflexivity. Qed.

Lemma same_share_trans a b c : same_share a b -> same_share b c -> same_share a c.
Proof. unfold same_share. congruence. Qed.

Lemma same_share_log f : keeps same_share (modify (set_log f)).
Proof. intros w. reflexivity. Qed.

Lemma same_share_get_config self : keeps same_share (get_config self).
Proof.
  unfold get_config, LogM.init, LogM.error, load_config, with_extension.
  repeat (progress (steps same_share_refl same_share_trans;
                    try apply same_share_log)).
Qed.

Lemma smb_init_attrs file_ w data :
  config_file (env w) = Ok data ->
  well_formed data = true ->
  exists a w',
    SMB.init file_ w = (Ok (MkServer file_ (Some a)), w')
    /\ samba a = None
    /\ save_days a = retention data
    /\ env w' = env w /\ fs w' = fs w /\ calls w' = calls w /\ remote w' = remote w.
Proof.
  intros Hc Hwf. unfold well_formed in Hwf.
  repeat (apply andb_true_iff in Hwf as [Hwf ?]).
  unfold retention.
  destruct (getitem data "smb") as [s |] eqn:Hs; [| discriminate].
  destruct (getitem data "save_days") as [v |] eqn:Hv; [| discriminate].
  repeat match goal with H : _ && _ = true |- _ => apply andb_true_iff in H as [H ?] end.
  match goal with H : is_str (getitem s "path") = true |- _ =>
    apply is_str_inv in H as [p Hp] end.
  repeat match goal with H : is_ok (getitem s _) = true |- _ =>
    apply is_ok_inv in H as [? ?] end.
  unfold SMB.init, smb_field, read_save_days, load_config. run. rewrite Hc. run.
  rewrite Hs. run.
  repeat match goal with H : getitem s _ = Ok _ |- _ => rewrite H end.
  rewrite Hv. run.
  destruct (int v) as [k | e]; run.
  - rewrite !report_blank_run. run. eexists. eexists.
    split; [reflexivity |]. simpl. auto 10.
  - match goal with H : isinstance e ValueError = true |- _ => rewrite H end.
    rewrite !report_blank_run. run. eexists. eexists.
    split; [reflexivity |]. simpl. auto 10.
Qed.

Lemma check_file_version_new self w n current :
  name_sql_file self = Some n ->
  fs w !! n = Some current ->
  (forall p, fs w !! prev_sql_file self = Some p ->
             Sha1.sha1_hex p <> Sha1.sha1_hex current) ->
  exists w',
    check_file_version self w = (Ok true, w')
    /\ env w' = env w /\ fs w' = fs w /\ calls w' = calls w /\ remote w' = remote w.
Proof.
  intros Hn Hc Hp. unfold check_file_version, open_rb. run.
  destruct (fs w !! prev_sql_file self) as [p |]; run.
  - rewrite Hn. run. rewrite Hc. run. rewrite !file_hexdigest_sha1.
    destruct (String.eqb_spec (Sha1.sha1_hex p) (Sha1.sha1_hex current)) as [E | _].
    + exfalso. exact (Hp p eq_refl E).
    + run. eexists. split; [reflexivity |]. auto.
  - eexists. split; [reflexivity |]. auto.
Qed.

Lemma check_file_version_same self w n current p :
  name_sql_file self = Some n ->
  fs w !! n = Some current ->
  fs w !! prev_sql_file self = Some p ->
  Sha1.sha1_hex p = Sha1.sha1_hex current ->
  exists w',
    check_file_version self w = (Ok false, w')
    /\ env w' = env w /\ fs w' = delete n (fs w) /\ calls w' = calls w
    /\ remote w' = remote w.
Proof.
  intros Hn Hc Hp E. unfold check_file_version, open_rb. run.
  rewrite Hp. run. rewrite Hn. run. rewrite Hc. run. rewrite !file_hexdigest_sha1.
  rewrite E, String.eqb_refl. run. eexists. split; [reflexivity |]. auto.
Qed.

Lemma compress_targz_full self w n :
  name_sql_file self = Some n ->
  n <> prev_sql_file self ->
  n <> name_tgz self ->
  prev_sql_file self <> name_tgz self ->
  exists w',
    compress_targz self w = (Ok tt, w')
    /\ fs w' !! prev_sql_file self = fs w !! n
    /\ fs w' !! n = None
    /\ is_Some (fs w' !! name_tgz self)
    /\ env w' = env w /\ remote w' = remote w
    /\ In (TarOpen (name_tgz self)) (calls w').
Proof.
  intros Hn Hnp Hnt Hpt.
  destruct (compress_targz_rotates self w n Hn Hnp Hnt Hpt) as (w' & E & H1 & H2).
  destruct (compress_targz_total self w n Hn Hnt Hpt) as (w'' & E' & G & Hc & Hs).
  rewrite E in E'. injection E' as <-.
  exists w'. split; [exact E |]. split; [exact H1 |]. split; [exact H2 |].
  split; [exact Hs |]. split; [exact (proj1 G) |]. split; [| exact Hc].
  destruct (archive_total self w) as (w1 & x & Ea & _ & Hr & _).
  unfold compress_targz, bind in E. rewrite Ea, (rotate_spec self w1 n Hn) in E.
  injection E as <-. exact Hr.
Qed.

Lemma send_file_ok self a c w content :
  attrs self = Some a -> samba a = Some c -> sock c = true ->
  fs w !! file self = Some content ->
  smb_store (env w) = None ->
  exists w1,
    send_file self w = (Ok tt, w1)
    /\ env w1 = env w /\ fs w1 = fs w
    /\ remote w1 = store (file self) (remote w)
    /\ calls w1 = calls w ++ [SmbStoreFile (path a +:+ file self)].
Proof.
  intros Ha Hc Hs Hf Hst.
  unfold send_file, getattrs, open_rb, storeFile, connected, or_raise.
  rewrite Ha. run. rewrite Hc. run. rewrite Hf. run. rewrite Hs. run.
  rewrite Hst. run. eexists. split; [reflexivity |]. simpl. auto.
Qed.

Lemma check_file_frame self w :
  exists r w',
    check_file self w = (Ok r, w')
    /\ env w' = env w /\ fs w' = fs w /\ remote w' = remote w.
Proof.
  destruct (check_file_total self w) as (r & w' & E). exists r, w'.
  split; [exact E |].
  pose proof (grows_check_file self w) as (He & _). rewrite E in He.
  pose proof (fs_frame_nil _ _ (fsf_check_file [] self w)) as Hf. rewrite E in Hf.
  split; [exact He |]. split; [exact Hf |].
  revert E. unfold check_file, getattrs, listPath, connected, or_raise.
  destruct (attrs self) as [a |]; run.
  2: { intros E. injection E as _ <-. reflexivity. }
  destruct (samba a) as [c |]; run.
  2: { intros E. injection E as _ <-. reflexivity. }
  destruct (sock c); run.
  2: { intros E. injection E as _ <-. reflexivity. }
  destruct (smb_list (env w)); run.
  { rewrite isinstance_Exception. run. intros E. injection E as _ <-. reflexivity. }
  destruct (existsb _ (remote w)); run; intros E; injection E as _ <-; reflexivity.
Qed.

(** X17.  A run that finds a new dump.  With a well-formed configuration
    that switches the reports off and whose dump is an entry of the
    working directory other than the retained copy, a server that serves a zip
    container holding the dump, a retained copy that is absent or has
    another SHA-1 digest, a share that accepts the connection and the
    transfer, and a [save_days] that is not negative, [main] ends
    normally; afterwards the retained copy holds the bytes that were
    served, neither the dump nor the archive is left in the working
    directory, the share lists the archive of the day (the sweep of the
    same run does not delete it), no entry of the share that was not
    expired is lost, and the report has been sent. *)
Theorem main_archives_new_dump w data f resp z m auth :
  config_file (env w) = Ok data ->
  well_formed data = true ->
  reports_off data = true ->
  getitem data "file" = Ok (JStr f) ->
  apart (Str.with_ext ".sql" f) = true ->
  http_get (env w) = Ok resp ->
  (400 <=? status_code resp) && (status_code resp <? 600) = false ->
  zip_body resp = Some z ->
  List.find (fun x => String.eqb (Str.with_ext ".sql" f) (member_name x)) (rev z) = Some m ->
  (forall p, fs w !! "./prev_dump.sql" = Some p ->
             Sha1.sha1_hex p <> Sha1.sha1_hex (member_data m)) ->
  smb_connect (env w) = Ok auth ->
  smb_store (env w) = None ->
  valid (today (env w)) = true -> 1000 <= Date.year (today (env w)) ->
  0 <= retention data ->
  exists w',
    main w = (Ok tt, w')
    /\ fs w' !! "./prev_dump.sql" = Some (member_data m)
    /\ fs w' !! Str.with_ext ".sql" f = None
    /\ fs w' !! (Date.strftime_Ydm (today (env w)) +:+ ".tgz") = None
    /\ existsb (fun g => String.eqb (Date.strftime_Ydm (today (env w)) +:+ ".tgz")
                                    (filename g))
               (remote w') = true
    /\ (forall md g,
          Date.minus_days (today (env w)) (retention data) = Ok md ->
          In g (remote w) -> expired md g = false -> In g (remote w'))
    /\ In (TarOpen (Date.strftime_Ydm (today (env w)) +:+ ".tgz")) (calls w')
    /\ In SendNotificationEmail (calls w').
Proof.
  intros Hc Hwf _ Hfile Hap Hg Hst Hz Hfind Hdiff Hconn Hstore Hvalid Hyear Hret.
  pose proof (apart_not_retained _ Hap) as Hnp. clear Hap.
  set (tgz := Date.strftime_Ydm (today (env w)) +:+ ".tgz").
  set (n := Str.with_ext ".sql" f) in *.
  set (s0 := MkZip tgz "./prev_dump.sql" None None None).
  assert (E0 : ZipM.init w = (Ok s0, w)) by reflexivity.
  destruct (get_config_well_formed s0 w data Hc Hwf)
    as (u & f' & wb & Hf' & E1 & Hbe & Hbf & Hbc).
  assert (f' = f) by congruence. subst f'.
  pose proof (same_share_get_config s0 w) as Hbr. rewrite E1 in Hbr.
  unfold same_share in Hbr. simpl in Hbr.
  set (script := MkZip (name_tgz s0) (prev_sql_file s0) (Some (Str.with_ext ".zip" u))
                       (Some (Str.last_segment (Str.with_ext ".zip" u)))
                       (Some (Str.with_ext ".sql" f))) in *.
  assert (Hg' : http_get (env wb) = Ok resp) by (rewrite Hbe; exact Hg).
  destruct (download_unzip_ok script wb (Str.with_ext ".zip" u) resp z n m
              eq_refl Hg' Hz Hst eq_refl Hfind)
    as (wc & E2 & Hcf & Hcc & Hcr & Hce & _).
  assert (Hc' : config_file (env wc) = Ok data) by (rewrite Hce, Hbe; exact Hc).
  destruct (smb_init_attrs tgz wc data Hc' Hwf)
    as (a & wd & E3 & Hsamba & Hsd & Hde & Hdf & Hdc & Hdr).
  assert (Hcur : fs wd !! n = Some (member_data m)).
  { rewrite Hdf, Hcf. apply lookup_insert_eq. }
  assert (Hprev : forall p, fs wd !! prev_sql_file script = Some p ->
                            Sha1.sha1_hex p <> Sha1.sha1_hex (member_data m)).
  { intros p Hp. apply Hdiff. rewrite Hdf, Hcf in Hp.
    rewrite lookup_insert_ne in Hp by exact Hnp. rewrite Hbf in Hp. exact Hp. }
  destruct (check_file_version_new script wd n (member_data m) eq_refl Hcur Hprev)
    as (w1 & E4 & H1e & H1f & H1c & H1r).
  assert (Ed : detect w = (Ok (script, MkServer tgz (Some a), true), w1)).
  { unfold detect.
    rewrite (bind_ok _ _ _ _ _ E0), (bind_ok _ _ _ _ _ E1), (bind_ok _ _ _ _ _ E2).
    change (name_tgz script) with tgz.
    rewrite (bind_ok _ _ _ _ _ E3), (bind_ok _ _ _ _ _ E4). reflexivity. }
  assert (Hnt : n <> tgz) by apply with_ext_sql_not_tgz.
  assert (Hpt : "./prev_dump.sql" <> tgz).
  { intros E. symmetry in E. exact (name_tgz_not_prev _ E). }
  destruct (compress_targz_full script w1 n eq_refl Hnp Hnt Hpt)
    as (w2 & E5 & H2p & H2n & H2t & H2e & H2r & H2c).
  assert (Henv2 : env w2 = env w) by congruence.
  set (smb := MkServer tgz (Some a)).
  set (a1 := MkAttrs (ip a) (hostname a) (username a) (password a) (save_days a)
                     (sharename a) (path a) (Some (MkConn true))).
  set (smb1 := MkServer tgz (Some a1)).
  assert (E6 : connect smb w2 = (Ok smb1, add_call SmbConnect w2)).
  { unfold connect, getattrs, lib_connect. run. rewrite Henv2, Hconn. reflexivity. }
  destruct H2t as [content H2t].
  destruct (send_file_ok smb1 a1 (MkConn true) (add_call SmbConnect w2) content
              eq_refl eq_refl eq_refl H2t ltac:(simpl; rewrite Henv2; exact Hstore))
    as (w4 & E7 & H4e & H4f & H4r & H4c).
  destruct (check_file_frame smb1 w4) as (r5 & w5 & E8 & H5e & H5f & H5r).
  destruct (check_server_safe smb1 a1 w5 eq_refl)
    as (w6 & cs & E9 & H6c & H6f & H6e & _ & H6d & H6n).
  destruct (disconnect_ok smb1 a1 (MkConn true) w6 eq_refl eq_refl) as (smb2 & E10).
  assert (E11 : transfer smb w2 = (Ok tt, add_call SmbClose w6)).
  { unfold transfer, try_except.
    rewrite (bind_ok _ _ _ _ _ E6), (bind_ok _ _ _ _ _ E7), (bind_ok _ _ _ _ _ E8),
      (bind_ok _ _ _ _ _ E9), (bind_ok _ _ _ _ _ E10). reflexivity. }
  assert (Hfs6 : fs w6 = fs w2) by (rewrite H6f, H5f, H4f; reflexivity).
  assert (Henv5 : env w5 = env w) by (rewrite H5e, H4e; exact Henv2).
  assert (Hrem4 : remote w5 = store tgz (remote w)).
  { rewrite H5r, H4r. simpl. f_equal. congruence. }
  assert (Hkeep : forall g, In g (remote w5) ->
            (isDirectory g = false -> filename g = tgz \/
               forall md, Date.minus_days (today (env w)) (retention data) = Ok md ->
                          expired md g = false) ->
            In g (remote w6)).
  { intros g Hin Hg0.
    destruct (Date.minus_days (today (env w5)) (save_days a1)) as [md | e] eqn:Em.
    - apply (proj2 (H6d md eq_refl)); [exact Hin |].
      destruct (isDirectory g) eqn:Edir.
      { unfold expired. rewrite Edir. reflexivity. }
      simpl in Em. rewrite Henv5, Hsd in Em.
      destruct (Hg0 eq_refl) as [Hname | Hfresh]; [| exact (Hfresh md Em)].
      destruct g as [name dir]. simpl in Hname, Edir. subst name dir.
      unfold tgz. rewrite (expired_age _ _ _ (today (env w)) Hvalid Hyear Em).
      apply Z.ltb_ge. lia.
    - rewrite (proj1 (H6n (or_intror eq_refl))). exact Hin. }
  exists (set_fs (delete tgz) (add_call SendNotificationEmail (add_call SmbClose w6))).
  split; [| split; [| split; [| split; [| split; [| split; [| split]]]]]].
  - unfold main. rewrite (bind_ok _ _ _ _ _ Ed). unfold after_detection.
    rewrite (bind_ok (compress_targz script ;;; transfer smb) _ w1 tt (add_call SmbClose w6)).
    + reflexivity.
    + rewrite (bind_ok _ _ _ _ _ E5). exact E11.
  - simpl. rewrite lookup_delete_ne by (intros E; symmetry in E; exact (Hpt E)).
    rewrite Hfs6. change "./prev_dump.sql" with (prev_sql_file script).
    rewrite H2p, H1f. exact Hcur.
  - simpl. rewrite lookup_delete_ne by (intros E; symmetry in E; exact (Hnt E)).
    rewrite Hfs6. exact H2n.
  - simpl. apply lookup_delete_eq.
  - simpl.
    destruct (store_spec tgz (remote w)) as (Hex & _ & _).
    apply existsb_exists in Hex as (g0 & Hin & Hname).
    apply existsb_exists. exists g0. split; [| exact Hname].
    apply Hkeep; [rewrite Hrem4; exact Hin |].
    intros _. left. apply String.eqb_eq in Hname. symmetry. exact Hname.
  - intros md g Hmd Hin Hexp. simpl. apply Hkeep.
    + rewrite Hrem4. apply (proj1 (proj2 (store_spec tgz (remote w)))). exact Hin.
    + intros _. right. intros md' Hmd'. congruence.
  - simpl. apply in_or_app. left. apply in_or_app. left.
    rewrite H6c. apply in_or_app. left.
    pose proof (grows_check_file smb1 w4) as G5. rewrite E8 in G5.
    apply (grows_called w4 w5 _ G5). rewrite H4c. apply in_or_app. left.
    simpl. apply in_or_app. left. exact H2c.
  - simpl. apply in_or_app. right. left. reflexivity.
Qed.

(** X18.  A run that finds the dump it has already.  With a well-formed
    configuration that switches the reports off and whose dump is an
    entry of the working directory other than the retained copy, a
    server that serves a zip container holding the dump
    and a retained copy of the same SHA-1 digest, [main] ends normally
    whenever [connect(ip)] returns or times out: the extracted file is
    deleted, the retained copy is the one of the start, and between the
    fetch and the report the run makes none but the calls of a session
    that transfers nothing (no archive is opened, no file is stored). *)
Theorem main_skips_unchanged_dump w data f resp z m p :
  config_file (env w) = Ok data ->
  well_formed data = true ->
  reports_off data = true ->
  getitem data "file" = Ok (JStr f) ->
  apart (Str.with_ext ".sql" f) = true ->
  http_get (env w) = Ok resp ->
  (400 <=? status_code resp) && (status_code resp <? 600) = false ->
  zip_body resp = Some z ->
  List.find (fun x => String.eqb (Str.with_ext ".sql" f) (member_name x)) (rev z) = Some m ->
  fs w !! "./prev_dump.sql" = Some p ->
  Sha1.sha1_hex p = Sha1.sha1_hex (member_data m) ->
  match smb_connect (env w) with
  | Ok _ => True
  | Raise e => isinstance e SMBTimeout || isinstance e TimeoutError = true
  end ->
  exists w' cs,
    main w = (Ok tt, w')
    /\ fs w' !! "./prev_dump.sql" = Some p
    /\ fs w' !! Str.with_ext ".sql" f = None
    /\ calls w' = calls w ++ HttpGet :: cs ++ [SendNotificationEmail]
    /\ forallb idle_call cs = true.
Proof.
  intros Hc Hwf _ Hfile Hap Hg Hst Hz Hfind Hp Hsame Hconn.
  pose proof (apart_not_retained _ Hap) as Hnp. clear Hap.
  set (tgz := Date.strftime_Ydm (today (env w)) +:+ ".tgz").
  set (n := Str.with_ext ".sql" f) in *.
  set (s0 := MkZip tgz "./prev_dump.sql" None None None).
  assert (E0 : ZipM.init w = (Ok s0, w)) by reflexivity.
  destruct (get_config_well_formed s0 w data Hc Hwf)
    as (u & f' & wb & Hf' & E1 & Hbe & Hbf & Hbc).
  assert (f' = f) by congruence. subst f'.
  set (script := MkZip (name_tgz s0) (prev_sql_file s0) (Some (Str.with_ext ".zip" u))
                       (Some (Str.last_segment (Str.with_ext ".zip" u)))
                       (Some (Str.with_ext ".sql" f))) in *.
  assert (Hg' : http_get (env wb) = Ok resp) by (rewrite Hbe; exact Hg).
  destruct (download_unzip_ok script wb (Str.with_ext ".zip" u) resp z n m
              eq_refl Hg' Hz Hst eq_refl Hfind)
    as (wc & E2 & Hcf & Hcc & Hcr & Hce & _).
  assert (Hc' : config_file (env wc) = Ok data) by (rewrite Hce, Hbe; exact Hc).
  destruct (smb_init_attrs tgz wc data Hc' Hwf)
    as (a & wd & E3 & Hsamba & Hsd & Hde & Hdf & Hdc & Hdr).
  assert (Hcur : fs wd !! n = Some (member_data m)).
  { rewrite Hdf, Hcf. apply lookup_insert_eq. }
  assert (Hprev : fs wd !! prev_sql_file script = Some p).
  { rewrite Hdf, Hcf. rewrite lookup_insert_ne by exact Hnp. rewrite Hbf. exact Hp. }
  destruct (check_file_version_same script wd n (member_data m) p eq_refl Hcur Hprev Hsame)
    as (w1 & E4 & H1e & H1f & H1c & H1r).
  assert (Ed : detect w = (Ok (script, MkServer tgz (Some a), false), w1)).
  { unfold detect.
    rewrite (bind_ok _ _ _ _ _ E0), (bind_ok _ _ _ _ _ E1), (bind_ok _ _ _ _ _ E2).
    change (name_tgz script) with tgz.
    rewrite (bind_ok _ _ _ _ _ E3), (bind_ok _ _ _ _ _ E4). reflexivity. }
  assert (Henv1 : env w1 = env w) by congruence.
  assert (Hpt : "./prev_dump.sql" <> tgz).
  { intros E. symmetry in E. exact (name_tgz_not_prev _ E). }
  set (smb := MkServer tgz (Some a)).
  destruct (sweep_only_returns smb a w1 eq_refl ltac:(rewrite Henv1; exact Hconn))
    as (w2 & E5).
  pose proof (only_idle_sweep_only smb w1) as (cs & Hcs & Pcs). rewrite E5 in Hcs.
  simpl in Hcs.
  pose proof (fs_frame_nil _ _ (fsf_sweep_only [] smb w1)) as Hfs2. rewrite E5 in Hfs2.
  simpl in Hfs2.
  exists (set_fs (delete tgz) (add_call SendNotificationEmail w2)), cs.
  split; [| split; [| split; [| split]]].
  - unfold main. rewrite (bind_ok _ _ _ _ _ Ed). unfold after_detection.
    rewrite (bind_ok _ _ _ _ _ E5). reflexivity.
  - simpl. rewrite lookup_delete_ne by (intros E; symmetry in E; exact (Hpt E)).
    rewrite Hfs2, H1f. rewrite lookup_delete_ne by exact Hnp. exact Hprev.
  - simpl. destruct (String.eqb_spec tgz n) as [<- | Hne].
    + apply lookup_delete_eq.
    + rewrite lookup_delete_ne by exact Hne. rewrite Hfs2, H1f. apply lookup_delete_eq.
  - simpl. rewrite Hcs, H1c, Hdc, Hcc, Hbc, <- !app_assoc. reflexivity.
  - exact Pcs.
Qed.

(** X19.  Whatever the share answers, [check_server] returns normally
    and leaves on the share every archive that [Zip.__init__] named on a
    day that is at most [save_days] days before today. *)
Theorem check_server_keeps_recent self a w d g :
  attrs self = Some a ->
  valid d = true -> 1000 <= Date.year d ->
  Date.toordinal (today (env w)) - Date.toordinal d <= save_days a ->
  In g (remote w) ->
  filename g = Date.strftime_Ydm d +:+ ".tgz" ->
  exists w', check_server self w = (Ok tt, w') /\ In g (remote w').
Proof.
  intros Ha Hv Hy Hage Hin Hname.
  destruct (check_server_safe self a w Ha) as (w' & cs & E & _ & _ & _ & _ & Hd & Hn).
  exists w'. split; [exact E |].
  destruct (Date.minus_days (today (env w)) (save_days a)) as [md | e] eqn:Em.
  - apply (proj2 (Hd md eq_refl)); [exact Hin |].
    destruct g as [name dir]. simpl in Hname. subst name.
    destruct dir; [reflexivity |].
    rewrite (expired_age _ _ _ d Hv Hy Em). apply Z.ltb_ge. lia.
  - rewrite (proj1 (Hn (or_intror eq_refl))). exact Hin.
Qed.

(** ** The archive step, case by case *)

(** X20.  [compress_targz] for a dump and an archive that are two
    entries of the working directory, neither of them the retained copy
    [./prev_dump.sql].  When the dump is not in the working
    directory: one ERROR event, an archive file that holds no member, and
    the retained copy is deleted all the same, so that no retained copy is
    left.  When the dump is there and [tarfile] adds it: one INFO event,
    the archive holds the dump under its name, and the dump becomes the
    retained copy.  When [tarfile] raises on the dump: one ERROR event and
    an archive file that holds no member. *)
Theorem compress_targz_outcomes self w n :
  prev_sql_file self = "./prev_dump.sql" ->
  name_sql_file self = Some n ->
  apart n = true -> apart (name_tgz self) = true -> n <> name_tgz self ->
  (fs w !! n = None ->
   exists w',
     compress_targz self w = (Ok tt, w')
     /\ logged w w' [Event ERROR "Compress File into TAR"
                       (Some "Couldn't find the SQL dump.")]
     /\ fs w' !! name_tgz self = Some (targz_empty (env w))
     /\ fs w' !! "./prev_dump.sql" = None)
  /\ (forall content, fs w !! n = Some content -> tar_add (env w) = None ->
      exists w',
        compress_targz self w = (Ok tt, w')
        /\ logged w w' [Event INFO "Compress File into TAR"
                          (Some "Compression into archive successful.")]
        /\ fs w' !! name_tgz self = Some (targz (env w) n content)
        /\ fs w' !! "./prev_dump.sql" = Some content
        /\ fs w' !! n = None)
  /\ (forall content e, fs w !! n = Some content -> tar_add (env w) = Some e ->
      exists msg w',
        compress_targz self w = (Ok tt, w')
        /\ logged w w' [Event ERROR "Compress File into TAR" (Some msg)]
        /\ fs w' !! name_tgz self = Some (targz_empty (env w))
        /\ fs w' !! "./prev_dump.sql" = Some content).
Proof.
  intros Hprev Hn Han Hat Hnt.
  assert (Hnp : n <> prev_sql_file self)
    by (rewrite Hprev; apply apart_not_retained; exact Han).
  assert (Hpt : prev_sql_file self <> name_tgz self)
    by (rewrite Hprev; intros E; symmetry in E; exact (apart_not_retained _ Hat E)).
  rewrite <- Hprev. clear Han Hat.
  assert (Hrot : forall w1 f1,
            fs w1 = <[name_tgz self := f1]> (fs w) ->
            exists w',
              rotate self w1 = (Ok tt, w')
              /\ log w' = log w1
              /\ fs w' !! name_tgz self = Some f1
              /\ fs w' !! prev_sql_file self = fs w !! n
              /\ fs w' !! n = None).
  { intros w1 f1 Hf1. rewrite (rotate_spec self w1 n Hn).
    eexists. split; [reflexivity |]. split; [reflexivity |]. simpl. rewrite Hf1.
    assert (H1 : forall f : gmap string Sha1.bytes,
               <[name_tgz self := f1]> f !! prev_sql_file self = f !! prev_sql_file self).
    { intros f. apply lookup_insert_ne. congruence. }
    assert (H2 : forall f : gmap string Sha1.bytes,
               <[name_tgz self := f1]> f !! n = f !! n).
    { intros f. apply lookup_insert_ne. congruence. }
    rewrite H1.
    destruct (fs w !! prev_sql_file self) as [q |] eqn:Ep.
    - rewrite lookup_delete_ne by congruence. rewrite H2. unfold rename.
      rewrite lookup_delete_ne by congruence. rewrite H2.
      destruct (fs w !! n) as [c |] eqn:En.
      + rewrite lookup_insert_ne by congruence.
        rewrite lookup_delete_ne by congruence.
        rewrite lookup_delete_ne by congruence.
        rewrite lookup_insert_eq, lookup_insert_eq.
        rewrite lookup_insert_ne by congruence. rewrite lookup_delete_eq. auto.
      + rewrite lookup_delete_ne by congruence. rewrite lookup_insert_eq.
        rewrite lookup_delete_eq, lookup_delete_ne by congruence. rewrite H2. auto.
    - rewrite H2. unfold rename. rewrite H2.
      destruct (fs w !! n) as [c |] eqn:En.
      + rewrite lookup_insert_ne by congruence.
        rewrite lookup_delete_ne by congruence.
        rewrite lookup_insert_eq, lookup_insert_eq.
        rewrite lookup_insert_ne by congruence. rewrite lookup_delete_eq. auto.
      + rewrite lookup_insert_eq, H1, H2. auto. }
  split; [| split].
  - intros Hmiss.
    assert (Ea : exists w1,
               archive self w = (Ok tt, w1)
               /\ fs w1 = <[name_tgz self := targz_empty (env w)]> (fs w)
               /\ events (log w1)
                  = events (log w) ++ [Event ERROR "Compress File into TAR"
                                         (Some "Couldn't find the SQL dump.")]).
    { unfold archive, tar_add_member. rewrite Hn. run.
      rewrite lookup_insert_ne by congruence. rewrite Hmiss. run.
      eexists. split; [reflexivity |]. auto. }
    destruct Ea as (w1 & Ea & Hf1 & Hl1).
    destruct (Hrot w1 _ Hf1) as (w' & Er & Hlog & Ht & Hp & _).
    exists w'. split; [| split; [| split]].
    + unfold compress_targz. rewrite (bind_ok _ _ _ _ _ Ea). exact Er.
    + unfold logged. rewrite Hlog. exact Hl1.
    + exact Ht.
    + rewrite Hp. exact Hmiss.
  - intros content Hc Htar.
    assert (Ea : exists w1,
               archive self w = (Ok tt, w1)
               /\ fs w1 = <[name_tgz self := targz (env w) n content]> (fs w)
               /\ events (log w1)
                  = events (log w) ++ [Event INFO "Compress File into TAR"
                                         (Some "Compression into archive successful.")]).
    { unfold archive, tar_add_member. rewrite Hn. run.
      rewrite lookup_insert_ne by congruence. rewrite Hc. run. rewrite Htar. run.
      eexists. split; [reflexivity |]. simpl. rewrite insert_insert_eq. auto. }
    destruct Ea as (w1 & Ea & Hf1 & Hl1).
    destruct (Hrot w1 _ Hf1) as (w' & Er & Hlog & Ht & Hp & Hgone).
    exists w'. split; [| split; [| split; [| split]]].
    + unfold compress_targz. rewrite (bind_ok _ _ _ _ _ Ea). exact Er.
    + unfold logged. rewrite Hlog. exact Hl1.
    + exact Ht.
    + rewrite Hp. exact Hc.
    + exact Hgone.
  - intros content e Hc Htar.
    assert (Ea : exists msg w1,
               archive self w = (Ok tt, w1)
               /\ fs w1 = <[name_tgz self := targz_empty (env w)]> (fs w)
               /\ events (log w1)
                  = events (log w) ++ [Event ERROR "Compress File into TAR" (Some msg)]).
    { unfold archive, tar_add_member. rewrite Hn. run.
      rewrite lookup_insert_ne by congruence. rewrite Hc. run. rewrite Htar. run.
      destruct (isinstance e CompressionError); [|
      destruct (isinstance e FileNotFoundError); [|
      destruct (isinstance e ReadError); [|
      destruct (isinstance e TarError); [|
      rewrite isinstance_Exception]]]];
      run; eexists; eexists; (split; [reflexivity |]); auto. }
    destruct Ea as (msg & w1 & Ea & Hf1 & Hl1).
    destruct (Hrot w1 _ Hf1) as (w' & Er & Hlog & Ht & Hp & _).
    exists msg, w'. split; [| split; [| split]].
    + unfold compress_targz. rewrite (bind_ok _ _ _ _ _ Ea). exact Er.
    + unfold logged. rewrite Hlog. exact Hl1.
    + exact Ht.
    + rewrite Hp. exact Hc.
Qed.

End Run.


(** ** Change detection *)

Section Detection.

Import ZipM SMB Main.


(** C9.  The digest does not depend on how the content is cut: feeding
    any list of chunks to [update] gives the digest of their concatenation,
    the reading loop gives the digest of the whole content for every
    positive chunk size, in particular for the 65536 bytes of
    [check_file_version]; two files compare equal exactly when the SHA-1
    digests of their contents are equal. *)
Theorem fingerprint_chunk_invariant :
  (forall chunks : list Sha1.bytes,
     Sha1.hexdigest (fold_left Sha1.update chunks Sha1.new)
     = Sha1.sha1_hex (concat chunks))
  /\ (forall n content,
        Sha1.hexdigest (read_loop (S n) Sha1.new content) = Sha1.sha1_hex content)
  /\ (forall content, file_hexdigest content = Sha1.sha1_hex content)
  /\ (forall a b,
        file_hexdigest a = file_hexdigest b <-> Sha1.sha1_hex a = Sha1.sha1_hex b).
Proof.
  split; [| split; [| split]].
  - intros chunks. unfold Sha1.sha1_hex. rewrite update_chunks by apply new_short.
    reflexivity.
  - intros n content. unfold Sha1.sha1_hex.
    rewrite read_loop_update by apply new_short. reflexivity.
  - apply file_hexdigest_sha1.
  - intros a b. rewrite !file_hexdigest_sha1. tauto.
Qed.

End Detection.

(** ** The scenarios, run *)

Section Runs.

Import ZipM SMB Main Scenario.

Example sha1_abc :
  Sha1.sha1_hex [Byte.x61; Byte.x62; Byte.x63]
  = "a9993e364706816aba3e25717850c26c9cd0d89d".
Proof. vm_compute. reflexivity. Qed.

Example sha1_empty :
  Sha1.sha1_hex [] = "da39a3ee5e6b4b0d3255bfef95601890afd80709".
Proof. vm_compute. reflexivity. Qed.

Example name_of_the_day :
  Date.strftime_Ydm (Date.Mk 2024 3 15) +:+ ".tgz" = "20241503.tgz".
Proof. vm_compute. reflexivity. Qed.

Example date_of_a_name :
  entry_date (MkShared "20241503.tgz" false) = Ok (Date.Mk 2024 3 15).
Proof. vm_compute. reflexivity. Qed.

Example date_of_a_short_name :
  entry_date (MkShared "2024153.tgz" false) = Ok (Date.Mk 2024 3 15).
Proof. vm_compute. reflexivity. Qed.

Example no_date_in_a_name :
  is_ok (entry_date (MkShared "notes.txt" false)) = false
  /\ is_ok (entry_date (MkShared "20243102.tgz" false)) = false
  /\ is_ok (entry_date (MkShared "20241231.tgz" false)) = false.
Proof. vm_compute. repeat split; reflexivity. Qed.

Example seven_days_before :
  Date.minus_days (Date.Mk 2024 3 5) 7 = Ok (Date.Mk 2024 2 27).
Proof. vm_compute. reflexivity. Qed.

Example int_of_a_week :
  int (JStr "a week") = Raise (Exn ValueError "invalid literal for int() with base 10")
  /\ int (JStr " 14 ") = Ok 14
  /\ is_ok (int JNull) = false.
Proof. vm_compute. repeat split; reflexivity. Qed.


(** Against C1 as stated: the archive of the first of January 2020 is a
    file, its date is strictly before [today - 7], and the sweep leaves it
    on the share, because a file that is no archive is listed before it. *)
Lemma sweep_misses_expired_archive :
  let w := world (outside served) ∅ share_with_notes in
  let old := MkShared "20200101.tgz" false in
  Date.minus_days (today (env w)) 7 = Ok (Date.Mk 2024 3 8)
  /\ entry_date old = Ok (Date.Mk 2020 1 1)
  /\ expired (Date.Mk 2024 3 8) old = true
  /\ fst (check_server (server (Some (MkConn true))) w) = Ok tt
  /\ remote (snd (check_server (server (Some (MkConn true))) w)) = share_with_notes
  /\ calls (snd (check_server (server (Some (MkConn true))) w)) = [SmbListPath "backups/"].
Proof. vm_compute. repeat split; reflexivity. Qed.

(** The sweep of the fifteenth of March, seven days kept: of the archives
    of ten, seven, five and two days ago only the first is deleted. *)
Lemma check_server_evicts_witness :
  let w := world (outside served) ∅ share in
  let self := server (Some (MkConn true)) in
  attrs self = Some (attributes (Some (MkConn true)))
  /\ smb_list (env w) = None
  /\ (forall p, smb_delete (env w) p = None)
  /\ Date.minus_days (today (env w)) 7 = Ok (Date.Mk 2024 3 8)
  /\ exists w',
       check_server self w = (Ok tt, w')
       /\ calls w' = [SmbListPath "backups/"; SmbDeleteFiles "backups/20240503.tgz"]
       /\ remote w' = [MkShared "." true; MkShared ".." true;
                       MkShared "20240803.tgz" false; MkShared "20241003.tgz" false;
                       MkShared "20241303.tgz" false].
Proof.
  intros w self.
  split; [reflexivity |]. split; [reflexivity |]. split; [intros p; reflexivity |].
  split; [reflexivity |].
  destruct (check_server_evicts self (attributes (Some (MkConn true))) (MkConn true)
              w (Date.Mk 2024 3 8) eq_refl eq_refl eq_refl eq_refl
              (fun p => eq_refl) eq_refl)
    as (w' & E & Hc & Hr & _).
  exists w'. split; [exact E |]. split.
  - rewrite Hc. vm_compute. reflexivity.
  - rewrite Hr. vm_compute. reflexivity.
Defined.

(** Against C4 as stated: the archive listed after [README] is expired
    and stays on the share; without [README] in the listing the same sweep
    deletes it. *)
Lemma sweep_stops_at_readme :
  let self := server (Some (MkConn true)) in
  let w := world (outside served) ∅ share_mixed in
  let w_clean := world (outside served) ∅
                   [MkShared "20240503.tgz" false; MkShared "20240603.tgz" false] in
  expired (Date.Mk 2024 3 8) (MkShared "20240603.tgz" false) = true
  /\ remote (snd (check_server self w))
     = [MkShared "README" false; MkShared "20240603.tgz" false]
  /\ remote (snd (check_server self w_clean)) = [].
Proof. vm_compute. repeat split; reflexivity. Qed.

(** The same sweep on the share where [README] stands between two old
    archives. *)
Lemma check_server_stops_witness :
  let self := server (Some (MkConn true)) in
  let w := world (outside served) ∅ share_mixed in
  (forall p, smb_delete (env w) p = None)
  /\ Date.minus_days (today (env w)) 7 = Ok (Date.Mk 2024 3 8)
  /\ remote w = [MkShared "20240503.tgz" false] ++ MkShared "README" false
                 :: [MkShared "20240603.tgz" false]
  /\ forallb readable [MkShared "20240503.tgz" false] = true
  /\ readable (MkShared "README" false) = false
  /\ exists w',
       check_server self w = (Ok tt, w')
       /\ calls w' = [SmbListPath "backups/"; SmbDeleteFiles "backups/20240503.tgz"]
       /\ remote w' = [MkShared "README" false; MkShared "20240603.tgz" false].
Proof.
  intros self w.
  split; [intros p; reflexivity |]. split; [reflexivity |]. split; [reflexivity |].
  split; [reflexivity |]. split; [reflexivity |].
  destruct (check_server_stops_at_unreadable self (attributes (Some (MkConn true)))
              (MkConn true) w (Date.Mk 2024 3 8)
              [MkShared "20240503.tgz" false] (MkShared "README" false)
              [MkShared "20240603.tgz" false]
              eq_refl eq_refl eq_refl eq_refl (fun p => eq_refl) eq_refl eq_refl
              eq_refl eq_refl)
    as (w' & e & E & _ & _ & Hc & Hr).
  exists w'. split; [exact E |]. split.
  - rewrite Hc. vm_compute. reflexivity.
  - rewrite Hr. vm_compute. reflexivity.
Defined.

(** The run of the day the server answers 404, a retained copy being
    there. *)
Lemma main_exception_escapes_witness :
  let w := world (outside not_found) (retained dump) share in
  config_file (env w) = Ok config
  /\ well_formed config = true
  /\ getitem config "file" = Ok (JStr "dump")
  /\ http_get (env w) = Ok (MkResponse 404 None)
  /\ fs w !! "./prev_dump.sql" = Some dump
  /\ fs w !! "dump.sql" = None
  /\ exists w',
       main w = (Raise (Exn FileNotFoundError "dump.sql"), w')
       /\ calls w' = [HttpGet]
       /\ fs w' = retained dump.
Proof.
  intros w.
  split; [reflexivity |]. split; [reflexivity |]. split; [reflexivity |].
  split; [reflexivity |]. split; [reflexivity |]. split; [reflexivity |].
  exact (proj1 main_exception_escapes w config (MkResponse 404 None) "dump" dump
           eq_refl eq_refl eq_refl eq_refl eq_refl eq_refl eq_refl).
Defined.



(** [send_file] before any [connect], and after a [connect] that timed
    out. *)
Lemma send_file_not_connected_witness :
  let w := world outside_timeout (retained dump) share in
  attrs (server None) = Some (attributes None)
  /\ send_file (server None) w = (Ok tt, w)
  /\ exists self' w1 x w2,
       connect (server None) w = (Ok self', w1)
       /\ send_file self' w1 = (Raise x, w2)
       /\ events (log w2) = [Event ERROR "SMB Connection" (Some "Unable to connect to SMB share")].
Proof.
  intros w.
  destruct (send_file_not_connected (server None) (attributes None) w eq_refl)
    as (H1 & H2 & _).
  split; [reflexivity |]. split; [apply H1; reflexivity |].
  destruct (H2 (Exn SMBTimeout "Timed out") eq_refl eq_refl)
    as (self' & w1 & E1 & L1 & x & w2 & E2 & L2 & _).
  exists self', w1, x, w2. split; [exact E1 |]. split; [exact E2 |].
  unfold logged in L1, L2. rewrite L2, L1. reflexivity.
Defined.

(** [check_file] on a share whose listing fails. *)
Lemma check_file_outcomes_witness :
  let self := server (Some (MkConn true)) in
  let w := world outside_list_fails ∅ share in
  attrs self = Some (attributes (Some (MkConn true)))
  /\ smb_list (env w) = Some (Exn OperationFailure "Failed to list backups/")
  /\ exists w',
       check_file self w = (Ok None, w')
       /\ events (log w')
          = [Event ERROR "File Uploaded"
               (Some "Error encountered: Failed to list backups/")].
Proof.
  intros self w.
  split; [reflexivity |]. split; [reflexivity |].
  destruct (check_file_outcomes self (attributes (Some (MkConn true))) w eq_refl)
    as (_ & _ & H).
  destruct (H (MkConn true) (Exn OperationFailure "Failed to list backups/")
              eq_refl eq_refl eq_refl) as (w' & E & L).
  exists w'. split; [exact E |]. unfold logged in L. rewrite L. reflexivity.
Defined.

(** [__init__] reading ["save_days": "a week"]. *)
Lemma init_save_days_default_witness :
  let w := world (outside served) ∅ share in
  config_file (env w) = Ok config
  /\ getitem config "save_days" = Ok (JStr "a week")
  /\ int (JStr "a week") = Raise (Exn ValueError "invalid literal for int() with base 10")
  /\ exists self a w',
       SMB.init "20241503.tgz" w = (Ok self, w')
       /\ attrs self = Some a
       /\ save_days a = 7
       /\ events (log w') = [Event INFO "JSON read" (Some "Time format not supported.")].
Proof.
  intros w.
  split; [reflexivity |]. split; [reflexivity |]. split; [reflexivity |].
  destruct (init_save_days_default "20241503.tgz" w config
              (JObj [("ip", JStr "10.0.0.1"); ("hostname", JStr "nas");
                     ("user", JStr "backup"); ("password", JStr "secret");
                     ("sharename", JStr "share"); ("path", JStr "backups")])
              (JStr "10.0.0.1") (JStr "nas") (JStr "backup") (JStr "secret")
              (JStr "share") "backups" (JStr "a week")
              (Exn ValueError "invalid literal for int() with base 10")
              eq_refl eq_refl eq_refl eq_refl eq_refl eq_refl eq_refl eq_refl
              eq_refl eq_refl eq_refl)
    as (self & a & w' & E & Ha & Hd & L & _).
  exists self, a, w'. split; [exact E |]. split; [exact Ha |]. split; [exact Hd |].
  unfold logged in L. rewrite L. reflexivity.
Defined.




End Runs.

(** ** The further scenarios, run *)

Section MoreRuns.

Import ZipM SMB Main Scenario Cases.

(** The bundle of the scenarios is fetched and its member extracted. *)
Lemma download_unzip_extracts_witness :
  let w := world (outside served) ∅ share in
  url_zip script = Some "http://intranet/export/dump.zip"
  /\ http_get (env w) = Ok (MkResponse 200 (Some [MkMember "dump.sql" dump true]))
  /\ exists w',
       download_unzip script w = (Ok tt, w')
       /\ fs w' !! "dump.sql" = Some dump
       /\ calls w' = [HttpGet].
Proof.
  intros w. split; [reflexivity |]. split; [reflexivity |].
  destruct (download_unzip_extracts script w "http://intranet/export/dump.zip"
              (MkResponse 200 (Some [MkMember "dump.sql" dump true]))
              [MkMember "dump.sql" dump true] "dump.sql" (MkMember "dump.sql" dump true)
              eq_refl eq_refl eq_refl eq_refl eq_refl eq_refl)
    as (w' & E & Hf & Hc & _).
  exists w'. split; [exact E |]. split; [rewrite Hf; reflexivity | exact Hc].
Defined.

(** A 404 whose body is an error page. *)
Lemma download_unzip_error_page_witness :
  let w := world (outside not_found) ∅ share in
  http_get (env w) = Ok (MkResponse 404 None)
  /\ exists w',
       download_unzip script w = (Ok tt, w')
       /\ events (log w')
          = [Event ERROR "Request ZIP" (Some "Error encountered: File is not a zip file")].
Proof.
  intros w. split; [reflexivity |].
  destruct (proj1 (download_unzip_error_page script w "http://intranet/export/dump.zip"
                     (MkResponse 404 None) eq_refl eq_refl) eq_refl)
    as (w' & E & L & _).
  exists w'. split; [exact E |]. unfold logged in L. rewrite L. reflexivity.
Defined.

(** [get_config] when [config_file.json] is not there. *)
Lemma get_config_failures_witness :
  let w := world outside_no_config ∅ share in
  isinstance (Exn FileNotFoundError "No such file or directory: 'config_file.json'") OSError
  = true
  /\ exists x w',
       get_config script w = (Raise x, w')
       /\ cls x = AttributeError
       /\ nb_error (log w') = 3%nat.
Proof.
  intros w. split; [reflexivity |].
  destruct (proj2 (proj2 (get_config_failures script w))
              (Exn FileNotFoundError "No such file or directory: 'config_file.json'")
              eq_refl eq_refl eq_refl eq_refl)
    as (x & w' & E & Hx & _ & Hn).
  exists x, w'. auto.
Defined.

(** The names that the configuration of the scenarios gives. *)
Lemma get_config_names_witness :
  let w := world (outside served) ∅ share in
  well_formed config = true
  /\ getitem config "email" = Ok JNull
  /\ exists url zip sql w',
       get_config script w
       = (Ok (MkZip (name_tgz script) (prev_sql_file script) (Some url) (Some zip) (Some sql)),
          w')
       /\ url = "http://intranet/export/dump.zip"
       /\ sql = "dump.sql"
       /\ no_slash zip = true.
Proof.
  intros w. split; [reflexivity |]. split; [reflexivity |].
  destruct (get_config_names script w config eq_refl eq_refl eq_refl)
    as (u & f & url & zip & sql & w' & Hu & Hf & E & Hurl & Hsql & _ & _ & Hz & _).
  exists url, zip, sql, w'. split; [exact E |].
  assert (u = "http://intranet/export/dump") by (vm_compute in Hu; congruence).
  assert (f = "dump") by (vm_compute in Hf; congruence).
  subst u f. split; [exact Hurl |]. split; [exact Hsql | exact Hz].
Defined.

(** The object that [__init__] makes of the configuration of the
    scenarios, whose path has no slash at its end. *)
Lemma init_path_ends_with_slash_witness :
  let w := world (outside served) ∅ share in
  exists self w',
    SMB.init "20241503.tgz" w = (Ok self, w')
    /\ file self = "20241503.tgz"
    /\ forall a, attrs self = Some a ->
         Str.endswith_slash (path a) = true /\ samba a = None.
Proof.
  intros w.
  destruct (SMB.init "20241503.tgz" w) as [[self | e] w'] eqn:E.
  2: { vm_compute in E. discriminate E. }
  exists self, w'. split; [reflexivity |].
  exact (init_path_ends_with_slash "20241503.tgz" w self w' E).
Defined.

(** ["save_days": " 14 "] and ["save_days": null]. *)
Lemma init_save_days_read_witness :
  let w := world (outside_days (JStr " 14 ")) ∅ share in
  let w_null := world (outside_days JNull) ∅ share in
  int (JStr " 14 ") = Ok 14
  /\ (exists self a w',
        SMB.init "20241503.tgz" w = (Ok self, w')
        /\ attrs self = Some a /\ save_days a = 14)
  /\ (exists e, SMB.init "20241503.tgz" w_null = (Raise e, w_null) /\ cls e = TypeError).
Proof.
  intros w w_null. split; [reflexivity |]. split.
  - destruct (proj1 (init_save_days_read "20241503.tgz" w (config_days (JStr " 14 "))
                (JObj [("ip", JStr "10.0.0.1"); ("hostname", JStr "nas");
                       ("user", JStr "backup"); ("password", JStr "secret");
                       ("sharename", JStr "share"); ("path", JStr "backups")])
                (JStr "10.0.0.1") (JStr "nas") (JStr "backup") (JStr "secret")
                (JStr "share") "backups" (JStr " 14 ")
                eq_refl eq_refl eq_refl eq_refl eq_refl eq_refl eq_refl eq_refl eq_refl)
                14 eq_refl)
      as (self & a & w' & E & Ha & Hd & _).
    exists self, a, w'. auto.
  - exact (proj2 (init_save_days_read "20241503.tgz" w_null (config_days JNull)
                (JObj [("ip", JStr "10.0.0.1"); ("hostname", JStr "nas");
                       ("user", JStr "backup"); ("password", JStr "secret");
                       ("sharename", JStr "share"); ("path", JStr "backups")])
                (JStr "10.0.0.1") (JStr "nas") (JStr "backup") (JStr "secret")
                (JStr "share") "backups" JNull
                eq_refl eq_refl eq_refl eq_refl eq_refl eq_refl eq_refl eq_refl eq_refl)
                I).
Defined.

(** A configuration without ["smb"]. *)
Lemma init_missing_key_witness :
  let w := world outside_without_smb ∅ share in
  smb_missing config_without_smb = Some "smb"
  /\ exists w',
       SMB.init "20241503.tgz" w = (Ok (MkServer "20241503.tgz" None), w')
       /\ events (log w') = [Event ERROR "JSON file read" (Some "smb")].
Proof.
  intros w. split; [reflexivity |].
  destruct (init_missing_key "20241503.tgz" w config_without_smb "smb" eq_refl eq_refl)
    as (w' & E & L & _).
  exists w'. split; [exact E |]. unfold logged in L. rewrite L. reflexivity.
Defined.

(** The methods of the object that this configuration leaves. *)
Lemma methods_without_attributes_witness :
  let w := world outside_without_smb ∅ share in
  let self := MkServer "20241503.tgz" None in
  attrs self = None
  /\ fst (check_server self w) = Ok tt
  /\ fst (check_file self w) = Ok None
  /\ (exists e, connect self w = (Raise e, w) /\ cls e = AttributeError).
Proof.
  intros w self. split; [reflexivity |].
  destruct (methods_without_attributes self w eq_refl)
    as ((m1 & w1 & E1 & _) & (m2 & w2 & E2 & _) & H3 & _).
  rewrite E1, E2. auto.
Defined.

(** A share that refuses the connection: the exception leaves the
    statement. *)
Lemma sweep_only_ends_iff_witness :
  let w := world outside_refused ∅ share in
  attrs (server None) = Some (attributes None)
  /\ smb_connect (env w) = Raise (Exn ConnectionRefusedError "Connection refused")
  /\ sweep_only (server None) w
     = (Raise (Exn ConnectionRefusedError "Connection refused"), add_call SmbConnect w)
  /\ ~ exists w', sweep_only (server None) w = (Ok tt, w').
Proof.
  intros w.
  destruct (sweep_only_ends_iff (server None) (attributes None) w eq_refl) as [Hiff Hr].
  split; [reflexivity |]. split; [reflexivity |]. split.
  - exact (Hr (Exn ConnectionRefusedError "Connection refused") eq_refl eq_refl).
  - intros H. apply Hiff in H. vm_compute in H. discriminate H.
Defined.

(** A share that does not answer in time, with and without an archive
    to transfer. *)
Lemma connect_timeout_branches_witness :
  let w := world outside_timeout archived share in
  attrs (server None) = Some (attributes None)
  /\ smb_connect (env w) = Raise (Exn SMBTimeout "Timed out")
  /\ fs w !! file (server None) = Some dump
  /\ (exists w', sweep_only (server None) w = (Ok tt, w') /\ remote w' = share)
  /\ (exists x w', transfer (server None) w = (Raise x, w') /\ cls x = NotConnectedError).
Proof.
  intros w.
  destruct (connect_timeout_branches (server None) (attributes None) w
              (Exn SMBTimeout "Timed out") eq_refl eq_refl eq_refl) as [H1 H2].
  split; [reflexivity |]. split; [reflexivity |]. split; [reflexivity |]. split.
  - destruct H1 as (w' & E & _ & _ & Hr). exists w'. auto.
  - destruct (H2 dump eq_refl) as (x & w' & E & Hx & _). exists x, w'. auto.
Defined.

(** The sweep of the share of the scenarios deletes the archive of ten
    days ago and nothing that is not expired. *)
Lemma check_server_deletes_only_expired_witness :
  let w := world (outside served) ∅ share in
  let self := server (Some (MkConn true)) in
  attrs self = Some (attributes (Some (MkConn true)))
  /\ Date.minus_days (today (env w)) 7 = Ok (Date.Mk 2024 3 8)
  /\ expired (Date.Mk 2024 3 8) (MkShared "20240803.tgz" false) = false
  /\ exists w',
       check_server self w = (Ok tt, w')
       /\ In (MkShared "20240803.tgz" false) (remote w').
Proof.
  intros w self. split; [reflexivity |]. split; [reflexivity |]. split; [reflexivity |].
  destruct (check_server_deletes_only_expired self (attributes (Some (MkConn true))) w
              eq_refl)
    as (w' & cs & E & _ & _ & _ & Hd & _).
  exists w'. split; [exact E |].
  apply (proj2 (Hd (Date.Mk 2024 3 8) eq_refl)); [| reflexivity].
  right. right. right. left. reflexivity.
Defined.

(** The archive of the day is sent and found. *)
Lemma send_then_check_witness :
  let w := world (outside served) archived share in
  let self := server (Some (MkConn true)) in
  attrs self = Some (attributes (Some (MkConn true)))
  /\ fs w !! file self = Some dump
  /\ exists w1 w2,
       send_file self w = (Ok tt, w1)
       /\ calls w1 = [SmbStoreFile "backups/20241503.tgz"]
       /\ check_file self w1 = (Ok (Some true), w2).
Proof.
  intros w self. split; [reflexivity |]. split; [reflexivity |].
  destruct (send_then_check self (attributes (Some (MkConn true))) (MkConn true) w dump
              eq_refl eq_refl eq_refl eq_refl eq_refl eq_refl)
    as (w1 & w2 & E1 & _ & Hc & _ & _ & _ & E2 & _).
  exists w1, w2. auto.
Defined.

(** The name of the fifteenth of March 2024. *)
Lemma archive_name_reads_as_its_day_witness :
  valid (Date.Mk 2024 3 15) = true
  /\ Date.strftime_Ydm (Date.Mk 2024 3 15) +:+ ".tgz" = "20241503.tgz"
  /\ entry_date (MkShared "20241503.tgz" false) = Ok (Date.Mk 2024 3 15).
Proof.
  split; [reflexivity |]. split; [reflexivity |].
  exact (proj2 (proj2 (archive_name_reads_as_its_day (Date.Mk 2024 3 15) eq_refl
                         ltac:(simpl; lia)))).
Defined.

(** Seven days kept, on the fifteenth of March: the archive of the
    seventh is expired, the one of the eighth is not. *)
Lemma retention_window_witness :
  Date.minus_days (Date.Mk 2024 3 15) 7 = Ok (Date.Mk 2024 3 8)
  /\ Date.toordinal (Date.Mk 2024 3 15) - Date.toordinal (Date.Mk 2024 3 7) = 8
  /\ expired (Date.Mk 2024 3 8) (MkShared "20240703.tgz" false) = true
  /\ ~ expired (Date.Mk 2024 3 8) (MkShared "20240803.tgz" false) = true.
Proof.
  split; [reflexivity |]. split; [reflexivity |]. split.
  - apply (proj1 (retention_window (Date.Mk 2024 3 15) 7 (Date.Mk 2024 3 8)
                    (Date.Mk 2024 3 7) eq_refl ltac:(simpl; lia) eq_refl)).
    vm_compute. reflexivity.
  - intros H.
    apply (proj1 (retention_window (Date.Mk 2024 3 15) 7 (Date.Mk 2024 3 8)
                    (Date.Mk 2024 3 8) eq_refl ltac:(simpl; lia) eq_refl)) in H.
    vm_compute in H. discriminate H.
Defined.

(** The run that crashes sends no report, the first run sends one. *)
Lemma main_report_once_witness :
  let w_crash := world (outside not_found) (retained dump) share in
  let w := world (outside served) ∅ share in
  silent (env w_crash) = true
  /\ silent (env w) = true
  /\ is_ok (fst (main w_crash)) = false
  /\ is_ok (fst (main w)) = true
  /\ (exists cs, calls (snd (main w_crash)) = cs /\ forallb not_report cs = true)
  /\ (exists cs, calls (snd (main w)) = cs ++ [SendNotificationEmail]
                 /\ forallb not_report cs = true).
Proof.
  intros w_crash w. split; [reflexivity |]. split; [reflexivity |].
  split; [reflexivity |]. split; [reflexivity |]. split.
  - destruct (main_report_once w_crash (fst (main w_crash)) (snd (main w_crash))
                eq_refl
                ltac:(destruct (main w_crash); reflexivity)) as (cs & Hc & Hp).
    exists cs. split; [| exact Hp]. rewrite Hc.
    change (is_ok (fst (main w_crash))) with false. simpl. apply app_nil_r.
  - destruct (main_report_once w (fst (main w)) (snd (main w))
                eq_refl
                ltac:(destruct (main w); reflexivity)) as (cs & Hc & Hp).
    exists cs. split; [| exact Hp]. rewrite Hc.
    change (is_ok (fst (main w))) with true. reflexivity.
Defined.

(** The first run of the scenarios: the dump is fetched, archived, sent
    and retained. *)
Lemma main_archives_new_dump_witness :
  let w := world (outside served) ∅ share in
  well_formed config = true
  /\ reports_off config = true
  /\ apart "dump.sql" = true
  /\ retention config = 7
  /\ valid (today (env w)) = true
  /\ exists w',
       main w = (Ok tt, w')
       /\ fs w' !! "./prev_dump.sql" = Some dump
       /\ fs w' !! "dump.sql" = None
       /\ fs w' !! "20241503.tgz" = None
       /\ existsb (fun g => String.eqb "20241503.tgz" (filename g)) (remote w') = true.
Proof.
  intros w. split; [reflexivity |]. split; [reflexivity |]. split; [reflexivity |].
  split; [reflexivity |]. split; [reflexivity |].
  destruct (main_archives_new_dump w config "dump"
              (MkResponse 200 (Some [MkMember "dump.sql" dump true]))
              [MkMember "dump.sql" dump true] (MkMember "dump.sql" dump true) true
              eq_refl eq_refl eq_refl eq_refl eq_refl eq_refl eq_refl eq_refl eq_refl
              ltac:(intros p H; vm_compute in H; discriminate H)
              eq_refl eq_refl eq_refl ltac:(simpl; lia) ltac:(vm_compute; discriminate))
    as (w' & E & H1 & H2 & H3 & H4 & _).
  exists w'. auto.
Defined.

(** The run of the next day that fetches the same dump. *)
Lemma main_skips_unchanged_dump_witness :
  let w := world (outside served) (retained dump) share in
  fs w !! "./prev_dump.sql" = Some dump
  /\ reports_off config = true
  /\ apart "dump.sql" = true
  /\ exists w' cs,
       main w = (Ok tt, w')
       /\ fs w' !! "./prev_dump.sql" = Some dump
       /\ fs w' !! "dump.sql" = None
       /\ calls w' = HttpGet :: cs ++ [SendNotificationEmail]
       /\ forallb idle_call cs = true.
Proof.
  intros w. split; [reflexivity |]. split; [reflexivity |]. split; [reflexivity |].
  exact (main_skips_unchanged_dump w config "dump"
           (MkResponse 200 (Some [MkMember "dump.sql" dump true]))
           [MkMember "dump.sql" dump true] (MkMember "dump.sql" dump true) dump
           eq_refl eq_refl eq_refl eq_refl eq_refl eq_refl eq_refl eq_refl eq_refl
           eq_refl eq_refl I).
Defined.

(** The archive of seven days ago is still there after the sweep. *)
Lemma check_server_keeps_recent_witness :
  let w := world (outside served) ∅ share in
  let self := server (Some (MkConn true)) in
  Date.toordinal (today (env w)) - Date.toordinal (Date.Mk 2024 3 8) = 7
  /\ In (MkShared "20240803.tgz" false) (remote w)
  /\ exists w',
       check_server self w = (Ok tt, w')
       /\ In (MkShared "20240803.tgz" false) (remote w').
Proof.
  intros w self. split; [reflexivity |].
  assert (Hin : In (MkShared "20240803.tgz" false) (remote w)).
  { right. right. right. left. reflexivity. }
  split; [exact Hin |].
  exact (check_server_keeps_recent self (attributes (Some (MkConn true))) w
           (Date.Mk 2024 3 8) (MkShared "20240803.tgz" false)
           eq_refl eq_refl ltac:(simpl; lia) ltac:(vm_compute; discriminate) Hin eq_refl).
Defined.

(** The archive step without a dump, and with a dump on which [tarfile]
    fails. *)
Lemma compress_targz_outcomes_witness :
  let w := world (outside served) (retained dump) share in
  let w_fail := world outside_tar_fails (both dump other_dump) share in
  fs w !! "dump.sql" = None
  /\ apart "dump.sql" = true
  /\ apart (name_tgz script) = true
  /\ (exists w',
        compress_targz script w = (Ok tt, w')
        /\ fs w' !! "20241503.tgz" = Some []
        /\ fs w' !! "./prev_dump.sql" = None)
  /\ (exists msg w',
        compress_targz script w_fail = (Ok tt, w')
        /\ logged w_fail w' [Event ERROR "Compress File into TAR" (Some msg)]
        /\ fs w' !! "./prev_dump.sql" = Some other_dump).
Proof.
  intros w w_fail. split; [reflexivity |]. split; [reflexivity |].
  split; [reflexivity |].
  destruct (compress_targz_outcomes script w "dump.sql" eq_refl eq_refl
              eq_refl eq_refl ltac:(discriminate))
    as (H1 & _ & _).
  destruct (compress_targz_outcomes script w_fail "dump.sql" eq_refl eq_refl
              eq_refl eq_refl ltac:(discriminate))
    as (_ & _ & H3).
  split.
  - destruct (H1 eq_refl) as (w' & E & _ & Ht & Hp). exists w'. auto.
  - destruct (H3 other_dump (Exn ReadError "unexpected end of data") eq_refl eq_refl)
      as (msg & w' & E & L & _ & Hp).
    exists msg, w'. auto.
Defined.

End MoreRuns.

(* ===================================================================== *)
(** * The report *)
(* ===================================================================== *)

Section Reporting.
Import Report Reported.
#[local] Open Scope report_scope.

Lemma rows_app (ts ss ts' ss' : list string) :
  length ts = length ss ->
  rows (ts ++ ts') (ss ++ ss') = rows ts ss +:+ rows ts' ss'.
Proof.
  revert ss; induction ts as [|t ts IH]; intros [|s ss] H; try discriminate H.
  - reflexivity.
  - simpl in H. injection H as H. cbn [rows app].
    rewrite (IH ss H). rewrite !str_app_assoc. reflexivity.
Qed.

Lemma format_rows_spec (t2 : list string) :
  forall (t1 s1 s2 : list string) (content : string),
    length t1 = length s1 -> length t2 = length s2 ->
    format_rows (t1 ++ t2) (s1 ++ s2) (seq (length t1) (length t2)) content
    = Done (content +:+ rows t2 s2).
Proof.
  induction t2 as [|t t2 IH]; intros t1 s1 [|s s2] content H1 H2; try discriminate H2.
  - simpl. rewrite str_app_nil_r. reflexivity.
  - cbn [length seq format_rows].
    rewrite (nth_error_app2 t1 (t :: t2)) by lia.
    rewrite H1 at 2. rewrite (nth_error_app2 s1 (s :: s2)) by lia.
    rewrite H1, Nat.sub_diag. cbn [nth_error].
    change (t1 ++ t :: t2) with (t1 ++ [t] ++ t2).
    change (s1 ++ s :: s2) with (s1 ++ [s] ++ s2).
    rewrite !app_assoc.
    replace (S (length s1)) with (length (t1 ++ [t]))
      by (rewrite length_app; simpl; lia).
    rewrite IH.
    + cbn [rows]. rewrite !str_app_assoc. reflexivity.
    + rewrite !length_app. simpl. lia.
    + simpl in H2. lia.
Qed.

Lemma format_notification_spec (m : Mattermost) (today : Date.date) :
  length (tasks m) = length (status m) ->
  format_notification m today
  = Done ("#### Archiving report for " +:+ strftime_BdY today +:+ nl
          +:+ rows (tasks m) (status m)).
Proof.
  intros H. unfold format_notification.
  rewrite (format_rows_spec (tasks m) [] [] (status m) _ eq_refl H).
  rewrite !str_app_assoc. reflexivity.
Qed.

Lemma setters_columns (es : list StatusEvent) (m : Mattermost) :
  fold_left (fun m e => setter (level e) (action_name e) m) es m
  = MkMattermost (tasks m ++ map action_name es)
                 (status m ++ map (fun e => symbol (level e)) es) (webhook m).
Proof.
  revert m; induction es as [|e es IH]; intros m.
  - simpl. rewrite !app_nil_r. destruct m; reflexivity.
  - cbn [fold_left]. rewrite IH. destruct e as [[] a msg]; cbn;
      rewrite <- !app_assoc; reflexivity.
Qed.

(** X21. A [Mattermost] object that has received any sequence of calls of
    [set_info], [set_warning] and [set_error] since its creation formats
    without an [IndexError]: the text is the title line with the day, the
    two heading rows and one row per call, in the order of the calls, with
    the symbol of the method. *)
Theorem format_notification_table (webhook_ : json) (es : list StatusEvent)
    (today : Date.date) :
  format_notification
    (fold_left (fun m e => setter (level e) (action_name e) m) es
               (Mattermost_init webhook_)) today
  = Done (notification today es).
Proof.
  rewrite setters_columns. rewrite format_notification_spec.
  - reflexivity.
  - cbn. rewrite ?length_app, ?length_map. reflexivity.
Qed.

Lemma emit_spec (e : StatusEvent) (d : Desk) :
  emit e d = (Done tt, MkDesk (outside d) (logged [e] (log d))
                              (logfile d ++ [record_of e]) (calls d)).
Proof.
  destruct d as [o [ne nw mm sn em se] f c].
  destruct e as [lv a [m|]]; destruct lv, mm as [m'|], em as [e'|];
    unfold logged, count; cbn [List.filter has_level level length nb_error nb_warning log];
    rewrite ?Nat.add_0_r, ?Nat.add_1_r; reflexivity.
Qed.

Lemma logged_cons (e : StatusEvent) (es : list StatusEvent) (l : Log) :
  logged es (logged [e] l) = logged (e :: es) l.
Proof.
  destruct l as [ne nw mm sn em se]. unfold logged. cbn [nb_error nb_warning mattermost email send_notification send_emails].
  f_equal.
  - unfold count. cbn [List.filter]. destruct (has_level ERROR (level e)); simpl; lia.
  - unfold count. cbn [List.filter]. destruct (has_level WARNING (level e)); simpl; lia.
  - destruct mm; cbn; [|reflexivity]. rewrite <- !app_assoc. reflexivity.
  - destruct em; cbn; [|reflexivity]. rewrite <- !app_assoc. reflexivity.
Qed.

Lemma emit_all_spec (es : list StatusEvent) :
  forall d : Desk,
    emit_all es d = (Done tt, MkDesk (outside d) (logged es (log d))
                                     (logfile d ++ map record_of es) (calls d)).
Proof.
  induction es as [|e es IH]; intros d.
  - cbn [emit_all map]. rewrite app_nil_r.
    destruct d as [o [ne nw [m|] sn [e|] se] f c]; try destruct m; try destruct e;
      unfold logged, count, ret;
      cbn [List.filter length nb_error nb_warning log mattermost email option_map
           tasks status webhook server content err_warning settings map
           send_notification send_emails outside logfile calls];
      rewrite ?Nat.add_0_r, ?app_nil_r; reflexivity.
  - cbn [emit_all]. unfold bind. rewrite emit_spec, IH. cbn [outside log logfile calls].
    rewrite logged_cons, <- app_assoc. reflexivity.
Qed.


(** ** The notification *)

Ltac rs :=
  cbn [bind ret raise lift gets modify try_except set_log add_call logging
       info error warning on_mattermost on_email add_content concat
       outside log logfile calls
       nb_error nb_warning mattermost send_notification email send_emails
       tasks status webhook server content err_warning settings
       set_info set_warning set_error append_row
       host port auth include_log title dest
       get_email get_settings set_email or_raise server_attr
       option_map fst snd].

Ltac rsin H :=
  cbn [bind ret raise lift gets modify try_except set_log add_call logging
       info error warning on_mattermost on_email add_content concat
       outside log logfile calls
       nb_error nb_warning mattermost send_notification email send_emails
       tasks status webhook server content err_warning settings
       set_info set_warning set_error append_row
       host port auth include_log title dest
       get_email get_settings set_email or_raise server_attr
       option_map fst snd] in H.

Lemma bind_Done {A B} (c : R A) (k : A -> R B) (d d' : Desk) (a : A) :
  c d = (Done a, d') -> bind c k d = k a d'.
Proof. intros H. unfold bind. rewrite H. reflexivity. Qed.

Lemma bind_Raised {A B} (c : R A) (k : A -> R B) (d d' : Desk) (e : exc) :
  c d = (Raised e, d') -> bind c k d = (Raised e, d').
Proof. intros H. unfold bind. rewrite H. reflexivity. Qed.

(** [Log.__init__] without an email configuration. *)
Lemma Log_init_no_email (notification_ webhook_ : json) (d : Desk) :
  Log_init notification_ JNull webhook_ d
  = (Done tt,
     MkDesk (outside d)
       (logged (init_events notification_)
          (MkLog 0 0
             (match notification_ with
              | JNull => None
              | _ => Some (Mattermost_init webhook_)
              end)
             (match notification_ with
              | JNull => None
              | _ => Some (if supported notification_ then notification_
                           else JStr "always")
              end)
             None None))
       (map record_of (init_events notification_)) (calls d)).
Proof.
  unfold Log_init, init_events.
  destruct notification_ as [|b|n|s|l|f]; try reflexivity.
  unfold supported. destruct (among ["always"; "error"; "never"] s); reflexivity.
Qed.

Ltac branches :=
  repeat first
    [ progress rs
    | match goal with
      | |- context [if ?b then _ else _] => destruct b eqn:?
      | |- context [match arg0 ?e with _ => _ end] => destruct (arg0 e) eqn:?
      | |- context [match mattermost ?l with _ => _ end] => destruct (mattermost l) eqn:?
      | |- context [match email ?l with _ => _ end] => destruct (email l) eqn:?
      end ].

Lemma send_notification_calls (m : Mattermost) (d : Desk) :
  length (tasks m) = length (status m) ->
  let d' := snd (send_notification_ m d) in
  calls d' = calls d ++ [Post (webhook m)
                           ("#### Archiving report for "
                            +:+ strftime_BdY (date_today (outside d)) +:+ nl
                            +:+ rows (tasks m) (status m))]
  /\ (email (log d) = None -> email (log d') = None).
Proof.
  intros H. unfold send_notification_. rs.
  rewrite (format_notification_spec m _ H). rs.
  destruct (requests_post _ _ _) as [code|e]; rs.
  - destruct (raise_for_status _ _) as [[]|e]; rs; [auto|].
    branches; split; auto; intros; try discriminate; auto; congruence.
  - branches; split; auto; intros; try discriminate; auto; congruence.
Qed.

Lemma count_app (lv : severity) (es es' : list StatusEvent) :
  count lv (es ++ es') = (count lv es + count lv es')%nat.
Proof. unfold count. rewrite List.filter_app, length_app. reflexivity. Qed.

Lemma logged_app (es es' : list StatusEvent) (l : Log) :
  logged es' (logged es l) = logged (es ++ es') l.
Proof.
  destruct l as [ne nw mm sn em se]. unfold logged.
  cbn [nb_error nb_warning mattermost email send_notification send_emails].
  rewrite !count_app, !Nat.add_assoc. f_equal.
  - destruct mm; cbn; [|reflexivity]. rewrite !map_app, <- !app_assoc. reflexivity.
  - destruct em; cbn; [|reflexivity]. rewrite !map_app, <- !app_assoc. reflexivity.
Qed.

Lemma count_init_events (notification_ : json) :
  count ERROR (init_events notification_) = 0%nat.
Proof.
  unfold init_events. destruct notification_; try reflexivity;
    destruct (supported _); reflexivity.
Qed.

Lemma send_notification_email_calls (d : Desk) (m : Mattermost) (v : json) :
  mattermost (log d) = Some m ->
  length (tasks m) = length (status m) ->
  send_notification (log d) = Some v ->
  v <> JNull ->
  email (log d) = None ->
  calls (snd (send_notification_email d))
  = calls d
    ++ (if is_str "always" v || (is_str "error" v && (0 <? nb_error (log d))%nat)
        then [Post (webhook m)
                ("#### Archiving report for "
                 +:+ strftime_BdY (date_today (outside d)) +:+ nl
                 +:+ rows (tasks m) (status m))]
        else []).
Proof.
  intros Hm Hlen Hv Hnull He.
  unfold send_notification_email. rs. rewrite Hm, Hv.
  destruct (is_str "always" v || _) eqn:Eb.
  - destruct (send_notification_calls m d Hlen) as [Hc Hk].
    specialize (Hk He).
    assert (E : (match v with JNull => ret tt | _ => send_notification_ m end) d
                = send_notification_ m d) by (destruct v; congruence).
    unfold bind at 1. rewrite E.
    destruct (send_notification_ m d) as [[[]|x] d1]; cbn [snd] in *; rs.
    + rewrite Hk. rs. exact Hc.
    + exact Hc.
  - assert (E : (match v with JNull => ret tt | _ => ret tt end) d = (Done tt, d))
      by (destruct v; reflexivity).
    unfold bind at 1. rewrite E. rs. rewrite He. rs. rewrite app_nil_r. reflexivity.
Qed.

(** X22. With a notification value and no email configuration, a run whose
    events are [es] makes one post or none: none for ["never"] and, for
    ["error"], when no event is an error; in all other cases, unsupported
    values included, one post to the webhook whose text is the table of
    the events, after the warning of [__init__] about the value if there
    is one.  No other call leaves the process, whether the post fails or
    not. *)
Theorem report_posts_table (notification_ webhook_ : json) (es : list StatusEvent)
    (d : Desk) :
  calls (snd ((Log_init notification_ JNull webhook_ ;;; emit_all es ;;;
               send_notification_email) d))
  = calls d
    ++ (if notifies notification_ es then
          [Post (webhook (Mattermost_init webhook_))
                (notification (date_today (outside d)) (init_events notification_ ++ es))]
        else []).
Proof.
  rewrite (bind_Done _ _ _ _ _ (Log_init_no_email notification_ webhook_ d)).
  rewrite (bind_Done _ _ _ _ _ (emit_all_spec es _)).
  cbn [outside log logfile calls]. rewrite logged_app.
  set (evs := init_events notification_ ++ es).
  assert (Herr : count ERROR evs = count ERROR es)
    by (unfold evs; rewrite count_app, count_init_events; reflexivity).
  destruct notification_ as [|b|n|s|l|f].
  { unfold send_notification_email, logged; rs. rewrite app_nil_r. reflexivity. }
  all: match goal with
       | |- context [send_notification_email ?d0] =>
           rewrite (send_notification_email_calls d0 _ _ eq_refl
                      ltac:(cbn; rewrite ?length_app, ?length_map; reflexivity)
                      eq_refl)
       end;
    cbn [log logged nb_error outside calls tasks status webhook]; rewrite ?Herr;
    try reflexivity;
    try discriminate;
    try (destruct (supported _); discriminate).
  cbn [notifies supported].
  destruct (among ["always"; "error"; "never"] s) eqn:Es.
  - unfold among in Es. cbn [existsb] in Es.
    destruct (String.eqb_spec s "always") as [->|_]; [reflexivity|].
    destruct (String.eqb_spec s "error") as [->|_]; [reflexivity|].
    destruct (String.eqb_spec s "never") as [->|_]; [reflexivity|discriminate Es].
  - unfold among in Es. cbn [existsb] in Es.
    cbn [is_str].
    destruct (String.eqb_spec s "always") as [->|_]; [discriminate Es|].
    destruct (String.eqb_spec s "error") as [->|_]; [discriminate Es|].
    destruct (String.eqb_spec s "never") as [->|_]; [discriminate Es|reflexivity].
Qed.


(** ** Failures of the post *)

(** X24. When the post fails with an exception of [requests]
    ([RequestException], which covers connection errors, timeouts and the
    [HTTPError] that [raise_for_status] raises for a status from 400 to
    599, whose first argument is a [str]), [send_notification] returns
    normally: the post is the only call, the log file gets exactly one
    more record, a warning named "Mattermost notification", and
    [nb_warning] grows by one while [nb_error] stays. *)
Theorem send_notification_absorbs (m : Mattermost) (d : Desk) (e : exc) :
  length (tasks m) = length (status m) ->
  post_failure (outside d) (webhook m)
    (notification_text (date_today (outside d)) m) = Some e ->
  isinstance e "requests.exceptions.RequestException" = true ->
  (isinstance e "requests.exceptions.ConnectionError" = false ->
   isinstance e "requests.exceptions.HTTPError" = true ->
   exists s, arg0 e = StrArg s) ->
  exists (msg : string) (d' : Desk),
    send_notification_ m d = (Done tt, d')
    /\ calls d' = calls d ++ [Post (webhook m)
                               (notification_text (date_today (outside d)) m)]
    /\ logfile d' = logfile d ++ [(WARNING, "Mattermost notification", Some (VStr msg))]
    /\ nb_warning (log d') = S (nb_warning (log d))
    /\ nb_error (log d') = nb_error (log d).
Proof.
  intros Hlen Hf Hreq Harg. unfold send_notification_. rs.
  rewrite (format_notification_spec m _ Hlen). rs.
  unfold post_failure, notification_text in Hf.
  assert (Hbody :
    (add_call (Post (webhook m)
        ("#### Archiving report for " +:+ strftime_BdY (date_today (outside d))
         +:+ nl +:+ rows (tasks m) (status m))) ;;;
     status_code <- lift (requests_post (outside d) (webhook m)
        ("#### Archiving report for " +:+ strftime_BdY (date_today (outside d))
         +:+ nl +:+ rows (tasks m) (status m))) ;;
     lift (raise_for_status (outside d) status_code)) d
    = (Raised e, MkDesk (outside d) (log d) (logfile d)
         (calls d ++ [Post (webhook m)
            ("#### Archiving report for " +:+ strftime_BdY (date_today (outside d))
             +:+ nl +:+ rows (tasks m) (status m))]))).
  { rs. destruct (requests_post _ _ _) as [code|x]; rs.
    - destruct (raise_for_status _ _) as [[]|x]; [discriminate Hf|].
      injection Hf as ->. reflexivity.
    - injection Hf as ->. reflexivity. }
  unfold try_except, notification_text. rewrite Hbody.
  destruct (isinstance e "requests.exceptions.ConnectionError") eqn:E1.
  { destruct d as [o [ne nw [mm|] sn [em|] se] f c];
      eexists _, _; rs; repeat split; reflexivity. }
  destruct (isinstance e "requests.exceptions.HTTPError") eqn:E2.
  { destruct (Harg eq_refl eq_refl) as [s ->].
    destruct d as [o [ne nw [mm|] sn [em|] se] f c];
      eexists _, _; rs; repeat split; reflexivity. }
  destruct (isinstance e "requests.exceptions.Timeout") eqn:E3.
  { destruct d as [o [ne nw [mm|] sn [em|] se] f c];
      eexists _, _; rs; repeat split; reflexivity. }
  rewrite Hreq.
  destruct d as [o [ne nw [mm|] sn [em|] se] f c];
    eexists _, _; rs; repeat split; reflexivity.
Qed.


(** ** What every statement keeps *)

Section Always.
Context (T : Desk -> Desk -> Prop) (Trefl : forall d, T d d)
        (Ttrans : forall d1 d2 d3, T d1 d2 -> T d2 d3 -> T d1 d3).

Lemma always_ret {A} (a : A) : always T (ret a).
Proof. intros d r d' H. injection H as _ <-. apply Trefl. Qed.

Lemma always_raise {A} (e : exc) : always T (@raise A e).
Proof. intros d r d' H. injection H as _ <-. apply Trefl. Qed.

Lemma always_lift {A} (o : outcome A) : always T (lift o).
Proof. intros d r d' H. injection H as _ <-. apply Trefl. Qed.

Lemma always_gets {A} (f : Desk -> A) : always T (gets f).
Proof. intros d r d' H. injection H as _ <-. apply Trefl. Qed.

Lemma always_modify (f : Desk -> Desk) : (forall d, T d (f d)) -> always T (modify f).
Proof. intros Hf d r d' H. injection H as _ <-. apply Hf. Qed.

Lemma always_bind {A B} (c : R A) (k : A -> R B) :
  always T c -> (forall a, always T (k a)) -> always T (bind c k).
Proof.
  intros Hc Hk d r d' H. unfold bind in H.
  destruct (c d) as [[a|e] d1] eqn:E.
  - eapply Ttrans; [eapply Hc; exact E | eapply Hk; exact H].
  - injection H as _ <-. eapply Hc; exact E.
Qed.

Lemma always_try {A} (body : R A) (handlers : exc -> option (R A)) :
  always T body -> (forall e h, handlers e = Some h -> always T h) ->
  always T (try_except body handlers).
Proof.
  intros Hb Hh d r d' H. unfold try_except in H.
  destruct (body d) as [[a|e] d1] eqn:E.
  - injection H as _ <-. eapply Hb; exact E.
  - destruct (handlers e) as [h|] eqn:Eh.
    + eapply Ttrans; [eapply Hb; exact E | eapply Hh; [exact Eh | exact H]].
    + injection H as _ <-. eapply Hb; exact E.
Qed.

End Always.

Lemma in_step_spec (d : Desk) :
  in_step d = true <->
  nb_error (log d) = count_records ERROR (logfile d)
  /\ nb_warning (log d) = count_records WARNING (logfile d)
  /\ match mattermost (log d) with
     | Some m => length (tasks m) = (2 + length (logfile d))%nat
                 /\ length (status m) = (2 + length (logfile d))%nat
     | None => True
     end.
Proof.
  unfold in_step. rewrite !andb_true_iff, !Nat.eqb_eq.
  destruct (mattermost (log d)).
  - rewrite andb_true_iff, !Nat.eqb_eq. tauto.
  - tauto.
Qed.

Lemma steady_refl (d : Desk) : steady d d.
Proof. intros H; exact H. Qed.

Lemma steady_trans (d1 d2 d3 : Desk) : steady d1 d2 -> steady d2 d3 -> steady d1 d3.
Proof. unfold steady; auto. Qed.

Lemma steady_same (d d' : Desk) :
  nb_error (log d') = nb_error (log d) ->
  nb_warning (log d') = nb_warning (log d) ->
  mattermost (log d') = mattermost (log d) ->
  logfile d' = logfile d ->
  steady d d'.
Proof.
  intros H1 H2 H3 H4 H. unfold in_step in *. rewrite H1, H2, H3, H4. exact H.
Qed.

Lemma count_records_snoc (lv lv' : severity) (a : string) (m : option value)
    (f : list record) :
  count_records lv (f ++ [(lv', a, m)])
  = (count_records lv f + if has_level lv lv' then 1 else 0)%nat.
Proof.
  unfold count_records. rewrite List.filter_app, length_app. cbn.
  destruct (has_level lv lv'); reflexivity.
Qed.

Lemma steady_record (lv : severity) (a : string) (m : option value) (sym : string)
    (d : Desk) (em : option Email) :
  steady d
    (MkDesk (outside d)
       (MkLog (nb_error (log d) + if has_level ERROR lv then 1 else 0)
              (nb_warning (log d) + if has_level WARNING lv then 1 else 0)
              (option_map (append_row a sym) (mattermost (log d)))
              (send_notification (log d)) em (send_emails (log d)))
       (logfile d ++ [(lv, a, m)]) (calls d)).
Proof.
  intros H. apply in_step_spec in H. apply in_step_spec.
  destruct H as (H1 & H2 & H3). cbn [log logfile nb_error nb_warning mattermost].
  rewrite !count_records_snoc, length_app. cbn [length].
  repeat split; try lia.
  destruct (mattermost (log d)) as [mm|]; cbn; [|exact I].
  rewrite !length_app. cbn. lia.
Qed.

Lemma always_info (a : string) (m : option value) : always steady (info a m).
Proof.
  intros d r d' H.
  destruct d as [o [ne nw mm sn em se] f c].
  destruct m as [[| |]|], mm as [mm|], em as [em|]; rsin H; injection H as _ <-;
    match goal with
    | |- steady ?d0 (MkDesk _ (MkLog _ _ _ _ ?e _) (_ ++ [(_, _, ?m)]) _) =>
        let Hs := fresh in
        pose proof (steady_record INFO a m " :white_check_mark: " d0 e) as Hs;
        cbn in Hs; rewrite ?Nat.add_0_r, ?Nat.add_1_r in Hs; exact Hs
    end.
Qed.

Lemma always_error (a : string) (m : option value) : always steady (error a m).
Proof.
  intros d r d' H.
  destruct d as [o [ne nw mm sn em se] f c].
  destruct m as [[| |]|], mm as [mm|], em as [em|]; rsin H; injection H as _ <-;
    match goal with
    | |- steady ?d0 (MkDesk _ (MkLog _ _ _ _ ?e _) (_ ++ [(_, _, ?m)]) _) =>
        let Hs := fresh in
        pose proof (steady_record ERROR a m " :x: " d0 e) as Hs;
        cbn in Hs; rewrite ?Nat.add_0_r, ?Nat.add_1_r in Hs; exact Hs
    end.
Qed.

Lemma always_warning (a : string) (m : option value) : always steady (warning a m).
Proof.
  intros d r d' H.
  destruct d as [o [ne nw mm sn em se] f c].
  destruct m as [[| |]|], mm as [mm|], em as [em|]; rsin H; injection H as _ <-;
    match goal with
    | |- steady ?d0 (MkDesk _ (MkLog _ _ _ _ ?e _) (_ ++ [(_, _, ?m)]) _) =>
        let Hs := fresh in
        pose proof (steady_record WARNING a m " :warning: " d0 e) as Hs;
        cbn in Hs; rewrite ?Nat.add_0_r, ?Nat.add_1_r in Hs; exact Hs
    end.
Qed.

Create HintDb steady.

Lemma always_set_email (f : Email -> Email) : always steady (set_email f).
Proof.
  apply always_modify. intros [o [ne nw mm sn [em|] se] fl c];
    apply steady_same; reflexivity.
Qed.

Lemma always_add_call (c : call) : always steady (add_call c).
Proof. apply always_modify. intros d. apply steady_same; reflexivity. Qed.

Ltac handler_cases :=
  let e := fresh "e" in
  let h := fresh "h" in
  let H := fresh "Hh" in
  intros e h H; cbv beta in H;
  repeat match type of H with
         | context [if ?b then _ else _] => destruct b
         end;
  try discriminate H; injection H as <-.

Ltac steadily :=
  repeat first
    [ exact steady_refl
    | exact steady_trans
    | apply always_ret
    | apply always_raise
    | apply always_lift
    | apply always_gets
    | apply always_info
    | apply always_error
    | apply always_warning
    | apply always_set_email
    | apply always_add_call
    | solve [auto with steady]
    | apply (always_bind steady)
    | apply (always_try steady); [ | | handler_cases ]
    | progress intros
    | match goal with
      | |- always _ (if ?b then _ else _) => destruct b
      | |- always _ (match ?x with _ => _ end) => destruct x
      | |- always _ (let '(_, _) := ?p in _) => destruct p
      end
    | progress unfold item, lower, to_int, concat, or_raise, get_email, get_settings,
        server_attr, subject_line ].

Lemma always_send_notification_ (m : Mattermost) : always steady (send_notification_ m).
Proof. unfold send_notification_. steadily. Qed.

Lemma always_attach_file : always steady attach_file.
Proof. unfold attach_file. steadily. Qed.

Lemma always_login : always steady login.
Proof. unfold login. steadily. Qed.

#[local] Hint Resolve always_send_notification_ always_attach_file always_login : steady.

Lemma always_login_and_send : always steady login_and_send.
Proof. unfold login_and_send. steadily. Qed.

#[local] Hint Resolve always_login_and_send : steady.

Lemma always_send_stmp : always steady send_stmp.
Proof. unfold send_stmp. steadily. Qed.

Lemma always_send_internal_server : always steady send_internal_server.
Proof. unfold send_internal_server. steadily. Qed.

#[local] Hint Resolve always_send_stmp always_send_internal_server : steady.

Lemma always_send_email : always steady send_email.
Proof. unfold send_email. steadily. Qed.

#[local] Hint Resolve always_send_email : steady.

Lemma always_send_notification_email : always steady send_notification_email.
Proof. unfold send_notification_email. steadily. Qed.

Lemma always_validate_loop (n : nat) :
  forall (i : nat) (l : list json) (removable : bool),
    always steady (validate_loop n i l removable).
Proof.
  induction n as [|n IH]; intros i l removable; cbn [validate_loop]; steadily.
Qed.

#[local] Hint Resolve always_send_notification_email always_validate_loop : steady.

Lemma always_Email_init (config_ : json) : always steady (Email_init config_).
Proof. unfold Email_init, elements. steadily. Qed.

Lemma always_invoke_all (cs : list method) : always steady (invoke_all cs).
Proof.
  induction cs as [|c cs IH]; cbn [invoke_all]; [steadily|].
  apply (always_bind steady); [exact steady_trans | | intros; exact IH].
  destruct c; cbn [invoke]; steadily.
Qed.

(** [Log.__init__] up to the creation of the [Email] object. *)
Lemma Log_init_split (notification_ emails_ webhook_ : json) (d : Desk) :
  exists (d1 : Desk) (rest : R unit),
    in_step d1 = true /\ always steady rest
    /\ Log_init notification_ emails_ webhook_ d = rest d1.
Proof.
  unfold Log_init.
  set (rest := match emails_ with JNull => ret tt | _ => _ end).
  assert (Hrest : always steady rest).
  { unfold rest. destruct emails_; steadily; apply always_modify; intros d0;
      apply steady_same; reflexivity. }
  destruct notification_ as [|b|n|s|l|f];
    try (eexists _, rest; split; [|split; [exact Hrest|]]; [|rs; reflexivity];
         reflexivity).
  destruct (among ["always"; "error"; "never"] s) eqn:Es.
  - eexists _, rest; split; [|split; [exact Hrest|]]; [|rs; reflexivity].
    reflexivity.
  - eexists _, rest; split; [|split; [exact Hrest|]]; [|rs; reflexivity].
    reflexivity.
Qed.

(** X25. After [Log.__init__] and any sequence of calls of [info], [error],
    [warning] and [send_notification_email], with any messages and any
    answers of the servers, and whether or not one of the calls ends in an
    exception: [nb_error] and [nb_warning] are the numbers of error and
    warning records written to the log file since [__init__], and the
    table of the notification, when there is one, has one row per
    record under its two heading rows. *)
Theorem counters_match_log_file (notification_ emails_ webhook_ : json)
    (cs : list method) (d : Desk) :
  in_step (snd ((Log_init notification_ emails_ webhook_ ;;; invoke_all cs) d)) = true.
Proof.
  destruct (Log_init_split notification_ emails_ webhook_ d) as (d1 & rest & H1 & Hr & E).
  unfold bind at 1. rewrite E.
  destruct (rest d1) as [[[]|e] d2] eqn:E2.
  - pose proof (Hr _ _ _ E2 H1) as H2.
    destruct (invoke_all cs d2) as [r d3] eqn:E3.
    exact (always_invoke_all cs _ _ _ E3 H2).
  - exact (Hr _ _ _ E2 H1).
Qed.


(** ** An email configuration that lacks a key *)

Ltac rs' :=
  cbv [bind ret raise lift gets modify try_except set_log add_call logging
       info error warning on_mattermost on_email add_content concat
       outside log logfile calls
       nb_error nb_warning mattermost send_notification email send_emails
       tasks status webhook server content err_warning settings
       set_info set_warning set_error append_row
       host port auth include_log title dest
       get_email get_settings set_email or_raise server_attr
       item lower to_int
       option_map fst snd].

Lemma Email_init_missing (fields : list (string * json)) (k : string) (d : Desk) :
  email_missing fields = Some k ->
  include_log_str fields = true ->
  email (log d) = None ->
  Email_init (JObj fields) d
  = (Done (MkEmail false [] None None),
     MkDesk (outside d)
       (MkLog (S (nb_error (log d))) (nb_warning (log d))
              (option_map (set_error "JSON file read") (mattermost (log d)))
              (send_notification (log d)) None (send_emails (log d)))
       (logfile d ++ [(ERROR, "JSON file read", Some (VStr k))]) (calls d)).
Proof.
  intros Hk Hil He.
  destruct d as [o [ne nw mm sn em se] f c]. cbn in He. subst em.
  unfold email_missing, first_missing, include_log_str in *.
  cbn [List.find] in Hk.
  unfold Email_init.
  destruct (assoc "auth" fields) as [a|] eqn:Ea.
  2:{ injection Hk as <-. rs'. rewrite Ea. destruct mm; reflexivity. }
  destruct (assoc "include_log" fields) as [il|] eqn:Ei.
  2:{ injection Hk as <-. rs'. rewrite Ea, Ei. destruct mm; reflexivity. }
  destruct il as [|?|?|il| |]; try discriminate Hil.
  destruct (assoc "title" fields) as [t|] eqn:Et.
  2:{ injection Hk as <-. rs'. rewrite Ea, Ei, Et. destruct mm; reflexivity. }
  destruct (assoc "dest" fields) as [ds|] eqn:Ed.
  2:{ injection Hk as <-. rs'. rewrite Ea, Ei, Et, Ed. destruct mm; reflexivity. }
  destruct (assoc "server" fields) as [sv|] eqn:Es.
  2:{ injection Hk as <-. rs'. rewrite Ea, Ei, Et, Ed, Es. destruct mm; reflexivity. }
  destruct sv as [| | | | |sub]; try discriminate Hk.
  cbn [List.find] in Hk.
  destruct (assoc "host" sub) as [h|] eqn:Eh.
  2:{ injection Hk as <-. rs'. rewrite Ea, Ei, Et, Ed, Es, Eh. destruct mm; reflexivity. }
  destruct (assoc "port" sub) as [p|] eqn:Ep; [discriminate Hk|].
  injection Hk as <-. rs'. rewrite Ea, Ei, Et, Ed, Es, Eh, Ep. destruct mm; reflexivity.
Qed.

Lemma among_no_yes (v : string) :
  among ["yes"; "y"; "no"; "n"] v = true -> among ["no"; "n"] v = false ->
  among ["yes"; "y"] v = true.
Proof.
  unfold among. cbn [existsb].
  destruct (v =? "yes")%string, (v =? "y")%string, (v =? "no")%string,
    (v =? "n")%string; cbn; congruence.
Qed.



(** ** The email *)

Ltac rs'' :=
  cbv [bind ret raise lift gets modify try_except set_log add_call logging
       info error warning on_mattermost on_email add_content concat
       outside log logfile calls
       nb_error nb_warning mattermost send_notification email send_emails
       tasks status webhook server content err_warning settings
       set_info set_warning set_error append_row
       host port auth include_log title dest
       get_email get_settings set_email or_raise server_attr
       item lower to_int subject_line
       option_map fst snd].



Ltac cases :=
  repeat first
    [ progress rs''
    | match goal with
      | |- context [match ?x with _ => _ end] =>
          lazymatch x with
          | context [match _ with _ => _ end] => fail
          | _ => destruct x eqn:?
          end
      end ].



(** ** The recipients *)

Lemma remove_str_at (s : string) (l1 l2 : list json) :
  ~ In (JStr s) l1 -> remove_str s (l1 ++ JStr s :: l2) = l1 ++ l2.
Proof.
  induction l1 as [|x l1 IH]; intros Hn.
  - cbn. rewrite String.eqb_refl. reflexivity.
  - assert (Hx : x <> JStr s) by (intros ->; apply Hn; left; reflexivity).
    assert (Hr : ~ In (JStr s) l1) by (intros H; apply Hn; right; exact H).
    destruct x as [| | |t| |]; cbn [app remove_str]; rewrite ?(IH Hr); try reflexivity.
    destruct (String.eqb_spec s t) as [->|_]; [congruence|reflexivity].
Qed.

Lemma warning_str (a m : string) (d : Desk) :
  exists d', warning a (Some (VStr m)) d = (Done tt, d') /\ outside d' = outside d.
Proof.
  destruct d as [o [ne nw [mm|] sn [em|] se] f c]; eexists; split; reflexivity.
Qed.

Lemma validate_loop_past (n : nat) (l : list json) (i : nat) (d : Desk) :
  (length l <= i)%nat -> validate_loop n i l true d = (Done l, d).
Proof.
  intros H. destruct n; [reflexivity|]. cbn [validate_loop].
  destruct (nth_error l i) eqn:E; [|reflexivity].
  assert (Hlt : (i < length l)%nat) by (apply List.nth_error_Some; rewrite E; discriminate).
  lia.
Qed.

Lemma nth_error_middle (l1 l2 : list json) (x : json) :
  nth_error (l1 ++ x :: l2) (length l1) = Some x.
Proof. induction l1; [reflexivity | assumption]. Qed.

Lemma validate_loop_keeps (n : nat) :
  forall (l1 l2 l' : list json) (d d' : Desk),
    List.NoDup (l1 ++ l2) ->
    validate_loop n (length l1) (l1 ++ l2) true d = (Done l', d') ->
    (forall x, In x l1 -> In x l') /\ (forall x, In x l' -> In x (l1 ++ l2)).
Proof.
  induction n as [|n IH]; intros l1 l2 l' d d' Hnd H.
  - injection H as <- _. split; intros x Hx; [apply in_or_app; left|]; exact Hx.
  - destruct l2 as [|e l2].
    + rewrite validate_loop_past in H by (rewrite length_app; simpl; lia).
      injection H as <- _. split; intros x Hx; [apply in_or_app; left|]; exact Hx.
    + cbn [validate_loop] in H. rewrite nth_error_middle in H.
      cbv [bind gets lift] in H.
      destruct (validate_email (outside d) e) as [[|]|y] eqn:Ev; [| |discriminate H].
      * replace (S (length l1)) with (length (l1 ++ [e])) in H
          by (rewrite length_app; simpl; lia).
        change (l1 ++ e :: l2) with (l1 ++ [e] ++ l2) in H, Hnd |- *.
        rewrite app_assoc in H, Hnd.
        destruct (IH _ _ _ _ _ Hnd H) as [Ha Hb].
        split.
        -- intros x Hx. apply Ha. apply in_or_app. left. exact Hx.
        -- intros x Hx. rewrite app_assoc. apply Hb. exact Hx.
      * destruct e as [| | |s| |]; try discriminate H.
        destruct (warning_str "Email config" (s +:+ " is not valid.") d) as (d1 & Ew & _).
        fold (bind (warning "Email config" (Some (VStr (s +:+ " is not valid."))))
                (fun _ => validate_loop n (S (length l1))
                            (remove_str s (l1 ++ JStr s :: l2)) true) d) in H.
        rewrite (bind_Done _ _ _ _ _ Ew) in H.
        assert (Hs : ~ In (JStr s) l1).
        { intros Hin. apply NoDup_remove_2 in Hnd. apply Hnd.
          apply in_or_app. left. exact Hin. }
        rewrite (remove_str_at s l1 l2 Hs) in H.
        apply NoDup_remove_1 in Hnd.
        assert (Hsub : forall x, In x (l1 ++ l2) -> In x (l1 ++ JStr s :: l2)).
        { intros x Hx. apply in_app_or in Hx as [Hx|Hx]; apply in_or_app;
            [left | right; right]; exact Hx. }
        destruct l2 as [|b l2].
        -- rewrite app_nil_r in H.
           rewrite validate_loop_past in H by lia.
           injection H as <- _. split; intros x Hx; [|apply in_or_app; left]; exact Hx.
        -- replace (S (length l1)) with (length (l1 ++ [b])) in H
             by (rewrite length_app; simpl; lia).
           change (l1 ++ b :: l2) with (l1 ++ [b] ++ l2) in H, Hnd, Hsub.
           rewrite app_assoc in H, Hnd.
           destruct (IH _ _ _ _ _ Hnd H) as [Ha Hb].
           split.
           ++ intros x Hx. apply Ha. apply in_or_app. left. exact Hx.
           ++ intros x Hx. apply Hsub. rewrite app_assoc. apply Hb. exact Hx.
Qed.


Lemma validate_loop_accepts (pre : list json) :
  forall (done rest : list json) (n : nat) (d : Desk),
    (forall x, In x pre -> validate_email (outside d) x = Done true) ->
    validate_loop (length pre + n) (length done) (done ++ pre ++ rest) true d
    = validate_loop n (length done + length pre) (done ++ pre ++ rest) true d.
Proof.
  induction pre as [|x pre IH]; intros done rest n d Hok.
  - cbn. rewrite Nat.add_0_r. reflexivity.
  - cbn [length Nat.add validate_loop].
    change ((x :: pre) ++ rest) with (x :: pre ++ rest).
    rewrite nth_error_middle. cbv [bind gets lift].
    rewrite (Hok x (or_introl eq_refl)).
    replace (S (length done)) with (length (done ++ [x]))
      by (rewrite length_app; simpl; lia).
    change (done ++ x :: pre ++ rest) with (done ++ [x] ++ pre ++ rest).
    rewrite app_assoc.
    rewrite (IH (done ++ [x]) rest n d (fun y Hy => Hok y (or_intror Hy))).
    rewrite length_app. cbn [length]. f_equal. lia.
Qed.

Lemma validate_loop_rejects (n i : nat) (l : list json) (s : string) (d : Desk) :
  nth_error l i = Some (JStr s) ->
  validate_email (outside d) (JStr s) = Done false ->
  validate_loop (S n) i l true d
  = bind (warning "Email config" (Some (VStr (s +:+ " is not valid."))))
         (fun _ => validate_loop n (S i) (remove_str s l) true) d.
Proof.
  intros Hn Hv. cbn [validate_loop]. rewrite Hn.
  unfold bind at 1. unfold gets. unfold bind at 1. unfold lift. rewrite Hv.
  reflexivity.
Qed.

(** X30.  In the loop of [Email.__init__] over distinct recipients, the
    address that follows a rejected one is not examined: when every
    address before [s] is accepted and [s] is rejected, [s] is removed
    from the list and the next address stays in it, whatever the
    validator would answer for it. *)
Theorem rejected_address_shields_next (pre post : list json) (s : string) (b : json)
    (d d' : Desk) (l' : list json) :
  List.NoDup (pre ++ JStr s :: b :: post) ->
  (forall x, In x pre -> validate_email (outside d) x = Done true) ->
  validate_email (outside d) (JStr s) = Done false ->
  validate_loop (length (pre ++ JStr s :: b :: post)) 0
                (pre ++ JStr s :: b :: post) true d = (Done l', d') ->
  In b l' /\ ~ In (JStr s) l'.
Proof.
  intros Hnd Hpre Hs H.
  rewrite length_app in H.
  pose proof (validate_loop_accepts pre [] (JStr s :: b :: post)
                (length (JStr s :: b :: post)) d Hpre) as E.
  cbn [app length Nat.add] in E. cbn [length] in H. rewrite E in H. clear E.
  rewrite (validate_loop_rejects _ _ _ s d (nth_error_middle pre _ _) Hs) in H.
  destruct (warning_str "Email config" (s +:+ " is not valid.") d) as (d1 & Ew & _).
  rewrite (bind_Done _ _ _ _ _ Ew) in H.
  assert (Hnot : ~ In (JStr s) pre).
  { intros Hin. apply NoDup_remove_2 in Hnd. apply Hnd. apply in_or_app. left. exact Hin. }
  rewrite (remove_str_at s pre (b :: post) Hnot) in H.
  pose proof (NoDup_remove_2 _ _ _ Hnd) as Hgone.
  apply NoDup_remove_1 in Hnd.
  replace (S (length pre)) with (length (pre ++ [b])) in H
    by (rewrite length_app; simpl; lia).
  change (pre ++ b :: post) with (pre ++ [b] ++ post) in H, Hnd, Hgone.
  rewrite app_assoc in H, Hnd.
  destruct (validate_loop_keeps _ _ _ _ _ _ Hnd H) as [Ha Hb].
  split.
  - apply Ha. apply in_or_app. right. left. reflexivity.
  - intros Hin. apply Hgone. rewrite app_assoc. apply Hb. exact Hin.
Qed.

(** ** The reports off *)

(** X23.  With a configuration that switches the reports off (no email
    section and a notification that is [None] or ["never"]),
    [Log.__init__] returns without a record, and after any events of a
    run [send_notification_email] returns normally without a call and
    without a record: the log file holds the records of the events and the
    counters their numbers. *)
Theorem reports_off_are_silent (data notification_ emails_ webhook_ : json)
    (es : list StatusEvent) (d : Desk) :
  is_ok (getitem data "url-zip") = true ->
  is_ok (getitem data "file") = true ->
  getitem data "notification" = Ok notification_ ->
  getitem data "email" = Ok emails_ ->
  getitem data "mattermost_webhook" = Ok webhook_ ->
  reports_off data = true ->
  exists d' : Desk,
    (Log_init notification_ emails_ webhook_ ;;; emit_all es ;;;
     send_notification_email) d = (Done tt, d')
    /\ calls d' = calls d
    /\ logfile d' = map record_of es
    /\ nb_error (log d') = count ERROR es
    /\ nb_warning (log d') = count WARNING es.
Proof.
  intros Hu Hf Hn He Hw Hoff. unfold reports_off in Hoff.
  rewrite Hn, He, Hw in Hoff.
  destruct (getitem data "url-zip"); [| discriminate Hu].
  destruct (getitem data "file"); [| discriminate Hf].
  destruct emails_; try discriminate Hoff.
  assert (Hcase : notification_ = JNull \/ notification_ = JStr "never").
  { destruct notification_ as [| | |s| |]; try discriminate Hoff; [left; reflexivity |].
    right. apply String.eqb_eq in Hoff. subst s. reflexivity. }
  clear Hoff.
  rewrite (bind_Done _ _ _ _ _ (Log_init_no_email notification_ webhook_ d)).
  rewrite (bind_Done _ _ _ _ _ (emit_all_spec es _)).
  cbn [outside log logfile calls]. rewrite logged_app.
  destruct Hcase as [-> | ->]; unfold send_notification_email, logged; rs;
    eexists; (split; [reflexivity|]); cbn; auto.
Qed.


(** ** The scenarios of the report, run *)

Import Desks.

(** The configuration of the scenarios switches the reports off: nothing
    leaves the process at the end of a run whose fetch fails. *)
Lemma reports_off_are_silent_witness :
  is_ok (getitem Scenario.config "url-zip") = true
  /\ is_ok (getitem Scenario.config "file") = true
  /\ getitem Scenario.config "notification" = Ok (JStr "never")
  /\ getitem Scenario.config "email" = Ok JNull
  /\ getitem Scenario.config "mattermost_webhook" = Ok JNull
  /\ reports_off Scenario.config = true
  /\ exists d' : Desk,
       (Log_init (JStr "never") JNull JNull ;;; emit_all events_404 ;;;
        send_notification_email) (desk obliging blank) = (Done tt, d')
       /\ calls d' = []
       /\ nb_error (log d') = 1%nat.
Proof.
  repeat (split; [reflexivity |]).
  destruct (reports_off_are_silent Scenario.config (JStr "never") JNull JNull events_404
              (desk obliging blank) eq_refl eq_refl eq_refl eq_refl eq_refl eq_refl)
    as (d' & E & Hc & _ & He & _).
  exists d'. split; [exact E |]. split; [exact Hc | exact He].
Defined.

(** The webhook answers 404: one warning, and the method returns. *)
Lemma send_notification_absorbs_witness :
  let m := Mattermost_init JNull in
  let d := desk webhook_not_found blank in
  length (tasks m) = length (status m)
  /\ (exists e, post_failure (outside d) (webhook m)
                  (notification_text (date_today (outside d)) m) = Some e
                /\ isinstance e "requests.exceptions.RequestException" = true
                /\ isinstance e "requests.exceptions.ConnectionError" = false
                /\ exists s, arg0 e = StrArg s)
  /\ exists (msg : string) (d' : Desk),
       send_notification_ m d = (Done tt, d')
       /\ logfile d' = [(WARNING, "Mattermost notification", Some (VStr msg))]
       /\ nb_warning (log d') = 1%nat.
Proof.
  intros m d. split; [reflexivity |]. split.
  - eexists. split; [reflexivity |]. split; [reflexivity |]. split; [reflexivity |].
    eexists. reflexivity.
  - destruct (send_notification_absorbs m d _ eq_refl eq_refl eq_refl
                (fun _ _ => ex_intro _ _ eq_refl))
      as (msg & d' & E & _ & Hl & Hw & _).
    exists msg, d'. split; [exact E |]. split; [exact Hl | exact Hw].
Defined.





(** Two rejected addresses in a row: the second one stays. *)
Lemma rejected_address_shields_next_witness :
  let l := [JStr "admin@example.org"; JStr "nobody"; JStr "no one"; JStr "ops@example.org"] in
  let d := desk picky blank in
  List.NoDup l
  /\ validate_email (outside d) (JStr "nobody") = Done false
  /\ validate_email (outside d) (JStr "no one") = Done false
  /\ exists l' d',
       validate_loop (length l) 0 l true d = (Done l', d')
       /\ In (JStr "no one") l' /\ ~ In (JStr "nobody") l'.
Proof.
  intros l d.
  assert (Hnd : List.NoDup l).
  { unfold l. repeat constructor; simpl; intuition discriminate. }
  split; [exact Hnd |]. split; [reflexivity |]. split; [reflexivity |].
  destruct (validate_loop (length l) 0 l true d) as [[l' | x] d'] eqn:E.
  2: { vm_compute in E. discriminate E. }
  exists l', d'. split; [reflexivity |].
  apply (rejected_address_shields_next [JStr "admin@example.org"] [JStr "ops@example.org"]
           "nobody" (JStr "no one") d d' l' Hnd).
  - intros x [<- | []]. reflexivity.
  - reflexivity.
  - exact E.
Defined.

End Reporting.
